(** * datachannel-wasm: the handle registry and callback bridge of the C API

    A shallow embedding of [wasm/src/capi.cpp], [wasm/src/datachannel.cpp],
    [wasm/src/websocket.cpp] and [wasm/src/peerconnection.cpp].

    - C++ [int] is a [Z] with the 32-bit wrap-around written out ([to_int]).
    - [std::string] and [binary] are lists of bytes; a [char *] is [None]
      (the null pointer) or the bytes readable from the address.
    - The registry's four [unordered_map]s are [gmap]s keyed by handle.
    - Everything runs in one state-and-exception monad over [World]: the
      registry, the log of calls made to the host (the JavaScript side) and
      the log of client callbacks invoked.  What the host answers is an
      oracle over the log of calls made so far. *)

From Stdlib Require Import ZArith Lia Bool Strings.Byte Strings.String Sorting.Sorted.
From stdpp Require Import base option list gmap strings pretty.

Open Scope Z_scope.

(** ** Integers, strings and pointers *)

Definition INT_MAX : Z := 2147483647.

(** [int(x)]: reduction to the signed 32-bit range. *)
Definition to_int (z : Z) : Z := (z + 2 ^ 31) `mod` 2 ^ 32 - 2 ^ 31.

(** [size_t(x)] on the 32-bit target. *)
Definition to_size_t (z : Z) : Z := z `mod` 2 ^ 32.

(** A [uint32_t], as the fields of the Emscripten events are. *)
Definition to_uint32 (z : Z) : Z := z `mod` 2 ^ 32.

Definition std_string := list byte.
Definition binary := list byte.
Definition char_ptr := option (list byte).
Definition void_ptr := Z.
Definition fn_ptr := Z.
Definition nullptr : Z := 0.

(** [s.size()] and [b.size()]. *)
Definition size (l : list byte) : Z := Z.of_nat (length l).

Definition str (s : string) : std_string := list_byte_of_string s.

(** [s.c_str()]: the bytes followed by the terminator. *)
Definition c_str (s : std_string) : list byte := s ++ [x00].

(** [string(data)] on a C string: the bytes up to the first NUL. *)
Fixpoint string_of (data : list byte) : std_string :=
  match data with
  | [] => []
  | c :: rest => if Byte.eqb c x00 then [] else c :: string_of rest
  end.

(** [binary(b, b + n)]: the first [n] bytes at [b]. *)
Definition binary_of (data : list byte) (n : Z) : binary := take (Z.to_nat n) data.

(** [std::variant<binary, string>] *)
Inductive message_variant :=
| Binary (b : binary)
| Text (s : std_string).

(** ** Status codes (rtc.h) *)

Definition RTC_ERR_SUCCESS : Z := 0.
Definition RTC_ERR_INVALID : Z := -1.
Definition RTC_ERR_FAILURE : Z := -2.
Definition RTC_ERR_NOT_AVAIL : Z := -3.
Definition RTC_ERR_TOO_SMALL : Z := -4.

(** ** The host side *)

Inductive HostCall :=
| js_rtcSetUserPointer (i : Z)
| js_rtcDeleteDataChannel (dc : Z)
| js_rtcGetDataChannelLabel (dc : Z)
| js_rtcGetDataChannelUnordered (dc : Z)
| js_rtcGetDataChannelMaxPacketLifeTime (dc : Z)
| js_rtcGetDataChannelMaxRetransmits (dc : Z)
| js_rtcSetOpenCallback (dc : Z)
| js_rtcSetErrorCallback (dc : Z)
| js_rtcSetMessageCallback (dc : Z)
| js_rtcSetBufferedAmountLowCallback (dc : Z)
| js_rtcGetBufferedAmount (dc : Z)
| js_rtcSetBufferedAmountLowThreshold (dc : Z) (threshold : Z)
| js_rtcSendMessage (dc : Z) (buffer : char_ptr) (sz : Z)
| emscripten_websocket_is_supported
| emscripten_websocket_new (url : std_string)
| emscripten_websocket_set_onopen_callback (ws : Z)
| emscripten_websocket_set_onerror_callback (ws : Z)
| emscripten_websocket_set_onmessage_callback (ws : Z)
| emscripten_websocket_close (ws : Z)
| emscripten_websocket_send_binary (ws : Z) (data : char_ptr) (len : Z)
| emscripten_websocket_send_utf8_text (ws : Z) (text : list byte)
| js_rtcCreatePeerConnection (urls usernames passwords : list std_string) (n : Z)
| js_rtcDeletePeerConnection (pc : Z)
| js_rtcGetLocalDescription (pc : Z)
| js_rtcGetLocalDescriptionType (pc : Z)
| js_rtcGetRemoteDescription (pc : Z)
| js_rtcGetRemoteDescriptionType (pc : Z)
| js_rtcCreateDataChannel (pc : Z) (label : std_string) (unordered : bool)
    (maxRetransmits maxPacketLifeTime : Z)
| js_rtcSetDataChannelCallback (pc : Z)
| js_rtcSetLocalDescriptionCallback (pc : Z)
| js_rtcSetLocalCandidateCallback (pc : Z)
| js_rtcSetStateChangeCallback (pc : Z)
| js_rtcSetIceStateChangeCallback (pc : Z)
| js_rtcSetGatheringStateChangeCallback (pc : Z)
| js_rtcSetSignalingStateChangeCallback (pc : Z)
| js_rtcSetRemoteDescription (pc : Z) (sdp type : std_string)
| js_rtcAddRemoteCandidate (pc : Z) (candidate mid : std_string).

(** ** Client callbacks, as the client observes them *)

Inductive ClientCall :=
| call_rtcOpenCallbackFunc (cb : fn_ptr) (id : Z) (ptr : void_ptr)
| call_rtcClosedCallbackFunc (cb : fn_ptr) (id : Z) (ptr : void_ptr)
| call_rtcErrorCallbackFunc (cb : fn_ptr) (id : Z) (error : list byte) (ptr : void_ptr)
| call_rtcMessageCallbackFunc (cb : fn_ptr) (id : Z) (message : char_ptr) (sz : Z)
    (ptr : void_ptr)
| call_rtcBufferedAmountLowCallbackFunc (cb : fn_ptr) (id : Z) (ptr : void_ptr)
| call_rtcDescriptionCallbackFunc (cb : fn_ptr) (pc : Z) (sdp type : list byte)
    (ptr : void_ptr)
| call_rtcCandidateCallbackFunc (cb : fn_ptr) (pc : Z) (cand mid : list byte)
    (ptr : void_ptr)
| call_rtcStateChangeCallbackFunc (cb : fn_ptr) (pc : Z) (state : Z) (ptr : void_ptr)
| call_rtcIceStateChangeCallbackFunc (cb : fn_ptr) (pc : Z) (state : Z) (ptr : void_ptr)
| call_rtcGatheringStateCallbackFunc (cb : fn_ptr) (pc : Z) (state : Z) (ptr : void_ptr)
| call_rtcSignalingStateCallbackFunc (cb : fn_ptr) (pc : Z) (state : Z) (ptr : void_ptr)
| call_rtcDataChannelCallbackFunc (cb : fn_ptr) (pc : Z) (dc : Z) (ptr : void_ptr).

(** ** Objects *)

(** The C API only ever installs its own lambdas as callbacks; each captures
    the handle and the client's function pointer by value. *)
Record Closure := { cl_id : Z; cl_cb : fn_ptr }.

(** Modelled from the spec: the [Channel] base class ([channel.cpp] is not
    part of the sources).  At most one callback per event kind is stored;
    registering null clears it, registering again replaces it; a trigger
    invokes the stored callback, if any. *)
Record Channel := {
  mOpenCallback : option Closure;
  mClosedCallback : option Closure;
  mErrorCallback : option Closure;
  mMessageCallback : option Closure;
  mBufferedAmountLowCallback : option Closure
}.

Definition Channel_new : Channel :=
  {| mOpenCallback := None; mClosedCallback := None; mErrorCallback := None;
     mMessageCallback := None; mBufferedAmountLowCallback := None |}.

(** Modelled from the spec: the setters of the [Channel] base class
    ([channel.cpp] is not part of the sources) replace the stored callback of
    their event kind; a null callback clears it.  [onMessage] takes the
    binary and the string lambda, which share their capture. *)
Definition onOpen (cb : option Closure) (c : Channel) : Channel :=
  {| mOpenCallback := cb; mClosedCallback := mClosedCallback c;
     mErrorCallback := mErrorCallback c; mMessageCallback := mMessageCallback c;
     mBufferedAmountLowCallback := mBufferedAmountLowCallback c |}.

Definition onClosed (cb : option Closure) (c : Channel) : Channel :=
  {| mOpenCallback := mOpenCallback c; mClosedCallback := cb;
     mErrorCallback := mErrorCallback c; mMessageCallback := mMessageCallback c;
     mBufferedAmountLowCallback := mBufferedAmountLowCallback c |}.

Definition onError (cb : option Closure) (c : Channel) : Channel :=
  {| mOpenCallback := mOpenCallback c; mClosedCallback := mClosedCallback c;
     mErrorCallback := cb; mMessageCallback := mMessageCallback c;
     mBufferedAmountLowCallback := mBufferedAmountLowCallback c |}.

Definition onMessage (cb : option Closure) (c : Channel) : Channel :=
  {| mOpenCallback := mOpenCallback c; mClosedCallback := mClosedCallback c;
     mErrorCallback := mErrorCallback c; mMessageCallback := cb;
     mBufferedAmountLowCallback := mBufferedAmountLowCallback c |}.

Definition onBufferedAmountLow (cb : option Closure) (c : Channel) : Channel :=
  {| mOpenCallback := mOpenCallback c; mClosedCallback := mClosedCallback c;
     mErrorCallback := mErrorCallback c; mMessageCallback := mMessageCallback c;
     mBufferedAmountLowCallback := cb |}.

Record DataChannel := {
  dc_channel : Channel;
  dc_mId : Z;
  dc_mConnected : bool;
  mLabel : std_string
}.

Record WebSocket := {
  ws_channel : Channel;
  ws_mId : Z;
  ws_mConnected : bool
}.

(** What a [shared_ptr<Channel>] points to. *)
Inductive AnyChannel :=
| AsDataChannel (d : DataChannel)
| AsWebSocket (s : WebSocket).

Record Reliability := {
  unordered : bool;
  maxPacketLifeTime : option Z;
  maxRetransmits : option Z
}.

Inductive IceServerType := Stun | Turn | Dummy.
Inductive IceServerRelayType := TurnUdp | TurnTcp | TurnTls.

Record IceServer := {
  ice_type : IceServerType;
  relayType : IceServerRelayType;
  hostname : std_string;
  port : Z;
  username : std_string;
  password : std_string
}.

(** [description.cpp] and [candidate.cpp] are not part of the sources: a
    description is kept as the two strings it is constructed from, and so is
    a candidate; what their accessors return is left to the platform. *)
Record Description := { desc_sdp : std_string; desc_type : std_string }.
Record Candidate := { cand_candidate : std_string; cand_mid : std_string }.

Record PeerConnection := {
  pc_mId : Z;
  mState : Z;
  mIceState : Z;
  mGatheringState : Z;
  mSignalingState : Z;
  mDataChannelCallback : option Closure;
  mLocalDescriptionCallback : option Closure;
  mLocalCandidateCallback : option Closure;
  mStateChangeCallback : option Closure;
  mIceStateChangeCallback : option Closure;
  mGatheringStateChangeCallback : option Closure;
  mSignalingStateChangeCallback : option Closure
}.

(** ** The world: registry, host log, client log *)

Record World := {
  peerConnectionMap : gmap Z PeerConnection;
  dataChannelMap : gmap Z DataChannel;
  webSocketMap : gmap Z WebSocket;
  userPointerMap : gmap Z void_ptr;
  lastId : Z;
  hostLog : list HostCall;
  clientLog : list ClientCall
}.

Definition initial : World :=
  {| peerConnectionMap := ∅; dataChannelMap := ∅; webSocketMap := ∅;
     userPointerMap := ∅; lastId := 0; hostLog := []; clientLog := [] |}.

Definition set_peerConnectionMap (m : gmap Z PeerConnection) (w : World) : World :=
  {| peerConnectionMap := m; dataChannelMap := dataChannelMap w;
     webSocketMap := webSocketMap w; userPointerMap := userPointerMap w;
     lastId := lastId w; hostLog := hostLog w; clientLog := clientLog w |}.

Definition set_dataChannelMap (m : gmap Z DataChannel) (w : World) : World :=
  {| peerConnectionMap := peerConnectionMap w; dataChannelMap := m;
     webSocketMap := webSocketMap w; userPointerMap := userPointerMap w;
     lastId := lastId w; hostLog := hostLog w; clientLog := clientLog w |}.

Definition set_webSocketMap (m : gmap Z WebSocket) (w : World) : World :=
  {| peerConnectionMap := peerConnectionMap w; dataChannelMap := dataChannelMap w;
     webSocketMap := m; userPointerMap := userPointerMap w;
     lastId := lastId w; hostLog := hostLog w; clientLog := clientLog w |}.

Definition set_userPointerMap (m : gmap Z void_ptr) (w : World) : World :=
  {| peerConnectionMap := peerConnectionMap w; dataChannelMap := dataChannelMap w;
     webSocketMap := webSocketMap w; userPointerMap := m;
     lastId := lastId w; hostLog := hostLog w; clientLog := clientLog w |}.

Definition set_lastId (n : Z) (w : World) : World :=
  {| peerConnectionMap := peerConnectionMap w; dataChannelMap := dataChannelMap w;
     webSocketMap := webSocketMap w; userPointerMap := userPointerMap w;
     lastId := n; hostLog := hostLog w; clientLog := clientLog w |}.

Definition set_hostLog (l : list HostCall) (w : World) : World :=
  {| peerConnectionMap := peerConnectionMap w; dataChannelMap := dataChannelMap w;
     webSocketMap := webSocketMap w; userPointerMap := userPointerMap w;
     lastId := lastId w; hostLog := l; clientLog := clientLog w |}.

Definition set_clientLog (l : list ClientCall) (w : World) : World :=
  {| peerConnectionMap := peerConnectionMap w; dataChannelMap := dataChannelMap w;
     webSocketMap := webSocketMap w; userPointerMap := userPointerMap w;
     lastId := lastId w; hostLog := hostLog w; clientLog := l |}.

(** ** The monad: state over [World], with the two exception classes that
    [wrap] tells apart *)

Inductive exn := invalid_argument | runtime_error.

Definition M (A : Type) : Type := World → (exn + A) * World.

#[global] Instance M_ret : MRet M := λ A a w, (inr a, w).

#[global] Instance M_bind : MBind M := λ A B f m w,
  match m w with
  | (inr a, w') => f a w'
  | (inl e, w') => (inl e, w')
  end.

Definition throw {A} (e : exn) : M A := λ w, (inl e, w).

Definition gets {A} (f : World → A) : M A := λ w, (inr (f w), w).

Definition modify (f : World → World) : M unit := λ w, (inr (), f w).

(** What lies outside the sources: the host's answers, as a function of the
    calls made so far (the last one being the call answered), and three
    library details. *)
Record Platform := {
  (** the integer a host call returns *)
  host_ret : list HostCall → Z;
  (** the C string a host call returns or writes (null when absent) *)
  host_buf : list HostCall → char_ptr;
  (** what [data()] returns on an empty vector: the language leaves it open *)
  empty_vec_data : char_ptr;
  (** [IceServer(url)] of [configuration.cpp]; [None] is its
      [invalid_argument] *)
  parseIceServer : std_string → option IceServer;
  (** the message [snprintf] builds in [WebSocket::ErrorCallback] *)
  ws_errormsg : Z → Z → list byte;
  (** [string(desc)] and [desc.typeString()] of [description.cpp] *)
  description_string : Description → std_string;
  description_typeString : Description → std_string;
  (** [cand.candidate()] and [cand.mid()] of [candidate.cpp] *)
  candidate_candidate : Candidate → std_string;
  candidate_mid : Candidate → std_string;
  (** the order in which [clear()] destroys the elements of an
      [unordered_map] that holds these keys: the library leaves it open, so
      it may depend on anything, and it is some arrangement of the keys *)
  clear_order : World → list Z → list Z;
  clear_order_perm : ∀ w keys, clear_order w keys ≡ₚ keys
}.

Section Program.

Variable P : Platform.

(** A call into the host: it is logged, and the host answers. *)
Definition call (c : HostCall) : M Z := λ w,
  let log := hostLog w ++ [c] in (inr (host_ret P log), set_hostLog log w).

Definition call_buf (c : HostCall) : M char_ptr := λ w,
  let log := hostLog w ++ [c] in (inr (host_buf P log), set_hostLog log w).

(** A call of a client function pointer. *)
Definition client (c : ClientCall) : M unit :=
  modify (λ w, set_clientLog (clientLog w ++ [c]) w).

(** [b.data()] *)
Definition vec_data (b : binary) : char_ptr :=
  match b with
  | [] => empty_vec_data P
  | _ :: _ => Some b
  end.

(** ** capi.cpp: the registry *)

Definition getUserPointer (id : Z) : M (option void_ptr) :=
  gets (λ w, userPointerMap w !! id).

Definition setUserPointer (i : Z) (ptr : void_ptr) : M unit :=
  modify (λ w, set_userPointerMap (<[i := ptr]> (userPointerMap w)) w).

Definition getPeerConnection (id : Z) : M PeerConnection :=
  it ← gets (λ w, peerConnectionMap w !! id);
  match it with
  | Some pc => mret pc
  | None => throw invalid_argument
  end.

Definition getDataChannel (id : Z) : M DataChannel :=
  it ← gets (λ w, dataChannelMap w !! id);
  match it with
  | Some dc => mret dc
  | None => throw invalid_argument
  end.

(** [emplace] keeps an entry that is already there. *)
Definition emplace {V} (k : Z) (v : V) (m : gmap Z V) : gmap Z V :=
  match m !! k with
  | Some _ => m
  | None => <[k := v]> m
  end.

Definition emplacePeerConnection (ptr : PeerConnection) : M Z :=
  id ← gets (λ w, to_int (lastId w + 1));
  modify (set_lastId id);;
  modify (λ w, set_peerConnectionMap (emplace id ptr (peerConnectionMap w)) w);;
  modify (λ w, set_userPointerMap (emplace id nullptr (userPointerMap w)) w);;
  mret id.

Definition emplaceDataChannel (ptr : DataChannel) : M Z :=
  id ← gets (λ w, to_int (lastId w + 1));
  modify (set_lastId id);;
  modify (λ w, set_dataChannelMap (emplace id ptr (dataChannelMap w)) w);;
  modify (λ w, set_userPointerMap (emplace id nullptr (userPointerMap w)) w);;
  mret id.

Definition erasePeerConnection (pc : Z) : M unit :=
  it ← gets (λ w, peerConnectionMap w !! pc);
  match it with
  | None => throw invalid_argument
  | Some _ =>
      modify (λ w, set_peerConnectionMap (delete pc (peerConnectionMap w)) w);;
      modify (λ w, set_userPointerMap (delete pc (userPointerMap w)) w)
  end.

Definition eraseDataChannel (dc : Z) : M unit :=
  it ← gets (λ w, dataChannelMap w !! dc);
  match it with
  | None => throw invalid_argument
  | Some _ =>
      modify (λ w, set_dataChannelMap (delete dc (dataChannelMap w)) w);;
      modify (λ w, set_userPointerMap (delete dc (userPointerMap w)) w)
  end.

Definition getChannel (id : Z) : M AnyChannel :=
  it ← gets (λ w, dataChannelMap w !! id);
  match it with
  | Some dc => mret (AsDataChannel dc)
  | None =>
      it ← gets (λ w, webSocketMap w !! id);
      match it with
      | Some ws => mret (AsWebSocket ws)
      | None => throw invalid_argument
      end
  end.

Definition eraseChannel (id : Z) : M unit :=
  it ← gets (λ w, dataChannelMap w !! id);
  match it with
  | Some _ =>
      modify (λ w, set_dataChannelMap (delete id (dataChannelMap w)) w);;
      modify (λ w, set_userPointerMap (delete id (userPointerMap w)) w)
  | None =>
      it ← gets (λ w, webSocketMap w !! id);
      match it with
      | Some _ =>
          modify (λ w, set_webSocketMap (delete id (webSocketMap w)) w);;
          modify (λ w, set_userPointerMap (delete id (userPointerMap w)) w)
      | None => throw invalid_argument
      end
  end.

Definition getWebSocket (id : Z) : M WebSocket :=
  it ← gets (λ w, webSocketMap w !! id);
  match it with
  | Some ws => mret ws
  | None => throw invalid_argument
  end.

Definition emplaceWebSocket (ptr : WebSocket) : M Z :=
  id ← gets (λ w, to_int (lastId w + 1));
  modify (set_lastId id);;
  modify (λ w, set_webSocketMap (emplace id ptr (webSocketMap w)) w);;
  modify (λ w, set_userPointerMap (emplace id nullptr (userPointerMap w)) w);;
  mret id.

Definition eraseWebSocket (ws : Z) : M unit :=
  it ← gets (λ w, webSocketMap w !! ws);
  match it with
  | None => throw invalid_argument
  | Some _ =>
      modify (λ w, set_webSocketMap (delete ws (webSocketMap w)) w);;
      modify (λ w, set_userPointerMap (delete ws (userPointerMap w)) w)
  end.

(** The pointer writes back: the object a [shared_ptr] of the registry
    points to is the one stored under the handle. *)
Definition putDataChannel (id : Z) (d : DataChannel) : M unit :=
  modify (λ w, set_dataChannelMap (<[id := d]> (dataChannelMap w)) w).

Definition putWebSocket (id : Z) (s : WebSocket) : M unit :=
  modify (λ w, set_webSocketMap (<[id := s]> (webSocketMap w)) w).

Definition putPeerConnection (id : Z) (p : PeerConnection) : M unit :=
  modify (λ w, set_peerConnectionMap (<[id := p]> (peerConnectionMap w)) w).

Definition putChannel (id : Z) (c : AnyChannel) : M unit :=
  match c with
  | AsDataChannel d => putDataChannel id d
  | AsWebSocket s => putWebSocket id s
  end.

(** ** capi.cpp: the error translator *)

Definition copyAndReturn (s : std_string) (buffer : char_ptr) (sz : Z)
  : Z * char_ptr :=
  match buffer with
  | None => (to_int (size s + 1), None)
  | Some mem =>
      if sz <? to_int (size s + 1) then (RTC_ERR_TOO_SMALL, Some mem)
      else (to_int (size s + 1), Some (s ++ x00 :: drop (S (length s)) mem))
  end.

Definition copyAndReturn_binary (b : binary) (buffer : char_ptr) (sz : Z)
  : Z * char_ptr :=
  match buffer with
  | None => (to_int (size b), None)
  | Some mem =>
      if sz <? to_int (size b) then (RTC_ERR_TOO_SMALL, Some mem)
      else (to_int (size b), Some (b ++ drop (length b) mem))
  end.

Definition wrap (func : M Z) : World → Z * World := λ w,
  match func w with
  | (inr r, w') => (to_int r, w')
  | (inl invalid_argument, w') => (RTC_ERR_INVALID, w')
  | (inl runtime_error, w') => (RTC_ERR_FAILURE, w')
  end.

(** ** capi.cpp: the lambdas the C API installs, one per event kind.  Each
    resolves the user pointer of the captured handle and calls the client
    only when the user-pointer map has an entry. *)

Definition open_lambda (cl : Closure) : M unit :=
  ptr ← getUserPointer (cl_id cl);
  match ptr with
  | Some p => client (call_rtcOpenCallbackFunc (cl_cb cl) (cl_id cl) p)
  | None => mret ()
  end.

Definition closed_lambda (cl : Closure) : M unit :=
  ptr ← getUserPointer (cl_id cl);
  match ptr with
  | Some p => client (call_rtcClosedCallbackFunc (cl_cb cl) (cl_id cl) p)
  | None => mret ()
  end.

Definition error_lambda (cl : Closure) (error : std_string) : M unit :=
  ptr ← getUserPointer (cl_id cl);
  match ptr with
  | Some p => client (call_rtcErrorCallbackFunc (cl_cb cl) (cl_id cl) (c_str error) p)
  | None => mret ()
  end.

Definition message_binary_lambda (cl : Closure) (b : binary) : M unit :=
  ptr ← getUserPointer (cl_id cl);
  match ptr with
  | Some p =>
      client (call_rtcMessageCallbackFunc (cl_cb cl) (cl_id cl) (vec_data b)
                (to_int (size b)) p)
  | None => mret ()
  end.

Definition message_string_lambda (cl : Closure) (s : std_string) : M unit :=
  ptr ← getUserPointer (cl_id cl);
  match ptr with
  | Some p =>
      client (call_rtcMessageCallbackFunc (cl_cb cl) (cl_id cl) (Some (c_str s))
                (to_int (- to_int (size s + 1))) p)
  | None => mret ()
  end.

Definition bufferedAmountLow_lambda (cl : Closure) : M unit :=
  ptr ← getUserPointer (cl_id cl);
  match ptr with
  | Some p => client (call_rtcBufferedAmountLowCallbackFunc (cl_cb cl) (cl_id cl) p)
  | None => mret ()
  end.

(** Modelled from the spec: the triggers of the [Channel] base class
    ([channel.cpp] is not part of the sources) invoke the stored callback of
    the event kind, if one is stored; a message goes to the binary or the
    string callback according to its tag. *)
Definition Channel_triggerOpen (c : Channel) : M unit :=
  match mOpenCallback c with Some cl => open_lambda cl | None => mret () end.

Definition Channel_triggerClosed (c : Channel) : M unit :=
  match mClosedCallback c with Some cl => closed_lambda cl | None => mret () end.

Definition Channel_triggerError (error : std_string) (c : Channel) : M unit :=
  match mErrorCallback c with Some cl => error_lambda cl error | None => mret () end.

Definition Channel_triggerMessage (m : message_variant) (c : Channel) : M unit :=
  match mMessageCallback c with
  | Some cl =>
      match m with
      | Binary b => message_binary_lambda cl b
      | Text s => message_string_lambda cl s
      end
  | None => mret ()
  end.

Definition Channel_triggerBufferedAmountLow (c : Channel) : M unit :=
  match mBufferedAmountLowCallback c with
  | Some cl => bufferedAmountLow_lambda cl
  | None => mret ()
  end.

(** ** datachannel.cpp *)

Definition DataChannel_new (id : Z) : M DataChannel :=
  call (js_rtcSetUserPointer id);;
  call (js_rtcSetOpenCallback id);;
  call (js_rtcSetErrorCallback id);;
  call (js_rtcSetMessageCallback id);;
  call (js_rtcSetBufferedAmountLowCallback id);;
  buf ← call_buf (js_rtcGetDataChannelLabel id);
  mret {| dc_channel := Channel_new; dc_mId := id; dc_mConnected := false;
          mLabel := string_of (default [] buf) |}.

Definition DataChannel_close (d : DataChannel) : M DataChannel :=
  if decide (dc_mId d = 0) then
    mret {| dc_channel := dc_channel d; dc_mId := dc_mId d; dc_mConnected := false;
            mLabel := mLabel d |}
  else
    call (js_rtcDeleteDataChannel (dc_mId d));;
    mret {| dc_channel := dc_channel d; dc_mId := 0; dc_mConnected := false;
            mLabel := mLabel d |}.

Definition DataChannel_send (message : message_variant) (d : DataChannel) : M bool :=
  if decide (dc_mId d = 0) then mret false
  else
    match message with
    | Binary b =>
        r ← call (js_rtcSendMessage (dc_mId d) (vec_data b) (to_int (size b)));
        mret (0 <=? r)
    | Text s =>
        r ← call (js_rtcSendMessage (dc_mId d) (Some (c_str s)) (-1));
        mret (0 <=? r)
    end.

Definition DataChannel_isOpen (d : DataChannel) : bool := dc_mConnected d.

Definition DataChannel_isClosed (d : DataChannel) : bool := bool_decide (dc_mId d = 0).

Definition DataChannel_bufferedAmount (d : DataChannel) : M Z :=
  if decide (dc_mId d = 0) then mret 0
  else
    r ← call (js_rtcGetBufferedAmount (dc_mId d));
    if r <? 0 then mret 0 else mret (to_size_t r).

Definition DataChannel_label (d : DataChannel) : std_string := mLabel d.

Definition DataChannel_reliability (d : DataChannel) : M Reliability :=
  if decide (dc_mId d = 0) then
    mret {| unordered := false; maxPacketLifeTime := None; maxRetransmits := None |}
  else
    u ← call (js_rtcGetDataChannelUnordered (dc_mId d));
    r ← call (js_rtcGetDataChannelMaxRetransmits (dc_mId d));
    l ← call (js_rtcGetDataChannelMaxPacketLifeTime (dc_mId d));
    mret {| unordered := negb (u =? 0);
            maxPacketLifeTime := if 0 <=? l then Some l else None;
            maxRetransmits := if 0 <=? r then Some r else None |}.

Definition DataChannel_setBufferedAmountLowThreshold (amount : Z) (d : DataChannel)
  : M unit :=
  if decide (dc_mId d = 0) then mret ()
  else call (js_rtcSetBufferedAmountLowThreshold (dc_mId d) (to_int amount));; mret ().

Definition DataChannel_triggerOpen (d : DataChannel) : M DataChannel :=
  let d' := {| dc_channel := dc_channel d; dc_mId := dc_mId d; dc_mConnected := true;
               mLabel := mLabel d |} in
  Channel_triggerOpen (dc_channel d');;
  mret d'.

(** The static callbacks the host calls with the object as user data; here
    the object is already resolved (a null object pointer does nothing). *)
Definition DataChannel_OpenCallback (d : DataChannel) : M DataChannel :=
  DataChannel_triggerOpen d.

Definition DataChannel_ErrorCallback (error : char_ptr) (d : DataChannel)
  : M DataChannel :=
  Channel_triggerError
    (match error with Some e => string_of e | None => str "unknown" end)
    (dc_channel d);;
  mret d.

Definition DataChannel_MessageCallback (data : char_ptr) (sz : Z) (d : DataChannel)
  : M DataChannel :=
  match data with
  | Some mem =>
      (if 0 <=? sz then Channel_triggerMessage (Binary (binary_of mem sz)) (dc_channel d)
       else Channel_triggerMessage (Text (string_of mem)) (dc_channel d));;
      mret d
  | None =>
      d' ← DataChannel_close d;
      Channel_triggerClosed (dc_channel d');;
      mret d'
  end.

Definition DataChannel_BufferedAmountLowCallback (d : DataChannel) : M DataChannel :=
  Channel_triggerBufferedAmountLow (dc_channel d);;
  mret d.

(** ** websocket.cpp *)

Definition WebSocket_new : WebSocket :=
  {| ws_channel := Channel_new; ws_mId := 0; ws_mConnected := false |}.

Definition WebSocket_close (s : WebSocket) : M WebSocket :=
  if decide (ws_mId s = 0) then
    mret {| ws_channel := ws_channel s; ws_mId := ws_mId s; ws_mConnected := false |}
  else
    call (emscripten_websocket_close (ws_mId s));;
    mret {| ws_channel := ws_channel s; ws_mId := 0; ws_mConnected := false |}.

Definition WebSocket_open (url : std_string) (s : WebSocket) : M WebSocket :=
  s' ← WebSocket_close s;
  supported ← call emscripten_websocket_is_supported;
  if decide (supported = 0) then throw runtime_error
  else
    ws ← call (emscripten_websocket_new url);
    call (emscripten_websocket_set_onopen_callback ws);;
    call (emscripten_websocket_set_onerror_callback ws);;
    call (emscripten_websocket_set_onmessage_callback ws);;
    mret {| ws_channel := ws_channel s'; ws_mId := ws; ws_mConnected := ws_mConnected s' |}.

Definition WebSocket_isOpen (s : WebSocket) : bool := ws_mConnected s.

Definition WebSocket_isClosed (s : WebSocket) : bool := bool_decide (ws_mId s = 0).

Definition WebSocket_send (message : message_variant) (s : WebSocket) : M bool :=
  if decide (ws_mId s = 0) then mret false
  else
    match message with
    | Binary b =>
        r ← call (emscripten_websocket_send_binary (ws_mId s) (vec_data b) (size b));
        mret (0 <=? r)
    | Text t =>
        r ← call (emscripten_websocket_send_utf8_text (ws_mId s) (c_str t));
        mret (0 <=? r)
    end.

Definition WebSocket_triggerOpen (s : WebSocket) : M WebSocket :=
  let s' := {| ws_channel := ws_channel s; ws_mId := ws_mId s; ws_mConnected := true |} in
  Channel_triggerOpen (ws_channel s');;
  mret s'.

Definition WebSocket_OpenCallback (s : WebSocket) : M WebSocket :=
  WebSocket_triggerOpen s.

Definition WebSocket_ErrorCallback (socket eventType : Z) (s : WebSocket) : M WebSocket :=
  Channel_triggerError (string_of (ws_errormsg P socket eventType)) (ws_channel s);;
  mret s.

(** [e->numBytes] is a [uint32_t]: the test of the source compares an
    unsigned number with 0. *)
Definition WebSocket_MessageCallback (data : char_ptr) (numBytes : Z) (s : WebSocket)
  : M WebSocket :=
  match data with
  | Some mem =>
      (if 0 <=? to_uint32 numBytes
       then Channel_triggerMessage (Binary (binary_of mem (to_uint32 numBytes)))
              (ws_channel s)
       else Channel_triggerMessage (Text (string_of mem)) (ws_channel s));;
      mret s
  | None =>
      s' ← WebSocket_close s;
      Channel_triggerClosed (ws_channel s');;
      mret s'
  end.

(** ** The virtual members, through a [shared_ptr<Channel>] *)

Definition channel_of (c : AnyChannel) : Channel :=
  match c with
  | AsDataChannel d => dc_channel d
  | AsWebSocket s => ws_channel s
  end.

Definition with_channel (f : Channel → Channel) (c : AnyChannel) : AnyChannel :=
  match c with
  | AsDataChannel d =>
      AsDataChannel {| dc_channel := f (dc_channel d); dc_mId := dc_mId d;
                       dc_mConnected := dc_mConnected d; mLabel := mLabel d |}
  | AsWebSocket s =>
      AsWebSocket {| ws_channel := f (ws_channel s); ws_mId := ws_mId s;
                     ws_mConnected := ws_mConnected s |}
  end.

Definition close (c : AnyChannel) : M AnyChannel :=
  match c with
  | AsDataChannel d => d' ← DataChannel_close d; mret (AsDataChannel d')
  | AsWebSocket s => s' ← WebSocket_close s; mret (AsWebSocket s')
  end.

Definition send (message : message_variant) (c : AnyChannel) : M bool :=
  match c with
  | AsDataChannel d => DataChannel_send message d
  | AsWebSocket s => WebSocket_send message s
  end.

Definition isOpen (c : AnyChannel) : bool :=
  match c with
  | AsDataChannel d => DataChannel_isOpen d
  | AsWebSocket s => WebSocket_isOpen s
  end.

Definition isClosed (c : AnyChannel) : bool :=
  match c with
  | AsDataChannel d => DataChannel_isClosed d
  | AsWebSocket s => WebSocket_isClosed s
  end.

(** Modelled from the spec: a web socket does not override
    [bufferedAmount] and [setBufferedAmountLowThreshold], and the base
    versions are in [channel.cpp], which is not part of the sources: the
    amount reported without a host query is 0 and the threshold is not
    forwarded. *)
Definition bufferedAmount (c : AnyChannel) : M Z :=
  match c with
  | AsDataChannel d => DataChannel_bufferedAmount d
  | AsWebSocket s => mret 0
  end.

Definition setBufferedAmountLowThreshold (amount : Z) (c : AnyChannel) : M unit :=
  match c with
  | AsDataChannel d => DataChannel_setBufferedAmountLowThreshold amount d
  | AsWebSocket s => mret ()
  end.

(** ** peerconnection.cpp *)

Definition ice_url (s : IceServer) : std_string :=
  match ice_type s with
  | Dummy => hostname s
  | _ =>
      let scheme :=
        match ice_type s with
        | Turn => match relayType s with TurnTls => str "turns" | _ => str "turn" end
        | _ => str "stun"
        end in
      (scheme ++ str ":" ++ hostname s)
        ++ (if decide (port s = 0) then [] else str ":" ++ str (pretty (port s)))
        ++ (match ice_type s, relayType s with
            | Turn, TurnUdp => []
            | Turn, _ => str "?transport=tcp"
            | _, _ => []
            end)
  end.

Definition PeerConnection_new (config : list IceServer) : M PeerConnection :=
  mId ← call (js_rtcCreatePeerConnection (c_str ∘ ice_url <$> config)
                (c_str ∘ username <$> config) (c_str ∘ password <$> config)
                (to_int (Z.of_nat (length config))));
  if decide (mId = 0) then throw runtime_error
  else
    call (js_rtcSetUserPointer mId);;
    call (js_rtcSetDataChannelCallback mId);;
    call (js_rtcSetLocalDescriptionCallback mId);;
    call (js_rtcSetLocalCandidateCallback mId);;
    call (js_rtcSetStateChangeCallback mId);;
    call (js_rtcSetIceStateChangeCallback mId);;
    call (js_rtcSetGatheringStateChangeCallback mId);;
    call (js_rtcSetSignalingStateChangeCallback mId);;
    mret {| pc_mId := mId; mState := 0; mIceState := 0; mGatheringState := 0;
            mSignalingState := 0; mDataChannelCallback := None;
            mLocalDescriptionCallback := None; mLocalCandidateCallback := None;
            mStateChangeCallback := None; mIceStateChangeCallback := None;
            mGatheringStateChangeCallback := None;
            mSignalingStateChangeCallback := None |}.

(** The destructors, run when the last [shared_ptr] to an object goes. *)
Definition PeerConnection_delete (p : PeerConnection) : M unit :=
  call (js_rtcDeletePeerConnection (pc_mId p));; mret ().

Definition DataChannel_delete (d : DataChannel) : M unit :=
  DataChannel_close d;; mret ().

Definition WebSocket_delete (s : WebSocket) : M unit :=
  WebSocket_close s;; mret ().

Definition PeerConnection_close (p : PeerConnection) : M unit := mret ().

Definition description_of (sdp type : char_ptr) : option Description :=
  match sdp, type with
  | Some s, Some t => Some {| desc_sdp := string_of s; desc_type := string_of t |}
  | _, _ => None
  end.

Definition PeerConnection_localDescription (p : PeerConnection)
  : M (option Description) :=
  sdp ← call_buf (js_rtcGetLocalDescription (pc_mId p));
  type ← call_buf (js_rtcGetLocalDescriptionType (pc_mId p));
  mret (description_of sdp type).

Definition PeerConnection_remoteDescription (p : PeerConnection)
  : M (option Description) :=
  sdp ← call_buf (js_rtcGetRemoteDescription (pc_mId p));
  type ← call_buf (js_rtcGetRemoteDescriptionType (pc_mId p));
  mret (description_of sdp type).

Definition PeerConnection_createDataChannel (label : std_string) (r : Reliability)
    (p : PeerConnection) : M DataChannel :=
  match maxPacketLifeTime r, maxRetransmits r with
  | Some _, Some _ => throw invalid_argument
  | _, _ =>
      let retransmits := match maxRetransmits r with Some n => to_int n | None => -1 end in
      let lifetime := match maxPacketLifeTime r with Some n => to_int n | None => -1 end in
      dc ← call (js_rtcCreateDataChannel (pc_mId p) (c_str label) (unordered r)
                   retransmits lifetime);
      DataChannel_new dc
  end.

Definition PeerConnection_setLocalDescription (p : PeerConnection) : M unit := mret ().

Definition PeerConnection_setRemoteDescription (d : Description) (p : PeerConnection)
  : M unit :=
  call (js_rtcSetRemoteDescription (pc_mId p) (c_str (description_string P d))
          (c_str (description_typeString P d)));;
  mret ().

Definition PeerConnection_addRemoteCandidate (c : Candidate) (p : PeerConnection)
  : M unit :=
  call (js_rtcAddRemoteCandidate (pc_mId p) (c_str (candidate_candidate P c))
          (c_str (candidate_mid P c)));;
  mret ().

(** The callback slots and the four state members, by name. *)
Inductive PcSlot :=
| DataChannelSlot | LocalDescriptionSlot | LocalCandidateSlot | StateChangeSlot
| IceStateChangeSlot | GatheringStateChangeSlot | SignalingStateChangeSlot.

Definition pc_on (slot : PcSlot) (cb : option Closure) (p : PeerConnection)
  : PeerConnection :=
  let pick s old := match slot, s with
                    | DataChannelSlot, DataChannelSlot
                    | LocalDescriptionSlot, LocalDescriptionSlot
                    | LocalCandidateSlot, LocalCandidateSlot
                    | StateChangeSlot, StateChangeSlot
                    | IceStateChangeSlot, IceStateChangeSlot
                    | GatheringStateChangeSlot, GatheringStateChangeSlot
                    | SignalingStateChangeSlot, SignalingStateChangeSlot => cb
                    | _, _ => old
                    end in
  {| pc_mId := pc_mId p; mState := mState p; mIceState := mIceState p;
     mGatheringState := mGatheringState p; mSignalingState := mSignalingState p;
     mDataChannelCallback := pick DataChannelSlot (mDataChannelCallback p);
     mLocalDescriptionCallback := pick LocalDescriptionSlot (mLocalDescriptionCallback p);
     mLocalCandidateCallback := pick LocalCandidateSlot (mLocalCandidateCallback p);
     mStateChangeCallback := pick StateChangeSlot (mStateChangeCallback p);
     mIceStateChangeCallback := pick IceStateChangeSlot (mIceStateChangeCallback p);
     mGatheringStateChangeCallback :=
       pick GatheringStateChangeSlot (mGatheringStateChangeCallback p);
     mSignalingStateChangeCallback :=
       pick SignalingStateChangeSlot (mSignalingStateChangeCallback p) |}.

Definition pc_set_state (slot : PcSlot) (state : Z) (p : PeerConnection)
  : PeerConnection :=
  let pick s old := match slot, s with
                    | StateChangeSlot, StateChangeSlot
                    | IceStateChangeSlot, IceStateChangeSlot
                    | GatheringStateChangeSlot, GatheringStateChangeSlot
                    | SignalingStateChangeSlot, SignalingStateChangeSlot => state
                    | _, _ => old
                    end in
  {| pc_mId := pc_mId p; mState := pick StateChangeSlot (mState p);
     mIceState := pick IceStateChangeSlot (mIceState p);
     mGatheringState := pick GatheringStateChangeSlot (mGatheringState p);
     mSignalingState := pick SignalingStateChangeSlot (mSignalingState p);
     mDataChannelCallback := mDataChannelCallback p;
     mLocalDescriptionCallback := mLocalDescriptionCallback p;
     mLocalCandidateCallback := mLocalCandidateCallback p;
     mStateChangeCallback := mStateChangeCallback p;
     mIceStateChangeCallback := mIceStateChangeCallback p;
     mGatheringStateChangeCallback := mGatheringStateChangeCallback p;
     mSignalingStateChangeCallback := mSignalingStateChangeCallback p |}.

(** An object handed to [emplace] that the map did not take (the key was
    there already) has no owner left once the caller returns. *)
Definition emplaced {V} (k : Z) (m : gmap Z V) : bool := bool_decide (m !! k = None).

(** ** capi.cpp: the lambdas installed on a peer connection *)

Definition description_lambda (cl : Closure) (desc : Description) : M unit :=
  ptr ← getUserPointer (cl_id cl);
  match ptr with
  | Some p =>
      client (call_rtcDescriptionCallbackFunc (cl_cb cl) (cl_id cl)
                (c_str (description_string P desc))
                (c_str (description_typeString P desc)) p)
  | None => mret ()
  end.

Definition candidate_lambda (cl : Closure) (cand : Candidate) : M unit :=
  ptr ← getUserPointer (cl_id cl);
  match ptr with
  | Some p =>
      client (call_rtcCandidateCallbackFunc (cl_cb cl) (cl_id cl)
                (c_str (candidate_candidate P cand)) (c_str (candidate_mid P cand)) p)
  | None => mret ()
  end.

Definition state_lambda (slot : PcSlot) (cl : Closure) (state : Z) : M unit :=
  ptr ← getUserPointer (cl_id cl);
  match ptr with
  | Some p =>
      client (match slot with
              | IceStateChangeSlot =>
                  call_rtcIceStateChangeCallbackFunc (cl_cb cl) (cl_id cl) state p
              | GatheringStateChangeSlot =>
                  call_rtcGatheringStateCallbackFunc (cl_cb cl) (cl_id cl) state p
              | SignalingStateChangeSlot =>
                  call_rtcSignalingStateCallbackFunc (cl_cb cl) (cl_id cl) state p
              | _ => call_rtcStateChangeCallbackFunc (cl_cb cl) (cl_id cl) state p
              end)
  | None => mret ()
  end.

Definition dataChannel_lambda (cl : Closure) (dataChannel : DataChannel) : M unit :=
  taken ← gets (λ w, emplaced (to_int (lastId w + 1)) (dataChannelMap w));
  dc ← emplaceDataChannel dataChannel;
  ptr ← getUserPointer (cl_id cl);
  (match ptr with
   | Some p =>
       setUserPointer dc p;;
       client (call_rtcDataChannelCallbackFunc (cl_cb cl) (cl_id cl) dc p)
   | None => mret ()
   end);;
  if (taken : bool) then mret () else DataChannel_delete dataChannel.

(** peerconnection.cpp: the triggers and the static callbacks. *)
Definition PeerConnection_triggerDataChannel (dataChannel : DataChannel)
    (p : PeerConnection) : M unit :=
  match mDataChannelCallback p with
  | Some cl => dataChannel_lambda cl dataChannel
  | None => DataChannel_delete dataChannel
  end.

Definition PeerConnection_triggerLocalDescription (desc : Description)
    (p : PeerConnection) : M unit :=
  match mLocalDescriptionCallback p with
  | Some cl => description_lambda cl desc
  | None => mret ()
  end.

Definition PeerConnection_triggerLocalCandidate (cand : Candidate)
    (p : PeerConnection) : M unit :=
  match mLocalCandidateCallback p with
  | Some cl => candidate_lambda cl cand
  | None => mret ()
  end.

Definition pc_state_callback (slot : PcSlot) (p : PeerConnection) : option Closure :=
  match slot with
  | IceStateChangeSlot => mIceStateChangeCallback p
  | GatheringStateChangeSlot => mGatheringStateChangeCallback p
  | SignalingStateChangeSlot => mSignalingStateChangeCallback p
  | _ => mStateChangeCallback p
  end.

(** [triggerStateChange], [triggerIceStateChange],
    [triggerGatheringStateChange] and [triggerSignalingStateChange]. *)
Definition PeerConnection_triggerState (slot : PcSlot) (state : Z) (p : PeerConnection)
  : M PeerConnection :=
  let p' := pc_set_state slot state p in
  (match pc_state_callback slot p' with
   | Some cl => state_lambda slot cl state
   | None => mret ()
   end);;
  mret p'.

Definition PeerConnection_DataChannelCallback (dc : Z) (p : PeerConnection) : M unit :=
  d ← DataChannel_new dc;
  PeerConnection_triggerDataChannel d p.

Definition PeerConnection_DescriptionCallback (sdp type : list byte)
    (p : PeerConnection) : M unit :=
  PeerConnection_triggerLocalDescription
    {| desc_sdp := string_of sdp; desc_type := string_of type |} p.

Definition PeerConnection_CandidateCallback (candidate mid : list byte)
    (p : PeerConnection) : M unit :=
  PeerConnection_triggerLocalCandidate
    {| cand_candidate := string_of candidate; cand_mid := string_of mid |} p.

(** ** capi.cpp: the exported functions *)

Definition closure (id : Z) (cb : fn_ptr) : option Closure :=
  if decide (cb = 0) then None else Some {| cl_id := id; cl_cb := cb |}.

(** [wrap] around a lambda that also writes through a pointer of the caller:
    what is behind the pointer is as the lambda left it, and untouched when
    the lambda threw. *)
Definition wrap_out {A} (out : A) (func : M (Z * A)) : World → (Z * A) * World := λ w,
  match func w with
  | (inr (r, o), w') => ((to_int r, o), w')
  | (inl invalid_argument, w') => ((RTC_ERR_INVALID, out), w')
  | (inl runtime_error, w') => ((RTC_ERR_FAILURE, out), w')
  end.

Definition rtcSetUserPointer (i : Z) (ptr : void_ptr) : World → unit * World := λ w,
  ((), (setUserPointer i ptr w).2).

Definition rtcGetUserPointer (i : Z) : World → void_ptr * World := λ w,
  (default nullptr (userPointerMap w !! i), w).

Definition parse_config (iceServers : list std_string) : M (list IceServer) :=
  match mapM (parseIceServer P) iceServers with
  | Some c => mret c
  | None => throw invalid_argument
  end.

Definition rtcCreatePeerConnection (iceServers : list std_string) : World → Z * World :=
  wrap (c ← parse_config iceServers;
        p ← PeerConnection_new c;
        taken ← gets (λ w, emplaced (to_int (lastId w + 1)) (peerConnectionMap w));
        pc ← emplacePeerConnection p;
        (if (taken : bool) then mret () else PeerConnection_delete p);;
        mret pc).

Definition rtcClosePeerConnection (pc : Z) : World → Z * World :=
  wrap (peerConnection ← getPeerConnection pc;
        PeerConnection_close peerConnection;;
        mret RTC_ERR_SUCCESS).

Definition rtcDeletePeerConnection (pc : Z) : World → Z * World :=
  wrap (peerConnection ← getPeerConnection pc;
        PeerConnection_close peerConnection;;
        erasePeerConnection pc;;
        PeerConnection_delete peerConnection;;
        mret RTC_ERR_SUCCESS).

(** [rtcSetLocalDescriptionCallback], [rtcSetLocalCandidateCallback],
    [rtcSetStateChangeCallback], [rtcSetIceStateChangeCallback],
    [rtcSetGatheringStateChangeCallback], [rtcSetSignalingStateChangeCallback]
    and [rtcSetDataChannelCallback] differ in the slot only. *)
Definition rtcSetPeerConnectionCallback (slot : PcSlot) (pc : Z) (cb : fn_ptr)
  : World → Z * World :=
  wrap (peerConnection ← getPeerConnection pc;
        putPeerConnection pc (pc_on slot (closure pc cb) peerConnection);;
        mret RTC_ERR_SUCCESS).

(** The type string is converted by [Description::stringToType]
    ([description.cpp], not part of the sources) and then unused:
    [PeerConnection::setLocalDescription] has an empty body. *)
Definition rtcSetLocalDescription (pc : Z) (type : char_ptr) : World → Z * World :=
  wrap (peerConnection ← getPeerConnection pc;
        PeerConnection_setLocalDescription peerConnection;;
        mret RTC_ERR_SUCCESS).

Definition rtcSetRemoteDescription (pc : Z) (sdp type : char_ptr) : World → Z * World :=
  wrap (peerConnection ← getPeerConnection pc;
        match sdp with
        | None => throw invalid_argument
        | Some s =>
            PeerConnection_setRemoteDescription
              {| desc_sdp := string_of s;
                 desc_type := match type with Some t => string_of t | None => [] end |}
              peerConnection;;
            mret RTC_ERR_SUCCESS
        end).

Definition rtcAddRemoteCandidate (pc : Z) (cand mid : char_ptr) : World → Z * World :=
  wrap (peerConnection ← getPeerConnection pc;
        match cand with
        | None => throw invalid_argument
        | Some c =>
            PeerConnection_addRemoteCandidate
              {| cand_candidate := string_of c;
                 cand_mid := match mid with Some m => string_of m | None => [] end |}
              peerConnection;;
            mret RTC_ERR_SUCCESS
        end).

Definition rtcGetLocalDescription (pc : Z) (buffer : char_ptr) (sz : Z)
  : World → (Z * char_ptr) * World :=
  wrap_out buffer
    (peerConnection ← getPeerConnection pc;
     desc ← PeerConnection_localDescription peerConnection;
     match desc with
     | Some d => mret (copyAndReturn (description_string P d) buffer sz)
     | None => mret (RTC_ERR_NOT_AVAIL, buffer)
     end).

Definition rtcGetRemoteDescription (pc : Z) (buffer : char_ptr) (sz : Z)
  : World → (Z * char_ptr) * World :=
  wrap_out buffer
    (peerConnection ← getPeerConnection pc;
     desc ← PeerConnection_remoteDescription peerConnection;
     match desc with
     | Some d => mret (copyAndReturn (description_string P d) buffer sz)
     | None => mret (RTC_ERR_NOT_AVAIL, buffer)
     end).

Definition rtcGetLocalDescriptionType (pc : Z) (buffer : char_ptr) (sz : Z)
  : World → (Z * char_ptr) * World :=
  wrap_out buffer
    (peerConnection ← getPeerConnection pc;
     desc ← PeerConnection_localDescription peerConnection;
     match desc with
     | Some d => mret (copyAndReturn (description_typeString P d) buffer sz)
     | None => mret (RTC_ERR_NOT_AVAIL, buffer)
     end).

Definition rtcGetRemoteDescriptionType (pc : Z) (buffer : char_ptr) (sz : Z)
  : World → (Z * char_ptr) * World :=
  wrap_out buffer
    (peerConnection ← getPeerConnection pc;
     desc ← PeerConnection_remoteDescription peerConnection;
     match desc with
     | Some d => mret (copyAndReturn (description_typeString P d) buffer sz)
     | None => mret (RTC_ERR_NOT_AVAIL, buffer)
     end).

Definition rtcSetOpenCallback (id : Z) (cb : fn_ptr) : World → Z * World :=
  wrap (channel ← getChannel id;
        putChannel id (with_channel (onOpen (closure id cb)) channel);;
        mret RTC_ERR_SUCCESS).

Definition rtcSetClosedCallback (id : Z) (cb : fn_ptr) : World → Z * World :=
  wrap (channel ← getChannel id;
        putChannel id (with_channel (onClosed (closure id cb)) channel);;
        mret RTC_ERR_SUCCESS).

Definition rtcSetErrorCallback (id : Z) (cb : fn_ptr) : World → Z * World :=
  wrap (channel ← getChannel id;
        putChannel id (with_channel (onError (closure id cb)) channel);;
        mret RTC_ERR_SUCCESS).

Definition rtcSetMessageCallback (id : Z) (cb : fn_ptr) : World → Z * World :=
  wrap (channel ← getChannel id;
        putChannel id (with_channel (onMessage (closure id cb)) channel);;
        mret RTC_ERR_SUCCESS).

Definition rtcSendMessage (id : Z) (data : char_ptr) (sz : Z) : World → Z * World :=
  wrap (channel ← getChannel id;
        if bool_decide (data = None) && negb (sz =? 0) then throw invalid_argument
        else
          (if 0 <=? sz then send (Binary (binary_of (default [] data) sz)) channel
           else send (Text (string_of (default [] data))) channel);;
          mret RTC_ERR_SUCCESS).

Definition rtcClose (id : Z) : World → Z * World :=
  wrap (channel ← getChannel id;
        channel' ← close channel;
        putChannel id channel';;
        mret RTC_ERR_SUCCESS).

(** The object leaves the registry closed, so its destructor, which closes
    again, reaches the host no more. *)
Definition rtcDelete (id : Z) : World → Z * World :=
  wrap (channel ← getChannel id;
        channel' ← close channel;
        putChannel id channel';;
        eraseChannel id;;
        mret RTC_ERR_SUCCESS).

Definition rtcIsOpen (id : Z) : World → bool * World := λ w,
  let r := wrap (channel ← getChannel id;
                 mret (if isOpen channel then 0 else 1)) w in
  (r.1 =? 0, r.2).

Definition rtcIsClosed (id : Z) : World → bool * World := λ w,
  let r := wrap (channel ← getChannel id;
                 mret (if isClosed channel then 0 else 1)) w in
  (r.1 =? 0, r.2).

Definition rtcGetBufferedAmount (id : Z) : World → Z * World :=
  wrap (channel ← getChannel id;
        amount ← bufferedAmount channel;
        mret (to_int amount)).

Definition rtcSetBufferedAmountLowThreshold (id : Z) (amount : Z) : World → Z * World :=
  wrap (channel ← getChannel id;
        setBufferedAmountLowThreshold (to_size_t amount) channel;;
        mret RTC_ERR_SUCCESS).

Definition rtcSetBufferedAmountLowCallback (id : Z) (cb : fn_ptr) : World → Z * World :=
  wrap (channel ← getChannel id;
        putChannel id (with_channel (onBufferedAmountLow (closure id cb)) channel);;
        mret RTC_ERR_SUCCESS).

(** Modelled from the spec: [rtcCreateDataChannelEx] is declared in [rtc.h]
    and called by [rtcCreateDataChannel], but its body is not part of the
    sources.  It is the registry's create for a data channel: the resource is
    constructed (here by [PeerConnection::createDataChannel] of the looked-up
    peer connection), then the next counter value is assigned and the
    resource is inserted with a null user context; a failure of the
    constructor is propagated and consumes no counter value.  A null [init]
    is the default reliability. *)
Definition rtcCreateDataChannelEx (pc : Z) (label : std_string) (init : option Reliability)
  : World → Z * World :=
  wrap (peerConnection ← getPeerConnection pc;
        d ← PeerConnection_createDataChannel label
              (default {| unordered := false; maxPacketLifeTime := None;
                          maxRetransmits := None |} init)
              peerConnection;
        taken ← gets (λ w, emplaced (to_int (lastId w + 1)) (dataChannelMap w));
        dc ← emplaceDataChannel d;
        (if (taken : bool) then mret () else DataChannel_delete d);;
        mret dc).

Definition rtcCreateDataChannel (pc : Z) (label : std_string) : World → Z * World :=
  rtcCreateDataChannelEx pc label None.

Definition rtcDeleteDataChannel (dc : Z) : World → Z * World :=
  wrap (dataChannel ← getDataChannel dc;
        dataChannel' ← DataChannel_close dataChannel;
        putDataChannel dc dataChannel';;
        eraseDataChannel dc;;
        mret RTC_ERR_SUCCESS).

Definition rtcGetDataChannelLabel (dc : Z) (buffer : char_ptr) (sz : Z)
  : World → (Z * char_ptr) * World :=
  wrap_out buffer
    (dataChannel ← getDataChannel dc;
     mret (copyAndReturn (DataChannel_label dataChannel) buffer sz)).

Record rtcReliability := {
  rel_unordered : bool;
  rel_unreliable : bool;
  rel_maxPacketLifeTime : Z;
  rel_maxRetransmits : Z
}.

Definition rtcGetDataChannelReliability (dc : Z) (reliability : option rtcReliability)
  : World → (Z * option rtcReliability) * World :=
  wrap_out reliability
    (dataChannel ← getDataChannel dc;
     match reliability with
     | None => throw invalid_argument
     | Some _ =>
         dcr ← DataChannel_reliability dataChannel;
         mret (RTC_ERR_SUCCESS,
               Some match maxPacketLifeTime dcr, maxRetransmits dcr with
                    | Some l, _ =>
                        {| rel_unordered := unordered dcr; rel_unreliable := true;
                           rel_maxPacketLifeTime := to_size_t l;
                           rel_maxRetransmits := 0 |}
                    | None, Some r =>
                        {| rel_unordered := unordered dcr; rel_unreliable := true;
                           rel_maxPacketLifeTime := 0;
                           rel_maxRetransmits := to_size_t r |}
                    | None, None =>
                        {| rel_unordered := unordered dcr; rel_unreliable := false;
                           rel_maxPacketLifeTime := 0; rel_maxRetransmits := 0 |}
                    end)
     end).

Definition rtcCreateWebSocket (url : std_string) : World → Z * World :=
  wrap (webSocket ← WebSocket_open url WebSocket_new;
        taken ← gets (λ w, emplaced (to_int (lastId w + 1)) (webSocketMap w));
        ws ← emplaceWebSocket webSocket;
        (if (taken : bool) then mret () else WebSocket_delete webSocket);;
        mret ws).

Definition rtcDeleteWebSocket (ws : Z) : World → Z * World :=
  wrap (webSocket ← getWebSocket ws;
        webSocket' ← WebSocket_close webSocket;
        putWebSocket ws webSocket';;
        eraseWebSocket ws;;
        mret RTC_ERR_SUCCESS).

(** The elements of a map in the order in which [clear()] destroys them. *)
Definition in_clear_order {V} (w : World) (m : gmap Z V) : list (Z * V) :=
  omap (λ k, (k,.) <$> m !! k) (clear_order P w (map_to_list m).*1).

(** [clear()] destroys the objects of a map, each once, in an order of the
    library's choosing. *)
Definition eraseAll : M Z :=
  dcs ← gets (λ w, in_clear_order w (dataChannelMap w));
  pcs ← gets (λ w, in_clear_order w (peerConnectionMap w));
  wss ← gets (λ w, in_clear_order w (webSocketMap w));
  modify (set_dataChannelMap ∅);;
  mapM (λ kv : Z * DataChannel, DataChannel_delete kv.2) dcs;;
  modify (set_peerConnectionMap ∅);;
  mapM (λ kv : Z * PeerConnection, PeerConnection_delete kv.2) pcs;;
  modify (set_webSocketMap ∅);;
  mapM (λ kv : Z * WebSocket, WebSocket_delete kv.2) wss;;
  modify (set_userPointerMap ∅);;
  mret (to_size_t (Z.of_nat (length dcs) + Z.of_nat (length pcs) + Z.of_nat (length wss))).

Definition rtcCleanup : World → unit * World := λ w, ((), (eraseAll w).2).

(** ** Events delivered by the host

    The user data of a host subscription is the address of the object.  The
    registry is the only owner of the objects, so an event names its object
    by the handle the object is registered under; an event whose object is
    gone reaches nothing. *)
Inductive HostEvent :=
| DataChannel_Open (h : Z)
| DataChannel_Error (h : Z) (error : char_ptr)
| DataChannel_Message (h : Z) (data : char_ptr) (sz : Z)
| DataChannel_BufferedAmountLow (h : Z)
| WebSocket_Open (h : Z)
| WebSocket_Error (h : Z) (socket eventType : Z)
| WebSocket_Message (h : Z) (data : char_ptr) (numBytes : Z)
| PeerConnection_DataChannel (h : Z) (dc : Z)
| PeerConnection_Description (h : Z) (sdp type : list byte)
| PeerConnection_Candidate (h : Z) (candidate mid : list byte)
| PeerConnection_State (h : Z) (slot : PcSlot) (state : Z).

Definition on_dataChannel (h : Z) (f : DataChannel → M DataChannel) : M unit :=
  it ← gets (λ w, dataChannelMap w !! h);
  match it with
  | Some d => d' ← f d; putDataChannel h d'
  | None => mret ()
  end.

Definition on_webSocket (h : Z) (f : WebSocket → M WebSocket) : M unit :=
  it ← gets (λ w, webSocketMap w !! h);
  match it with
  | Some s => s' ← f s; putWebSocket h s'
  | None => mret ()
  end.

Definition on_peerConnection (h : Z) (f : PeerConnection → M unit) : M unit :=
  it ← gets (λ w, peerConnectionMap w !! h);
  match it with
  | Some p => f p
  | None => mret ()
  end.

Definition deliver (e : HostEvent) : M unit :=
  match e with
  | DataChannel_Open h => on_dataChannel h DataChannel_OpenCallback
  | DataChannel_Error h error => on_dataChannel h (DataChannel_ErrorCallback error)
  | DataChannel_Message h data sz => on_dataChannel h (DataChannel_MessageCallback data sz)
  | DataChannel_BufferedAmountLow h => on_dataChannel h DataChannel_BufferedAmountLowCallback
  | WebSocket_Open h => on_webSocket h WebSocket_OpenCallback
  | WebSocket_Error h socket eventType =>
      on_webSocket h (WebSocket_ErrorCallback socket eventType)
  | WebSocket_Message h data numBytes =>
      on_webSocket h (WebSocket_MessageCallback data numBytes)
  | PeerConnection_DataChannel h dc =>
      on_peerConnection h (PeerConnection_DataChannelCallback dc)
  | PeerConnection_Description h sdp type =>
      on_peerConnection h (PeerConnection_DescriptionCallback sdp type)
  | PeerConnection_Candidate h candidate mid =>
      on_peerConnection h (PeerConnection_CandidateCallback candidate mid)
  | PeerConnection_State h slot state =>
      on_peerConnection h (λ p, p' ← PeerConnection_triggerState slot state p;
                                putPeerConnection h p')
  end.

(** ** The C API as one interface *)

Inductive AbiCall :=
| Call_rtcSetUserPointer (i : Z) (ptr : void_ptr)
| Call_rtcGetUserPointer (i : Z)
| Call_rtcCreatePeerConnection (iceServers : list std_string)
| Call_rtcClosePeerConnection (pc : Z)
| Call_rtcDeletePeerConnection (pc : Z)
| Call_rtcSetPeerConnectionCallback (slot : PcSlot) (pc : Z) (cb : fn_ptr)
| Call_rtcSetLocalDescription (pc : Z) (type : char_ptr)
| Call_rtcSetRemoteDescription (pc : Z) (sdp type : char_ptr)
| Call_rtcAddRemoteCandidate (pc : Z) (cand mid : char_ptr)
| Call_rtcGetLocalDescription (pc : Z) (buffer : char_ptr) (sz : Z)
| Call_rtcGetRemoteDescription (pc : Z) (buffer : char_ptr) (sz : Z)
| Call_rtcGetLocalDescriptionType (pc : Z) (buffer : char_ptr) (sz : Z)
| Call_rtcGetRemoteDescriptionType (pc : Z) (buffer : char_ptr) (sz : Z)
| Call_rtcSetOpenCallback (id : Z) (cb : fn_ptr)
| Call_rtcSetClosedCallback (id : Z) (cb : fn_ptr)
| Call_rtcSetErrorCallback (id : Z) (cb : fn_ptr)
| Call_rtcSetMessageCallback (id : Z) (cb : fn_ptr)
| Call_rtcSendMessage (id : Z) (data : char_ptr) (sz : Z)
| Call_rtcClose (id : Z)
| Call_rtcDelete (id : Z)
| Call_rtcIsOpen (id : Z)
| Call_rtcIsClosed (id : Z)
| Call_rtcGetBufferedAmount (id : Z)
| Call_rtcSetBufferedAmountLowThreshold (id : Z) (amount : Z)
| Call_rtcSetBufferedAmountLowCallback (id : Z) (cb : fn_ptr)
| Call_rtcCreateDataChannel (pc : Z) (label : std_string)
| Call_rtcCreateDataChannelEx (pc : Z) (label : std_string) (init : option Reliability)
| Call_rtcDeleteDataChannel (dc : Z)
| Call_rtcGetDataChannelLabel (dc : Z) (buffer : char_ptr) (sz : Z)
| Call_rtcGetDataChannelReliability (dc : Z) (reliability : option rtcReliability)
| Call_rtcCreateWebSocket (url : std_string)
| Call_rtcDeleteWebSocket (ws : Z)
| Call_rtcCleanup.

Inductive AbiRet :=
| RetVoid
| RetPtr (p : void_ptr)
| RetBool (b : bool)
| RetInt (r : Z)
| RetIntBuffer (r : Z) (buffer : char_ptr)
| RetIntReliability (r : Z) (reliability : option rtcReliability).

Definition ret_with {A} (f : A → AbiRet) (r : A * World) : AbiRet * World := (f r.1, r.2).

Definition abi (c : AbiCall) (w : World) : AbiRet * World :=
  match c with
  | Call_rtcSetUserPointer i ptr => ret_with (λ _, RetVoid) (rtcSetUserPointer i ptr w)
  | Call_rtcGetUserPointer i => ret_with RetPtr (rtcGetUserPointer i w)
  | Call_rtcCreatePeerConnection ice => ret_with RetInt (rtcCreatePeerConnection ice w)
  | Call_rtcClosePeerConnection pc => ret_with RetInt (rtcClosePeerConnection pc w)
  | Call_rtcDeletePeerConnection pc => ret_with RetInt (rtcDeletePeerConnection pc w)
  | Call_rtcSetPeerConnectionCallback slot pc cb =>
      ret_with RetInt (rtcSetPeerConnectionCallback slot pc cb w)
  | Call_rtcSetLocalDescription pc type => ret_with RetInt (rtcSetLocalDescription pc type w)
  | Call_rtcSetRemoteDescription pc sdp type =>
      ret_with RetInt (rtcSetRemoteDescription pc sdp type w)
  | Call_rtcAddRemoteCandidate pc cand mid =>
      ret_with RetInt (rtcAddRemoteCandidate pc cand mid w)
  | Call_rtcGetLocalDescription pc buffer sz =>
      ret_with (λ r, RetIntBuffer r.1 r.2) (rtcGetLocalDescription pc buffer sz w)
  | Call_rtcGetRemoteDescription pc buffer sz =>
      ret_with (λ r, RetIntBuffer r.1 r.2) (rtcGetRemoteDescription pc buffer sz w)
  | Call_rtcGetLocalDescriptionType pc buffer sz =>
      ret_with (λ r, RetIntBuffer r.1 r.2) (rtcGetLocalDescriptionType pc buffer sz w)
  | Call_rtcGetRemoteDescriptionType pc buffer sz =>
      ret_with (λ r, RetIntBuffer r.1 r.2) (rtcGetRemoteDescriptionType pc buffer sz w)
  | Call_rtcSetOpenCallback id cb => ret_with RetInt (rtcSetOpenCallback id cb w)
  | Call_rtcSetClosedCallback id cb => ret_with RetInt (rtcSetClosedCallback id cb w)
  | Call_rtcSetErrorCallback id cb => ret_with RetInt (rtcSetErrorCallback id cb w)
  | Call_rtcSetMessageCallback id cb => ret_with RetInt (rtcSetMessageCallback id cb w)
  | Call_rtcSendMessage id data sz => ret_with RetInt (rtcSendMessage id data sz w)
  | Call_rtcClose id => ret_with RetInt (rtcClose id w)
  | Call_rtcDelete id => ret_with RetInt (rtcDelete id w)
  | Call_rtcIsOpen id => ret_with RetBool (rtcIsOpen id w)
  | Call_rtcIsClosed id => ret_with RetBool (rtcIsClosed id w)
  | Call_rtcGetBufferedAmount id => ret_with RetInt (rtcGetBufferedAmount id w)
  | Call_rtcSetBufferedAmountLowThreshold id amount =>
      ret_with RetInt (rtcSetBufferedAmountLowThreshold id amount w)
  | Call_rtcSetBufferedAmountLowCallback id cb =>
      ret_with RetInt (rtcSetBufferedAmountLowCallback id cb w)
  | Call_rtcCreateDataChannel pc label => ret_with RetInt (rtcCreateDataChannel pc label w)
  | Call_rtcCreateDataChannelEx pc label init =>
      ret_with RetInt (rtcCreateDataChannelEx pc label init w)
  | Call_rtcDeleteDataChannel dc => ret_with RetInt (rtcDeleteDataChannel dc w)
  | Call_rtcGetDataChannelLabel dc buffer sz =>
      ret_with (λ r, RetIntBuffer r.1 r.2) (rtcGetDataChannelLabel dc buffer sz w)
  | Call_rtcGetDataChannelReliability dc reliability =>
      ret_with (λ r, RetIntReliability r.1 r.2)
        (rtcGetDataChannelReliability dc reliability w)
  | Call_rtcCreateWebSocket url => ret_with RetInt (rtcCreateWebSocket url w)
  | Call_rtcDeleteWebSocket ws => ret_with RetInt (rtcDeleteWebSocket ws w)
  | Call_rtcCleanup => ret_with (λ _, RetVoid) (rtcCleanup w)
  end.

(** ** Runs: the client calls the C API, the host delivers events *)

Inductive Step :=
| Call (c : AbiCall)
| Event (e : HostEvent).

Definition step (s : Step) (w : World) : World :=
  match s with
  | Call c => (abi c w).2
  | Event e => (deliver e w).2
  end.

Definition run (steps : list Step) (w : World) : World := foldl (λ w s, step s w) w steps.

Definition is_create (c : AbiCall) : bool :=
  match c with
  | Call_rtcCreatePeerConnection _ | Call_rtcCreateDataChannel _ _
  | Call_rtcCreateDataChannelEx _ _ _ | Call_rtcCreateWebSocket _ => true
  | _ => false
  end.

(** The handles of the incoming data channels announced to the client. *)
Definition announced (l : list ClientCall) : list Z :=
  omap (λ c, match c with
             | call_rtcDataChannelCallbackFunc _ _ dc _ => Some dc
             | _ => None
             end) l.

(** The handles a step hands to the client: the value of a create that is
    not an error status, and the handles announced by the callbacks the step
    invoked. *)
Definition handed (s : Step) (w : World) : list Z :=
  match s with
  | Call c =>
      match (abi c w).1 with
      | RetInt r => if is_create c && (0 <=? r) then [r] else []
      | _ => []
      end
  | Event e => announced (drop (length (clientLog w)) (clientLog (deliver e w).2))
  end.

Fixpoint handles (steps : list Step) (w : World) : list Z :=
  match steps with
  | [] => []
  | s :: rest => handed s w ++ handles rest (step s w)
  end.

(** The handle an exported function works on. *)
Definition handle_of (c : AbiCall) : option Z :=
  match c with
  | Call_rtcSetUserPointer i _ | Call_rtcGetUserPointer i => Some i
  | Call_rtcClosePeerConnection pc | Call_rtcDeletePeerConnection pc
  | Call_rtcSetPeerConnectionCallback _ pc _ | Call_rtcSetLocalDescription pc _
  | Call_rtcSetRemoteDescription pc _ _ | Call_rtcAddRemoteCandidate pc _ _
  | Call_rtcGetLocalDescription pc _ _ | Call_rtcGetRemoteDescription pc _ _
  | Call_rtcGetLocalDescriptionType pc _ _ | Call_rtcGetRemoteDescriptionType pc _ _
  | Call_rtcCreateDataChannel pc _ | Call_rtcCreateDataChannelEx pc _ _ => Some pc
  | Call_rtcSetOpenCallback id _ | Call_rtcSetClosedCallback id _
  | Call_rtcSetErrorCallback id _ | Call_rtcSetMessageCallback id _
  | Call_rtcSendMessage id _ _ | Call_rtcClose id | Call_rtcDelete id
  | Call_rtcIsOpen id | Call_rtcIsClosed id | Call_rtcGetBufferedAmount id
  | Call_rtcSetBufferedAmountLowThreshold id _
  | Call_rtcSetBufferedAmountLowCallback id _ => Some id
  | Call_rtcDeleteDataChannel dc | Call_rtcGetDataChannelLabel dc _ _
  | Call_rtcGetDataChannelReliability dc _ => Some dc
  | Call_rtcDeleteWebSocket ws => Some ws
  | Call_rtcCreatePeerConnection _ | Call_rtcCreateWebSocket _ | Call_rtcCleanup => None
  end.

(** A handle is live when a resource is registered under it. *)
Definition live (h : Z) (w : World) : Prop :=
  is_Some (peerConnectionMap w !! h) ∨ is_Some (dataChannelMap w !! h)
  ∨ is_Some (webSocketMap w !! h).

(** The status an exported function returns, when it returns one. *)
Definition status (r : AbiRet) : option Z :=
  match r with
  | RetInt s | RetIntBuffer s _ | RetIntReliability s _ => Some s
  | RetVoid | RetPtr _ | RetBool _ => None
  end.

(** What an exported function answers for a handle that is not live. *)
Definition not_live_answer (c : AbiCall) (w : World) : AbiRet :=
  match c with
  | Call_rtcSetUserPointer _ _ | Call_rtcCleanup => RetVoid
  | Call_rtcGetUserPointer i => RetPtr (default nullptr (userPointerMap w !! i))
  | Call_rtcIsOpen _ | Call_rtcIsClosed _ => RetBool false
  | Call_rtcGetLocalDescription _ buffer _ | Call_rtcGetRemoteDescription _ buffer _
  | Call_rtcGetLocalDescriptionType _ buffer _
  | Call_rtcGetRemoteDescriptionType _ buffer _
  | Call_rtcGetDataChannelLabel _ buffer _ => RetIntBuffer RTC_ERR_INVALID buffer
  | Call_rtcGetDataChannelReliability _ reliability =>
      RetIntReliability RTC_ERR_INVALID reliability
  | _ => RetInt RTC_ERR_INVALID
  end.

(** ** The message convention of the boundary, read off the code *)

(** What the message lambdas of [rtcSetMessageCallback] pass to the client
    as message and size. *)
Definition encode_message (m : message_variant) : char_ptr * Z :=
  match m with
  | Binary b => (vec_data b, to_int (size b))
  | Text s => (Some (c_str s), to_int (- to_int (size s + 1)))
  end.



(** The events of a channel and the lambda the C API installs for each. *)
Inductive ChannelEvent :=
| OpenEvent
| ClosedEvent
| ErrorEvent (error : std_string)
| MessageEvent (m : message_variant)
| BufferedAmountLowEvent.

Definition dispatch (e : ChannelEvent) (cl : Closure) : M unit :=
  match e with
  | OpenEvent => open_lambda cl
  | ClosedEvent => closed_lambda cl
  | ErrorEvent error => error_lambda cl error
  | MessageEvent (Binary b) => message_binary_lambda cl b
  | MessageEvent (Text s) => message_string_lambda cl s
  | BufferedAmountLowEvent => bufferedAmountLow_lambda cl
  end.

(** The trigger of the channel for an event. *)
Definition trigger (e : ChannelEvent) (c : Channel) : M unit :=
  match e with
  | OpenEvent => Channel_triggerOpen c
  | ClosedEvent => Channel_triggerClosed c
  | ErrorEvent error => Channel_triggerError error c
  | MessageEvent m => Channel_triggerMessage m c
  | BufferedAmountLowEvent => Channel_triggerBufferedAmountLow c
  end.


(** The static open callback of either kind of channel. *)
Definition OpenCallback (c : AnyChannel) : M AnyChannel :=
  match c with
  | AsDataChannel d => d' ← DataChannel_OpenCallback d; mret (AsDataChannel d')
  | AsWebSocket s => s' ← WebSocket_OpenCallback s; mret (AsWebSocket s')
  end.

(** Whether a host call forwards a payload, and of which kind. *)
Definition forwarded_kind (c : HostCall) : option bool :=
  match c with
  | js_rtcSendMessage _ _ sz => Some (sz <? 0)
  | emscripten_websocket_send_binary _ _ _ => Some false
  | emscripten_websocket_send_utf8_text _ _ => Some true
  | _ => None
  end.

Definition is_text (m : message_variant) : bool :=
  match m with Binary _ => false | Text _ => true end.

Definition transport (c : AnyChannel) : Z :=
  match c with
  | AsDataChannel d => dc_mId d
  | AsWebSocket s => ws_mId s
  end.

End Program.

(** ** A concrete host, to run the definitions on *)

Definition demo_platform : Platform :=
  {| host_ret := λ log, Z.of_nat (length log);
     host_buf := λ _, Some (c_str (str "chat"));
     empty_vec_data := None;
     parseIceServer := λ url,
       Some {| ice_type := Dummy; relayType := TurnUdp; hostname := url; port := 0;
               username := []; password := [] |};
     ws_errormsg := λ _ _, c_str (str "error");
     description_string := desc_sdp;
     description_typeString := desc_type;
     candidate_candidate := cand_candidate;
     candidate_mid := cand_mid;
     clear_order := λ _ keys, keys;
     clear_order_perm := λ _ keys, Permutation_refl keys |}.

#[global] Instance byte_eq_dec : EqDecision byte := Byte.byte_eq_dec.

(** The bytes of a payload. *)
Definition payload (m : message_variant) : list byte :=
  match m with Binary b => b | Text s => s end.



(** The steps of the monad, for symbolic execution. *)
Ltac mexec :=
  repeat (unfold mbind, mret, M_bind, M_ret, gets, modify, throw, wrap, wrap_out,
            call, call_buf, client in *; cbn [fst snd] in *).


(** The host call by which [send] forwards a message of a channel. *)
Definition forward (P : Platform) (m : message_variant) (c : AnyChannel) : HostCall :=
  match c, m with
  | AsDataChannel d, Binary b =>
      js_rtcSendMessage (dc_mId d) (vec_data P b) (to_int (size b))
  | AsDataChannel d, Text s => js_rtcSendMessage (dc_mId d) (Some (c_str s)) (-1)
  | AsWebSocket s, Binary b =>
      emscripten_websocket_send_binary (ws_mId s) (vec_data P b) (size b)
  | AsWebSocket s, Text t => emscripten_websocket_send_utf8_text (ws_mId s) (c_str t)
  end.

(** The host call by which [close] releases the transport of a channel. *)
Definition release (c : AnyChannel) : HostCall :=
  match c with
  | AsDataChannel d => js_rtcDeleteDataChannel (dc_mId d)
  | AsWebSocket s => emscripten_websocket_close (ws_mId s)
  end.

(** A channel after [close]. *)
Definition closed (c : AnyChannel) : AnyChannel :=
  match c with
  | AsDataChannel d =>
      AsDataChannel {| dc_channel := dc_channel d; dc_mId := 0; dc_mConnected := false;
                       mLabel := mLabel d |}
  | AsWebSocket s =>
      AsWebSocket {| ws_channel := ws_channel s; ws_mId := 0; ws_mConnected := false |}
  end.


(** [send] guarded by the Open state as well, as the specification has it. *)
Definition send_needs_open (P : Platform) (m : message_variant) (c : AnyChannel)
    (w : World) : Prop :=
  isOpen c = false ∨ transport c = 0 → send P m c w = (inr false, w).








(** With a null data pointer and size 0 [rtcSendMessage] sends an empty
    binary message on the channel, as the specification has it. *)
Definition null_data_sends_empty (P : Platform) (h : Z) (w : World) : Prop :=
  ∃ call, forwarded_kind call = Some false
          ∧ hostLog (rtcSendMessage P h None 0 w).2 = hostLog w ++ [call].

(** The client call an event leads to, given the user pointer. *)
Definition client_call (P : Platform) (e : ChannelEvent) (cl : Closure) (p : void_ptr)
  : ClientCall :=
  match e with
  | OpenEvent => call_rtcOpenCallbackFunc (cl_cb cl) (cl_id cl) p
  | ClosedEvent => call_rtcClosedCallbackFunc (cl_cb cl) (cl_id cl) p
  | ErrorEvent error => call_rtcErrorCallbackFunc (cl_cb cl) (cl_id cl) (c_str error) p
  | MessageEvent m =>
      call_rtcMessageCallbackFunc (cl_cb cl) (cl_id cl) (encode_message P m).1
        (encode_message P m).2 p
  | BufferedAmountLowEvent => call_rtcBufferedAmountLowCallbackFunc (cl_cb cl) (cl_id cl) p
  end.

(** A computation that returns, and touches nothing but the host log. *)
Definition host_only {A} (m : M A) : Prop :=
  ∀ w, ∃ a log, m w = (inr a, set_hostLog log w).

Definition set_logs (hl : list HostCall) (cl : list ClientCall) (w : World) : World :=
  set_clientLog cl (set_hostLog hl w).

(** A computation that leaves the registry alone: it may talk to the host,
    call the client (but announces no data channel) and throw. *)
Definition logs_only {A} (m : M A) : Prop :=
  ∀ w, ∃ r hl cl, m w = (r, set_logs hl (clientLog w ++ cl) w) ∧ announced cl = [].

(** What one step can do to the resource maps and the counter: nothing, an
    update of a registered object in place (a channel that has released its
    transport does not get one back), an erasure, a registration under the
    next counter value, or the removal of everything. *)
Inductive reg_step (w w' : World) : Prop :=
| rs_keep :
    peerConnectionMap w' = peerConnectionMap w →
    dataChannelMap w' = dataChannelMap w →
    webSocketMap w' = webSocketMap w →
    lastId w' = lastId w →
    reg_step w w'
| rs_dataChannel (h : Z) (d d' : DataChannel) :
    dataChannelMap w !! h = Some d →
    (dc_mId d = 0 → dc_mId d' = 0) →
    dataChannelMap w' = <[h := d']> (dataChannelMap w) →
    peerConnectionMap w' = peerConnectionMap w →
    webSocketMap w' = webSocketMap w →
    lastId w' = lastId w →
    reg_step w w'
| rs_webSocket (h : Z) (s s' : WebSocket) :
    webSocketMap w !! h = Some s →
    (ws_mId s = 0 → ws_mId s' = 0) →
    webSocketMap w' = <[h := s']> (webSocketMap w) →
    peerConnectionMap w' = peerConnectionMap w →
    dataChannelMap w' = dataChannelMap w →
    lastId w' = lastId w →
    reg_step w w'
| rs_peerConnection (h : Z) (p p' : PeerConnection) :
    peerConnectionMap w !! h = Some p →
    peerConnectionMap w' = <[h := p']> (peerConnectionMap w) →
    dataChannelMap w' = dataChannelMap w →
    webSocketMap w' = webSocketMap w →
    lastId w' = lastId w →
    reg_step w w'
| rs_erase_dataChannel (h : Z) :
    dataChannelMap w' = delete h (dataChannelMap w) →
    peerConnectionMap w' = peerConnectionMap w →
    webSocketMap w' = webSocketMap w →
    lastId w' = lastId w →
    reg_step w w'
| rs_erase_webSocket (h : Z) :
    webSocketMap w' = delete h (webSocketMap w) →
    peerConnectionMap w' = peerConnectionMap w →
    dataChannelMap w' = dataChannelMap w →
    lastId w' = lastId w →
    reg_step w w'
| rs_erase_peerConnection (h : Z) :
    peerConnectionMap w' = delete h (peerConnectionMap w) →
    dataChannelMap w' = dataChannelMap w →
    webSocketMap w' = webSocketMap w →
    lastId w' = lastId w →
    reg_step w w'
| rs_new_dataChannel (d : DataChannel) :
    lastId w' = to_int (lastId w + 1) →
    dataChannelMap w' = emplace (lastId w') d (dataChannelMap w) →
    peerConnectionMap w' = peerConnectionMap w →
    webSocketMap w' = webSocketMap w →
    reg_step w w'
| rs_new_webSocket (s : WebSocket) :
    lastId w' = to_int (lastId w + 1) →
    webSocketMap w' = emplace (lastId w') s (webSocketMap w) →
    peerConnectionMap w' = peerConnectionMap w →
    dataChannelMap w' = dataChannelMap w →
    reg_step w w'
| rs_new_peerConnection (p : PeerConnection) :
    lastId w' = to_int (lastId w + 1) →
    peerConnectionMap w' = emplace (lastId w') p (peerConnectionMap w) →
    dataChannelMap w' = dataChannelMap w →
    webSocketMap w' = webSocketMap w →
    reg_step w w'
| rs_clear :
    peerConnectionMap w' = ∅ →
    dataChannelMap w' = ∅ →
    webSocketMap w' = ∅ →
    lastId w' = lastId w →
    reg_step w w'.

(** Closed is absorbing for both queries, as the specification has it. *)
Definition closed_is_absorbing (P : Platform) (s : Step) (h : Z) (w : World) : Prop :=
  ∀ c c', getChannel h w = (inr c, w) → isClosed c = true →
          getChannel h (step P s w) = (inr c', step P s w) →
          isClosed c' = true ∧ isOpen c' = false.

(** A call on a handle that is not live answers -1 and changes nothing, as
    the specification has it. *)
Definition not_live_is_inert (P : Platform) (c : AbiCall) (w : World) : Prop :=
  ∀ h, handle_of c = Some h → ¬ live h w →
       status (abi P c w).1 = Some RTC_ERR_INVALID ∧ (abi P c w).2 = w.

(** The registry is the same in two worlds. *)
Definition same_registry (w w' : World) : Prop :=
  peerConnectionMap w' = peerConnectionMap w
  ∧ dataChannelMap w' = dataChannelMap w
  ∧ webSocketMap w' = webSocketMap w
  ∧ userPointerMap w' = userPointerMap w
  ∧ lastId w' = lastId w.

(** The registry invariant: the live handles are positive and at most the
    counter, and no two kinds of resource share a handle. *)
Definition well_formed (w : World) : Prop :=
  0 <= lastId w
  ∧ (∀ h, live h w → 0 < h <= lastId w)
  ∧ (∀ h, ¬ (is_Some (peerConnectionMap w !! h) ∧ is_Some (dataChannelMap w !! h)))
  ∧ (∀ h, ¬ (is_Some (peerConnectionMap w !! h) ∧ is_Some (webSocketMap w !! h)))
  ∧ (∀ h, ¬ (is_Some (dataChannelMap w !! h) ∧ is_Some (webSocketMap w !! h))).

(** ** Further notions for the properties of the code *)

(** The lookup an exported function starts with fails for the handle: each
    function looks in the maps of its own kind only. *)
Definition lookup_fails (c : AbiCall) (h : Z) (w : World) : Prop :=
  match c with
  | Call_rtcSetUserPointer _ _ | Call_rtcGetUserPointer _ => True
  | Call_rtcClosePeerConnection _ | Call_rtcDeletePeerConnection _
  | Call_rtcSetPeerConnectionCallback _ _ _ | Call_rtcSetLocalDescription _ _
  | Call_rtcSetRemoteDescription _ _ _ | Call_rtcAddRemoteCandidate _ _ _
  | Call_rtcGetLocalDescription _ _ _ | Call_rtcGetRemoteDescription _ _ _
  | Call_rtcGetLocalDescriptionType _ _ _ | Call_rtcGetRemoteDescriptionType _ _ _
  | Call_rtcCreateDataChannel _ _ | Call_rtcCreateDataChannelEx _ _ _ =>
      peerConnectionMap w !! h = None
  | Call_rtcDeleteDataChannel _ | Call_rtcGetDataChannelLabel _ _ _
  | Call_rtcGetDataChannelReliability _ _ => dataChannelMap w !! h = None
  | Call_rtcDeleteWebSocket _ => webSocketMap w !! h = None
  | Call_rtcCreatePeerConnection _ | Call_rtcCreateWebSocket _ | Call_rtcCleanup => False
  | _ => dataChannelMap w !! h = None ∧ webSocketMap w !! h = None
  end.

(** The state member a state slot stands for. *)
Definition pc_state (slot : PcSlot) (p : PeerConnection) : Z :=
  match slot with
  | IceStateChangeSlot => mIceState p
  | GatheringStateChangeSlot => mGatheringState p
  | SignalingStateChangeSlot => mSignalingState p
  | _ => mState p
  end.

Definition is_state_slot (slot : PcSlot) : bool :=
  match slot with
  | StateChangeSlot | IceStateChangeSlot | GatheringStateChangeSlot
  | SignalingStateChangeSlot => true
  | _ => false
  end.

(** What the destructor of a channel tells the host. *)
Definition dataChannel_release (d : DataChannel) : list HostCall :=
  if decide (dc_mId d = 0) then [] else [js_rtcDeleteDataChannel (dc_mId d)].

Definition webSocket_release (s : WebSocket) : list HostCall :=
  if decide (ws_mId s = 0) then [] else [emscripten_websocket_close (ws_mId s)].

(** Every live handle has an entry in the user-pointer map. *)
Definition covered (w : World) : Prop :=
  ∀ h, live h w → is_Some (userPointerMap w !! h).

(** The steps that write or remove the user pointer of a handle. *)
Definition touches (s : Step) (h : Z) : Prop :=
  match s with
  | Call (Call_rtcSetUserPointer i _) | Call (Call_rtcDeletePeerConnection i)
  | Call (Call_rtcDelete i) | Call (Call_rtcDeleteDataChannel i)
  | Call (Call_rtcDeleteWebSocket i) => i = h
  | Call Call_rtcCleanup => True
  | _ => False
  end.

(** capi.cpp: the overload of [copyAndReturn] for a vector of any element
    type. *)
Definition copyAndReturn_vector {T} (b : list T) (buffer : option (list T)) (sz : Z)
  : Z * option (list T) :=
  match buffer with
  | None => (to_int (Z.of_nat (length b)), None)
  | Some mem =>
      if sz <? to_int (Z.of_nat (length b)) then (RTC_ERR_TOO_SMALL, Some mem)
      else (to_int (Z.of_nat (length b)), Some (b ++ drop (length b) mem))
  end.

(** A computation that touches nothing but the host log; it may throw. *)
Definition quiet {A} (m : M A) : Prop :=
  ∀ w, ∃ r hl, m w = (r, set_hostLog hl w).


(** The open confirmation of the host for a channel of this kind. *)
Definition open_event (c : AnyChannel) (h : Z) : HostEvent :=
  match c with
  | AsDataChannel _ => DataChannel_Open h
  | AsWebSocket _ => WebSocket_Open h
  end.

(** The client call a state slot leads to. *)
Definition state_call (slot : PcSlot) (cb : fn_ptr) (pc state : Z) (ptr : void_ptr)
  : ClientCall :=
  match slot with
  | IceStateChangeSlot => call_rtcIceStateChangeCallbackFunc cb pc state ptr
  | GatheringStateChangeSlot => call_rtcGatheringStateCallbackFunc cb pc state ptr
  | SignalingStateChangeSlot => call_rtcSignalingStateCallbackFunc cb pc state ptr
  | _ => call_rtcStateChangeCallbackFunc cb pc state ptr
  end.

(** * Theorems *)

Lemma to_int_small (z : Z) : - 2 ^ 31 <= z < 2 ^ 31 → to_int z = z.
Proof.
  intros H. unfold to_int.
  rewrite Z.mod_small by lia. lia.
Qed.

Lemma to_int_range (z : Z) : - 2 ^ 31 <= to_int z < 2 ^ 31.
Proof.
  unfold to_int.
  pose proof (Z.mod_pos_bound (z + 2 ^ 31) (2 ^ 32) ltac:(lia)). lia.
Qed.

Lemma to_int_idemp (z : Z) : to_int (to_int z) = to_int z.
Proof. apply to_int_small, to_int_range. Qed.

Lemma size_nonneg (l : list byte) : 0 <= size l.
Proof. unfold size. lia. Qed.

(** C2: [copyAndReturn] on a string of length L: with a null buffer it
    returns L+1 and writes nothing; with a buffer and a size below L+1 it
    returns [RTC_ERR_TOO_SMALL] and leaves the buffer as it was; otherwise
    it copies the L characters, puts the terminator at position L, touches
    nothing behind it and returns L+1.  The binary overload does the same
    with capacity L and no terminator.  (Lengths are within [int].) *)
Theorem copyAndReturn_protocol (s : std_string) (b : binary) (mem : list byte) (sz : Z) :
  size s + 1 <= INT_MAX →
  size b <= INT_MAX →
  copyAndReturn s None sz = (size s + 1, None)
  ∧ (sz < size s + 1 → copyAndReturn s (Some mem) sz = (RTC_ERR_TOO_SMALL, Some mem))
  ∧ (size s + 1 <= sz →
     ∃ mem', copyAndReturn s (Some mem) sz = (size s + 1, Some mem')
             ∧ take (length s) mem' = s
             ∧ mem' !! length s = Some x00
             ∧ drop (S (length s)) mem' = drop (S (length s)) mem)
  ∧ copyAndReturn_binary b None sz = (size b, None)
  ∧ (sz < size b → copyAndReturn_binary b (Some mem) sz = (RTC_ERR_TOO_SMALL, Some mem))
  ∧ (size b <= sz →
     ∃ mem', copyAndReturn_binary b (Some mem) sz = (size b, Some mem')
             ∧ take (length b) mem' = b
             ∧ drop (length b) mem' = drop (length b) mem).
Proof.
  intros Hs Hb.
  pose proof (size_nonneg s). pose proof (size_nonneg b).
  unfold INT_MAX in *.
  assert (Es : to_int (size s + 1) = size s + 1) by (apply to_int_small; lia).
  assert (Eb : to_int (size b) = size b) by (apply to_int_small; lia).
  unfold copyAndReturn, copyAndReturn_binary. rewrite Es, Eb.
  split_and!; try done.
  - intros Hlt. apply Z.ltb_lt in Hlt. by rewrite Hlt.
  - intros Hge. apply Z.ltb_ge in Hge. rewrite Hge.
    eexists. split; [done |]. split_and!.
    + by rewrite take_app_length.
    + by rewrite lookup_app_r, Nat.sub_diag.
    + rewrite (cons_middle x00 s), app_assoc.
      apply drop_app_length'. rewrite length_app. simpl. lia.
  - intros Hlt. apply Z.ltb_lt in Hlt. by rewrite Hlt.
  - intros Hge. apply Z.ltb_ge in Hge. rewrite Hge.
    eexists. split; [done |]. split.
    + by rewrite take_app_length.
    + by rewrite drop_app_length.
Qed.

Lemma copyAndReturn_protocol_witness :
  copyAndReturn (str "abc") None 0 = (size (str "abc") + 1, None).
Proof.
  apply (copyAndReturn_protocol (str "abc") [x01] [] 0); vm_compute; discriminate.
Defined.









(** ** Lookups *)

Lemma getChannel_None (h : Z) (w : World) :
  dataChannelMap w !! h = None → webSocketMap w !! h = None →
  getChannel h w = (inl invalid_argument, w).
Proof. intros Hd Hs. unfold getChannel. mexec. by rewrite Hd, Hs. Qed.

Lemma getChannel_Some (h : Z) (w w' : World) (c : AnyChannel) :
  getChannel h w = (inr c, w') →
  w' = w ∧ match c with
           | AsDataChannel d => dataChannelMap w !! h = Some d
           | AsWebSocket s => dataChannelMap w !! h = None ∧ webSocketMap w !! h = Some s
           end.
Proof.
  unfold getChannel. mexec.
  destruct (dataChannelMap w !! h) as [d |] eqn:Ed.
  - intros [= <- <-]. done.
  - destruct (webSocketMap w !! h) as [s |] eqn:Es.
    + intros [= <- <-]. done.
    + discriminate.
Qed.

(** ** Sending *)

Lemma send_spec (P : Platform) (m : message_variant) (c : AnyChannel) (w : World) :
  send P m c w
  = if decide (transport c = 0) then (inr false, w)
    else (inr (0 <=? host_ret P (hostLog w ++ [forward P m c])),
          set_hostLog (hostLog w ++ [forward P m c]) w).
Proof.
  destruct c as [d | s], m as [b | t]; simpl;
    unfold DataChannel_send, WebSocket_send; mexec; by case_decide.
Qed.

(** C9: for a handle with no registered channel the lookup throws, [wrap]
    turns that into -1, and the comparison with 0 makes both [rtcIsOpen] and
    [rtcIsClosed] answer false, leaving everything as it was: a channel that
    was deleted or never created reports itself as not closed. *)
Theorem rtcIsOpen_rtcIsClosed_unregistered (h : Z) (w : World) :
  dataChannelMap w !! h = None →
  webSocketMap w !! h = None →
  wrap (channel ← getChannel h; mret (if isClosed channel then 0 else 1)) w
    = (RTC_ERR_INVALID, w)
  ∧ rtcIsOpen h w = (false, w)
  ∧ rtcIsClosed h w = (false, w).
Proof.
  intros Hd Hs. pose proof (getChannel_None h w Hd Hs) as E.
  unfold rtcIsOpen, rtcIsClosed. mexec. by rewrite E.
Qed.

Lemma rtcIsOpen_rtcIsClosed_unregistered_witness :
  rtcIsClosed 7 initial = (false, initial).
Proof. apply (rtcIsOpen_rtcIsClosed_unregistered 7 initial); reflexivity. Defined.

(** C10 (amended): on a registered channel [rtcSendMessage] answers -1
    exactly when the data pointer is null and the size is not 0 (on a handle
    without a channel it answers -1 whatever the arguments).  With a null
    pointer and size 0 it answers [RTC_ERR_SUCCESS]; the empty binary message
    goes to the host, in one call, when the channel holds a transport, and
    when it holds none nothing is sent at all. *)
Theorem rtcSendMessage_null_data (P : Platform) (h : Z) (c : AnyChannel) (w : World)
    (data : char_ptr) (sz : Z) :
  getChannel h w = (inr c, w) →
  ((rtcSendMessage P h data sz w).1 = RTC_ERR_INVALID ↔ data = None ∧ sz ≠ 0)
  ∧ (transport c ≠ 0 →
     rtcSendMessage P h None 0 w
     = (RTC_ERR_SUCCESS,
        set_hostLog
          (hostLog w ++
             [match c with
              | AsDataChannel d => js_rtcSendMessage (dc_mId d) (empty_vec_data P) 0
              | AsWebSocket s =>
                  emscripten_websocket_send_binary (ws_mId s) (empty_vec_data P) 0
              end]) w))
  ∧ (transport c = 0 → rtcSendMessage P h None 0 w = (RTC_ERR_SUCCESS, w))
  ∧ (∀ h', dataChannelMap w !! h' = None → webSocketMap w !! h' = None →
           rtcSendMessage P h' data sz w = (RTC_ERR_INVALID, w)).
Proof.
  intros E. split_and!.
  - unfold rtcSendMessage. mexec. rewrite E.
    destruct data as [mem |]; simpl.
    + split; [| intros [? _]; done].
      destruct (0 <=? sz); rewrite send_spec; by case_decide.
    + destruct (sz =? 0) eqn:E0; simpl.
      * apply Z.eqb_eq in E0. subst sz. simpl. rewrite send_spec.
        split; [by case_decide | intros [_ ?]; done].
      * apply Z.eqb_neq in E0. done.
  - intros Ht. unfold rtcSendMessage. mexec. rewrite E. simpl. unfold binary_of. simpl.
    rewrite send_spec. rewrite decide_False by done. by destruct c.
  - intros Ht. unfold rtcSendMessage. mexec. rewrite E. simpl. unfold binary_of. simpl.
    rewrite send_spec. by rewrite decide_True by done.
  - intros h' Hd Hs. unfold rtcSendMessage. mexec.
    by rewrite (getChannel_None h' w Hd Hs).
Qed.

(** A web socket as [rtcCreateWebSocket] registers it on the concrete host:
    created, not yet open, with its transport. *)
Lemma rtcSendMessage_null_data_witness :
  rtcSendMessage demo_platform 1 None 0
    (rtcCreateWebSocket demo_platform (str "ws://h") initial).2
  = (RTC_ERR_SUCCESS,
     set_hostLog
       (hostLog (rtcCreateWebSocket demo_platform (str "ws://h") initial).2
        ++ [emscripten_websocket_send_binary 2 None 0])
       (rtcCreateWebSocket demo_platform (str "ws://h") initial).2).
Proof.
  destruct (rtcSendMessage_null_data demo_platform 1
              (AsWebSocket {| ws_channel := Channel_new; ws_mId := 2;
                              ws_mConnected := false |})
              (rtcCreateWebSocket demo_platform (str "ws://h") initial).2 None 0)
    as (_ & H & _); [vm_compute; reflexivity |].
  apply H. discriminate.
Defined.

(** A web socket is created and closed; [rtcSendMessage] with a null pointer
    and size 0 then answers [RTC_ERR_SUCCESS] and the host hears nothing: no
    message was sent. *)
Lemma rtcSendMessage_null_data_counterexample :
  ¬ null_data_sends_empty demo_platform 1
      (run demo_platform
         [Call (Call_rtcCreateWebSocket (str "ws://h")); Call (Call_rtcClose 1)] initial).
Proof.
  intros (call & _ & Hl). vm_compute in Hl. discriminate.
Qed.

(** ** Closing *)

Lemma DataChannel_close_spec (P : Platform) (d : DataChannel) (w : World) :
  DataChannel_close P d w
  = (inr {| dc_channel := dc_channel d; dc_mId := 0; dc_mConnected := false;
            mLabel := mLabel d |},
     if decide (dc_mId d = 0) then w
     else set_hostLog (hostLog w ++ [js_rtcDeleteDataChannel (dc_mId d)]) w).
Proof.
  unfold DataChannel_close. mexec. case_decide as E; [| done].
  destruct d; simpl in *; by subst.
Qed.

Lemma WebSocket_close_spec (P : Platform) (s : WebSocket) (w : World) :
  WebSocket_close P s w
  = (inr {| ws_channel := ws_channel s; ws_mId := 0; ws_mConnected := false |},
     if decide (ws_mId s = 0) then w
     else set_hostLog (hostLog w ++ [emscripten_websocket_close (ws_mId s)]) w).
Proof.
  unfold WebSocket_close. mexec. case_decide as E; [| done].
  destruct s; simpl in *; by subst.
Qed.

Lemma close_spec (P : Platform) (c : AnyChannel) (w : World) :
  close P c w
  = (inr (closed c),
     if decide (transport c = 0) then w
     else set_hostLog (hostLog w ++ [release c]) w).
Proof.
  destruct c as [d | s]; simpl; mexec.
  - by rewrite DataChannel_close_spec.
  - by rewrite WebSocket_close_spec.
Qed.


(** C7 (amended): [send] looks at the transport handle only.  Without one
    it answers false and forwards nothing.  With one it forwards the payload
    in one host call, whether the channel is open or not, and answers whether
    the host accepted; the call carries the kind of the payload: a binary
    stays binary and a text stays text.  (Lengths are within [int].) *)
Theorem send_forwards (P : Platform) (m : message_variant) (c : AnyChannel) (w : World) :
  (transport c = 0 → send P m c w = (inr false, w))
  ∧ (transport c ≠ 0 →
     send P m c w
     = (inr (0 <=? host_ret P (hostLog w ++ [forward P m c])),
        set_hostLog (hostLog w ++ [forward P m c]) w))
  ∧ (size (payload m) <= INT_MAX → forwarded_kind (forward P m c) = Some (is_text m)).
Proof.
  split_and!.
  - intros E. rewrite send_spec. by case_decide.
  - intros E. rewrite send_spec. by case_decide.
  - intros Hfit. pose proof (size_nonneg (payload m)). unfold INT_MAX in Hfit.
    destruct c as [d | s], m as [b | t]; simpl in *; try done.
    rewrite to_int_small by lia. f_equal. lia.
Qed.

Lemma send_forwards_witness :
  send demo_platform (Text (str "hi"))
    (AsDataChannel {| dc_channel := Channel_new; dc_mId := 5; dc_mConnected := true;
                      mLabel := [] |}) initial
  = (inr true,
     set_hostLog [js_rtcSendMessage 5 (Some (c_str (str "hi"))) (-1)] initial).
Proof.
  apply (send_forwards demo_platform (Text (str "hi"))
           (AsDataChannel {| dc_channel := Channel_new; dc_mId := 5;
                             dc_mConnected := true; mLabel := [] |}) initial).
  vm_compute. discriminate.
Defined.

(** A data channel that is created and not yet open forwards all the same. *)
Lemma send_needs_open_counterexample :
  ¬ send_needs_open demo_platform (Binary [x01])
      (AsDataChannel {| dc_channel := Channel_new; dc_mId := 5; dc_mConnected := false;
                        mLabel := [] |}) initial.
Proof.
  unfold send_needs_open. intros H.
  specialize (H (or_introl eq_refl)). vm_compute in H. discriminate.
Qed.



(** ** Computations that only talk to the host *)

Lemma set_hostLog_id (w : World) : set_hostLog (hostLog w) w = w.
Proof. by destruct w. Qed.

Lemma host_only_ret {A} (a : A) : host_only (mret a).
Proof. intros w. exists a, (hostLog w). mexec. by rewrite set_hostLog_id. Qed.

Lemma host_only_bind {A B} (m : M A) (k : A → M B) :
  host_only m → (∀ a, host_only (k a)) → host_only (m ≫= k).
Proof.
  intros Hm Hk w. destruct (Hm w) as (a & log & E).
  destruct (Hk a (set_hostLog log w)) as (b & log' & E').
  exists b, log'. mexec. by rewrite E, E'.
Qed.

Lemma host_only_call (P : Platform) (c : HostCall) : host_only (call P c).
Proof. intros w. by eexists _, _. Qed.

Lemma host_only_mapM {A B} (f : A → M B) (l : list A) :
  (∀ x, host_only (f x)) → host_only (mapM f l).
Proof.
  intros Hf. induction l as [| x l IH]; simpl.
  - apply host_only_ret.
  - apply host_only_bind; [apply Hf |]. intros y.
    apply host_only_bind; [apply IH |]. intros k. apply host_only_ret.
Qed.

Lemma host_only_DataChannel_delete (P : Platform) (d : DataChannel) :
  host_only (DataChannel_delete P d).
Proof.
  intros w. unfold DataChannel_delete. mexec. rewrite DataChannel_close_spec.
  case_decide; eexists _, _; [by rewrite set_hostLog_id | done].
Qed.

Lemma host_only_WebSocket_delete (P : Platform) (s : WebSocket) :
  host_only (WebSocket_delete P s).
Proof.
  intros w. unfold WebSocket_delete. mexec. rewrite WebSocket_close_spec.
  case_decide; eexists _, _; [by rewrite set_hostLog_id | done].
Qed.

Lemma host_only_PeerConnection_delete (P : Platform) (p : PeerConnection) :
  host_only (PeerConnection_delete P p).
Proof. intros w. by eexists _, _. Qed.

Lemma eraseAll_spec (P : Platform) (w : World) :
  ∃ n log,
    eraseAll P w
    = (inr n, {| peerConnectionMap := ∅; dataChannelMap := ∅; webSocketMap := ∅;
                 userPointerMap := ∅; lastId := lastId w; hostLog := log;
                 clientLog := clientLog w |}).
Proof.
  unfold eraseAll.
  pose proof (host_only_mapM (λ kv : Z * DataChannel, DataChannel_delete P kv.2)
                (in_clear_order P w (dataChannelMap w))
                (λ kv, host_only_DataChannel_delete P kv.2)) as H1.
  pose proof (host_only_mapM (λ kv : Z * PeerConnection, PeerConnection_delete P kv.2)
                (in_clear_order P w (peerConnectionMap w))
                (λ kv, host_only_PeerConnection_delete P kv.2)) as H2.
  pose proof (host_only_mapM (λ kv : Z * WebSocket, WebSocket_delete P kv.2)
                (in_clear_order P w (webSocketMap w))
                (λ kv, host_only_WebSocket_delete P kv.2)) as H3.
  unfold mbind at 1 2 3. unfold M_bind at 1 2 3. unfold gets. simpl.
  revert H1 H2 H3.
  generalize (mapM (λ kv : Z * DataChannel, DataChannel_delete P kv.2)
                (in_clear_order P w (dataChannelMap w))).
  generalize (mapM (λ kv : Z * PeerConnection, PeerConnection_delete P kv.2)
                (in_clear_order P w (peerConnectionMap w))).
  generalize (mapM (λ kv : Z * WebSocket, WebSocket_delete P kv.2)
                (in_clear_order P w (webSocketMap w))).
  intros f3 f2 f1 H1 H2 H3. unfold host_only in *. mexec.
  destruct (H1 (set_dataChannelMap ∅ w)) as (a1 & l1 & E1). rewrite E1.
  destruct (H2 (set_peerConnectionMap ∅ (set_hostLog l1 (set_dataChannelMap ∅ w))))
    as (a2 & l2 & E2).
  rewrite E2.
  destruct (H3 (set_webSocketMap ∅
                  (set_hostLog l2
                     (set_peerConnectionMap ∅ (set_hostLog l1 (set_dataChannelMap ∅ w))))))
    as (a3 & l3 & E3).
  rewrite E3. by eexists _, _.
Qed.

(** ** Dispatch *)

Lemma dispatch_spec (P : Platform) (e : ChannelEvent) (cl : Closure) (w : World) :
  dispatch P e cl w
  = match userPointerMap w !! cl_id cl with
    | Some p => (inr (), set_clientLog (clientLog w ++ [client_call P e cl p]) w)
    | None => (inr (), w)
    end.
Proof.
  destruct e as [| | error | [b | s] |]; simpl;
    unfold open_lambda, closed_lambda, error_lambda, message_binary_lambda,
      message_string_lambda, bufferedAmountLow_lambda, getUserPointer; mexec;
    by destruct (userPointerMap w !! cl_id cl).
Qed.


(** ** Computations that leave the registry alone *)

Lemma set_logs_id (w : World) : set_logs (hostLog w) (clientLog w) w = w.
Proof. by destruct w. Qed.

Lemma logs_only_ret {A} (a : A) : logs_only (mret a).
Proof.
  intros w. exists (inr a), (hostLog w), []. mexec.
  by rewrite app_nil_r, set_logs_id.
Qed.

Lemma logs_only_throw {A} (e : exn) : logs_only (throw (A := A) e).
Proof.
  intros w. exists (inl e), (hostLog w), []. mexec.
  by rewrite app_nil_r, set_logs_id.
Qed.

Lemma logs_only_gets {A} (f : World → A) : logs_only (gets f).
Proof.
  intros w. exists (inr (f w)), (hostLog w), []. mexec.
  by rewrite app_nil_r, set_logs_id.
Qed.

Lemma announced_app (l k : list ClientCall) : announced (l ++ k) = announced l ++ announced k.
Proof. apply omap_app. Qed.

Lemma logs_only_bind {A B} (m : M A) (k : A → M B) :
  logs_only m → (∀ a, logs_only (k a)) → logs_only (m ≫= k).
Proof.
  intros Hm Hk w. destruct (Hm w) as (r & hl & cl & E & Hcl). mexec. rewrite E.
  destruct r as [e | a].
  - by exists (inl e), hl, cl.
  - destruct (Hk a (set_logs hl (clientLog w ++ cl) w)) as (r' & hl' & cl' & E' & Hcl').
    exists r', hl', (cl ++ cl'). rewrite E'. split.
    + unfold set_logs. simpl. by rewrite app_assoc.
    + by rewrite announced_app, Hcl, Hcl'.
Qed.

Lemma logs_only_call (P : Platform) (c : HostCall) : logs_only (call P c).
Proof.
  intros w. eexists _, (hostLog w ++ [c]), []. mexec.
  rewrite app_nil_r. by destruct w.
Qed.

Lemma logs_only_call_buf (P : Platform) (c : HostCall) : logs_only (call_buf P c).
Proof.
  intros w. eexists _, (hostLog w ++ [c]), []. mexec.
  rewrite app_nil_r. by destruct w.
Qed.

Lemma logs_only_client (c : ClientCall) : announced [c] = [] → logs_only (client c).
Proof.
  intros Hc w. eexists _, (hostLog w), [c]. mexec.
  by destruct w.
Qed.

(** Decomposes a computation into the primitive ones. *)
Ltac logs_only :=
  repeat first
    [ apply logs_only_ret | apply logs_only_throw | apply logs_only_gets
    | apply logs_only_call | apply logs_only_call_buf
    | apply logs_only_client; reflexivity
    | apply logs_only_bind; [| intros ?]
    | match goal with
      | |- logs_only (match ?x with _ => _ end) => destruct x
      | |- logs_only (if ?x then _ else _) => destruct x
      end
    | assumption ].

Lemma logs_only_getUserPointer (id : Z) : logs_only (getUserPointer id).
Proof. unfold getUserPointer. logs_only. Qed.

Lemma logs_only_dispatch (P : Platform) (e : ChannelEvent) (cl : Closure) :
  logs_only (dispatch P e cl).
Proof.
  destruct e as [| | error | [b | s] |]; simpl;
    unfold open_lambda, closed_lambda, error_lambda, message_binary_lambda,
      message_string_lambda, bufferedAmountLow_lambda, getUserPointer; logs_only.
Qed.

Lemma logs_only_trigger (P : Platform) (e : ChannelEvent) (c : Channel) :
  logs_only (trigger P e c).
Proof.
  destruct e as [| | error | m |]; simpl;
    unfold Channel_triggerOpen, Channel_triggerClosed, Channel_triggerError,
      Channel_triggerMessage, Channel_triggerBufferedAmountLow.
  - destruct (mOpenCallback c); [apply (logs_only_dispatch P OpenEvent) | logs_only].
  - destruct (mClosedCallback c); [apply (logs_only_dispatch P ClosedEvent) | logs_only].
  - destruct (mErrorCallback c);
      [apply (logs_only_dispatch P (ErrorEvent error)) | logs_only].
  - destruct (mMessageCallback c); [| logs_only].
    destruct m; [apply (logs_only_dispatch P (MessageEvent (Binary b)))
                | apply (logs_only_dispatch P (MessageEvent (Text s)))].
  - destruct (mBufferedAmountLowCallback c);
      [apply (logs_only_dispatch P BufferedAmountLowEvent) | logs_only].
Qed.

Lemma logs_only_DataChannel_close (P : Platform) (d : DataChannel) :
  logs_only (DataChannel_close P d).
Proof. unfold DataChannel_close. logs_only. Qed.

Lemma logs_only_WebSocket_close (P : Platform) (s : WebSocket) :
  logs_only (WebSocket_close P s).
Proof. unfold WebSocket_close. logs_only. Qed.

Lemma logs_only_close (P : Platform) (c : AnyChannel) : logs_only (close P c).
Proof.
  destruct c; simpl; logs_only;
    [apply logs_only_DataChannel_close | apply logs_only_WebSocket_close].
Qed.

Lemma logs_only_send (P : Platform) (m : message_variant) (c : AnyChannel) :
  logs_only (send P m c).
Proof. destruct c; simpl; unfold DataChannel_send, WebSocket_send; logs_only. Qed.

Lemma logs_only_bufferedAmount (P : Platform) (c : AnyChannel) :
  logs_only (bufferedAmount P c).
Proof. destruct c; simpl; unfold DataChannel_bufferedAmount; logs_only. Qed.

Lemma logs_only_setBufferedAmountLowThreshold (P : Platform) (n : Z) (c : AnyChannel) :
  logs_only (setBufferedAmountLowThreshold P n c).
Proof.
  destruct c; simpl; unfold DataChannel_setBufferedAmountLowThreshold; logs_only.
Qed.

Lemma logs_only_DataChannel_reliability (P : Platform) (d : DataChannel) :
  logs_only (DataChannel_reliability P d).
Proof. unfold DataChannel_reliability. logs_only. Qed.

Lemma logs_only_DataChannel_new (P : Platform) (id : Z) : logs_only (DataChannel_new P id).
Proof. unfold DataChannel_new. logs_only. Qed.

Lemma logs_only_DataChannel_delete (P : Platform) (d : DataChannel) :
  logs_only (DataChannel_delete P d).
Proof. unfold DataChannel_delete. logs_only. apply logs_only_DataChannel_close. Qed.

Lemma logs_only_WebSocket_delete (P : Platform) (s : WebSocket) :
  logs_only (WebSocket_delete P s).
Proof. unfold WebSocket_delete. logs_only. apply logs_only_WebSocket_close. Qed.

Lemma logs_only_PeerConnection_delete (P : Platform) (p : PeerConnection) :
  logs_only (PeerConnection_delete P p).
Proof. unfold PeerConnection_delete. logs_only. Qed.

Lemma logs_only_WebSocket_open (P : Platform) (url : std_string) (s : WebSocket) :
  logs_only (WebSocket_open P url s).
Proof. unfold WebSocket_open. logs_only. apply logs_only_WebSocket_close. Qed.

Lemma logs_only_PeerConnection_new (P : Platform) (config : list IceServer) :
  logs_only (PeerConnection_new P config).
Proof. unfold PeerConnection_new. logs_only. Qed.

Lemma logs_only_PeerConnection_createDataChannel (P : Platform) (label : std_string)
    (r : Reliability) (p : PeerConnection) :
  logs_only (PeerConnection_createDataChannel P label r p).
Proof.
  unfold PeerConnection_createDataChannel. logs_only; apply logs_only_DataChannel_new.
Qed.

Lemma logs_only_PeerConnection_localDescription (P : Platform) (p : PeerConnection) :
  logs_only (PeerConnection_localDescription P p).
Proof. unfold PeerConnection_localDescription. logs_only. Qed.

Lemma logs_only_PeerConnection_remoteDescription (P : Platform) (p : PeerConnection) :
  logs_only (PeerConnection_remoteDescription P p).
Proof. unfold PeerConnection_remoteDescription. logs_only. Qed.

Lemma logs_only_parse_config (P : Platform) (l : list std_string) :
  logs_only (parse_config P l).
Proof. unfold parse_config. logs_only. Qed.

Lemma logs_only_Channel_triggerOpen (c : Channel) : logs_only (Channel_triggerOpen c).
Proof. exact (logs_only_trigger demo_platform OpenEvent c). Qed.

Lemma logs_only_Channel_triggerClosed (c : Channel) : logs_only (Channel_triggerClosed c).
Proof. exact (logs_only_trigger demo_platform ClosedEvent c). Qed.

Lemma logs_only_Channel_triggerError (error : std_string) (c : Channel) :
  logs_only (Channel_triggerError error c).
Proof. exact (logs_only_trigger demo_platform (ErrorEvent error) c). Qed.

Lemma logs_only_Channel_triggerMessage (P : Platform) (m : message_variant) (c : Channel) :
  logs_only (Channel_triggerMessage P m c).
Proof. exact (logs_only_trigger P (MessageEvent m) c). Qed.

Lemma logs_only_Channel_triggerBufferedAmountLow (c : Channel) :
  logs_only (Channel_triggerBufferedAmountLow c).
Proof. exact (logs_only_trigger demo_platform BufferedAmountLowEvent c). Qed.

(** ** What a step does to the registry *)

(** Runs a registry-neutral computation in the goal. *)
Ltac run_lo H :=
  let r := fresh "r" in let hl := fresh "hl" in let cl := fresh "cl" in
  let E := fresh "E" in let Hcl := fresh "Hcl" in
  destruct H as (r & hl & cl & E & Hcl); rewrite E; clear E; cbn [fst snd].

(** Runs a computation that returns and only talks to the host. *)
Ltac run_ho H :=
  let a := fresh "a" in let hl := fresh "hl" in let E := fresh "E" in
  destruct H as (a & hl & E); rewrite E; clear E; cbn [fst snd].

Ltac run_step :=
  match goal with
  | |- context [send ?P ?m ?c ?w] => run_lo (logs_only_send P m c w)
  | |- context [close ?P ?c ?w] => rewrite (close_spec P c w)
  | |- context [DataChannel_close ?P ?c ?w] => rewrite (DataChannel_close_spec P c w)
  | |- context [WebSocket_close ?P ?c ?w] => rewrite (WebSocket_close_spec P c w)
  | |- context [bufferedAmount ?P ?c ?w] => run_lo (logs_only_bufferedAmount P c w)
  | |- context [setBufferedAmountLowThreshold ?P ?n ?c ?w] =>
      run_lo (logs_only_setBufferedAmountLowThreshold P n c w)
  | |- context [DataChannel_reliability ?P ?d ?w] =>
      run_lo (logs_only_DataChannel_reliability P d w)
  | |- context [DataChannel_delete ?P ?d ?w] => run_ho (host_only_DataChannel_delete P d w)
  | |- context [WebSocket_delete ?P ?d ?w] => run_ho (host_only_WebSocket_delete P d w)
  | |- context [PeerConnection_delete ?P ?d ?w] =>
      run_ho (host_only_PeerConnection_delete P d w)
  | |- context [WebSocket_open ?P ?u ?s ?w] => run_lo (logs_only_WebSocket_open P u s w)
  | |- context [PeerConnection_new ?P ?c ?w] => run_lo (logs_only_PeerConnection_new P c w)
  | |- context [PeerConnection_createDataChannel ?P ?l ?r ?p ?w] =>
      run_lo (logs_only_PeerConnection_createDataChannel P l r p w)
  | |- context [PeerConnection_localDescription ?P ?p ?w] =>
      run_lo (logs_only_PeerConnection_localDescription P p w)
  | |- context [PeerConnection_remoteDescription ?P ?p ?w] =>
      run_lo (logs_only_PeerConnection_remoteDescription P p w)
  | |- context [PeerConnection_setRemoteDescription ?P ?d ?p ?w] =>
      unfold PeerConnection_setRemoteDescription
  | |- context [PeerConnection_addRemoteCandidate ?P ?d ?p ?w] =>
      unfold PeerConnection_addRemoteCandidate
  | |- context [parse_config ?P ?l ?w] => run_lo (logs_only_parse_config P l w)
  | |- context [DataChannel_new ?P ?i ?w] => run_lo (logs_only_DataChannel_new P i w)
  | |- context [Channel_triggerOpen ?c ?w] => run_lo (logs_only_Channel_triggerOpen c w)
  | |- context [Channel_triggerClosed ?c ?w] =>
      run_lo (logs_only_Channel_triggerClosed c w)
  | |- context [Channel_triggerError ?e ?c ?w] =>
      run_lo (logs_only_Channel_triggerError e c w)
  | |- context [Channel_triggerMessage ?P ?m ?c ?w] =>
      run_lo (logs_only_Channel_triggerMessage P m c w)
  | |- context [Channel_triggerBufferedAmountLow ?c ?w] =>
      run_lo (logs_only_Channel_triggerBufferedAmountLow c w)
  end.

Ltac sym :=
  repeat first
    [ progress mexec
    | progress cbn [with_channel closed transport release channel_of isOpen isClosed
                    putChannel dc_channel ws_channel dc_mId ws_mId]
    | progress unfold putChannel, putDataChannel, putWebSocket, putPeerConnection,
        eraseChannel, eraseDataChannel, erasePeerConnection, eraseWebSocket,
        emplaceDataChannel, emplacePeerConnection, emplaceWebSocket,
        getPeerConnection, getDataChannel, getWebSocket, getChannel,
        setUserPointer, getUserPointer, PeerConnection_close,
        PeerConnection_setLocalDescription, ret_with, set_logs
    | run_step
    | match goal with
      | |- context [match ?x with _ => _ end] =>
          lazymatch x with
          | context [match _ with _ => _ end] => fail
          | _ => first [ is_var x; destruct x | destruct x eqn:? ]
          end
      end ].

Ltac absurd_lookup :=
  exfalso;
  cbn [fst snd peerConnectionMap dataChannelMap webSocketMap lastId userPointerMap
       set_peerConnectionMap set_dataChannelMap set_webSocketMap set_userPointerMap
       set_lastId set_hostLog set_clientLog] in *;
  repeat match goal with
         | H : context [<[_ := _]> _ !! _] |- _ => rewrite lookup_insert_eq in H
         end;
  congruence.

Ltac reg_done :=
  cbn [fst snd peerConnectionMap dataChannelMap webSocketMap lastId userPointerMap
       set_peerConnectionMap set_dataChannelMap set_webSocketMap set_userPointerMap
       set_lastId set_hostLog set_clientLog];
  rewrite ?delete_insert_eq;
  first
    [ absurd_lookup
    | by apply rs_keep
    | by eapply rs_erase_dataChannel
    | by eapply rs_erase_webSocket
    | by eapply rs_erase_peerConnection
    | by eapply rs_new_dataChannel
    | by eapply rs_new_webSocket
    | by eapply rs_new_peerConnection
    | by eapply rs_peerConnection
    | eapply rs_dataChannel; [eassumption | | reflexivity ..]; by simpl
    | eapply rs_webSocket; [eassumption | | reflexivity ..]; by simpl ].

Ltac unfold_abi :=
  unfold rtcSetUserPointer, rtcGetUserPointer, rtcCreatePeerConnection,
    rtcClosePeerConnection, rtcDeletePeerConnection, rtcSetPeerConnectionCallback,
    rtcSetLocalDescription, rtcSetRemoteDescription, rtcAddRemoteCandidate,
    rtcGetLocalDescription, rtcGetRemoteDescription, rtcGetLocalDescriptionType,
    rtcGetRemoteDescriptionType, rtcSetOpenCallback, rtcSetClosedCallback,
    rtcSetErrorCallback, rtcSetMessageCallback, rtcSendMessage, rtcClose, rtcDelete,
    rtcIsOpen, rtcIsClosed, rtcGetBufferedAmount, rtcSetBufferedAmountLowThreshold,
    rtcSetBufferedAmountLowCallback, rtcCreateDataChannel, rtcCreateDataChannelEx,
    rtcDeleteDataChannel, rtcGetDataChannelLabel, rtcGetDataChannelReliability,
    rtcCreateWebSocket, rtcDeleteWebSocket, rtcCleanup.

Lemma reg_step_abi P c w : reg_step w (abi P c w).2.
Proof.
  destruct c; simpl; unfold ret_with; cbn [fst snd].
  all: try (unfold_abi; sym; reg_done).
  unfold rtcCleanup. cbn [snd]. destruct (eraseAll_spec P w) as (n & log & ->).
  by apply rs_clear.
Qed.

Ltac unfold_deliver :=
  unfold on_dataChannel, on_webSocket, on_peerConnection, DataChannel_OpenCallback,
    DataChannel_triggerOpen, DataChannel_ErrorCallback, DataChannel_MessageCallback,
    DataChannel_BufferedAmountLowCallback, WebSocket_OpenCallback, WebSocket_triggerOpen,
    WebSocket_ErrorCallback, WebSocket_MessageCallback, PeerConnection_DataChannelCallback,
    PeerConnection_triggerDataChannel, dataChannel_lambda,
    PeerConnection_DescriptionCallback, PeerConnection_triggerLocalDescription,
    description_lambda, PeerConnection_CandidateCallback,
    PeerConnection_triggerLocalCandidate, candidate_lambda, PeerConnection_triggerState,
    state_lambda.

Lemma reg_step_deliver P e w : reg_step w (deliver P e w).2.
Proof.
  destruct e; simpl.
  all: unfold_deliver; sym; reg_done.
Qed.

Lemma lookup_emplace_Some {V} (k h : Z) (v x : V) (m : gmap Z V) :
  m !! h = Some x → emplace k v m !! h = Some x.
Proof.
  intros Hh. unfold emplace. destruct (m !! k) eqn:Ek; [done |].
  rewrite lookup_insert_ne; [done |]. intros ->. congruence.
Qed.

Lemma reg_step_dataChannel_closed (w w' : World) (h : Z) (d d' : DataChannel) :
  reg_step w w' →
  dataChannelMap w !! h = Some d → dataChannelMap w' !! h = Some d' →
  dc_mId d = 0 → dc_mId d' = 0.
Proof.
  intros Hs Hd Hd' Hc.
  destruct Hs as [? E | h0 d0 d0' H0 Hc0 E | ? ? ? ? ? ? ? E | ? ? ? ? ? E
                 | h0 E | ? ? ? E | ? ? E | d0 ? E | ? ? ? ? E | ? ? ? E | ? E];
    rewrite E in Hd'; try congruence.
  - destruct (decide (h0 = h)) as [-> | Hne].
    + rewrite lookup_insert_eq in Hd'. simplify_eq. auto.
    + rewrite lookup_insert_ne in Hd' by done. congruence.
  - destruct (decide (h0 = h)) as [-> | Hne].
    + by rewrite lookup_delete_eq in Hd'.
    + rewrite lookup_delete_ne in Hd' by done. congruence.
  - rewrite (lookup_emplace_Some _ _ _ _ _ Hd) in Hd'. congruence.
  - by rewrite lookup_empty in Hd'.
Qed.

Lemma reg_step_webSocket_closed (w w' : World) (h : Z) (s s' : WebSocket) :
  reg_step w w' →
  webSocketMap w !! h = Some s → webSocketMap w' !! h = Some s' →
  ws_mId s = 0 → ws_mId s' = 0.
Proof.
  intros Hs Hd Hd' Hc.
  destruct Hs as [? ? E | ? ? ? ? ? ? ? E | h0 d0 d0' H0 Hc0 E | ? ? ? ? ? ? E
                 | ? ? ? E | h0 E | ? ? ? E | ? ? ? ? E | d0 ? E | ? ? ? ? E | ? ? E];
    rewrite E in Hd'; try congruence.
  - destruct (decide (h0 = h)) as [-> | Hne].
    + rewrite lookup_insert_eq in Hd'. simplify_eq. auto.
    + rewrite lookup_insert_ne in Hd' by done. congruence.
  - destruct (decide (h0 = h)) as [-> | Hne].
    + by rewrite lookup_delete_eq in Hd'.
    + rewrite lookup_delete_ne in Hd' by done. congruence.
  - rewrite (lookup_emplace_Some _ _ _ _ _ Hd) in Hd'. congruence.
  - by rewrite lookup_empty in Hd'.
Qed.

Lemma trigger_returns (P : Platform) (e : ChannelEvent) (c : Channel) (w : World) :
  ∃ cl, trigger P e c w = (inr (), set_clientLog (clientLog w ++ cl) w).
Proof.
  assert (Hnone : ∃ cl, (inr (), w) = (inr () : exn + (), set_clientLog (clientLog w ++ cl) w)).
  { exists []. rewrite app_nil_r. by destruct w. }
  assert (Hd : ∀ cl0, ∃ cl, dispatch P e cl0 w
                            = (inr (), set_clientLog (clientLog w ++ cl) w)).
  { intros cl0. rewrite dispatch_spec. destruct (_ !! _); [by eexists | done]. }
  destruct e as [| | error | m |]; simpl;
    unfold Channel_triggerOpen, Channel_triggerClosed, Channel_triggerError,
      Channel_triggerMessage, Channel_triggerBufferedAmountLow.
  - destruct (mOpenCallback c); [apply Hd | done].
  - destruct (mClosedCallback c); [apply Hd | done].
  - destruct (mErrorCallback c); [apply Hd | done].
  - destruct (mMessageCallback c); [| done]. destruct m; apply Hd.
  - destruct (mBufferedAmountLowCallback c); [apply Hd | done].
Qed.

Lemma reg_step_step (P : Platform) (s : Step) (w : World) : reg_step w (step P s w).
Proof. destruct s; [apply reg_step_abi | apply reg_step_deliver]. Qed.


Lemma not_live_lookups (h : Z) (w : World) :
  ¬ live h w →
  peerConnectionMap w !! h = None ∧ dataChannelMap w !! h = None
  ∧ webSocketMap w !! h = None.
Proof.
  unfold live. intros H. split_and!; apply eq_None_not_Some; tauto.
Qed.

(** C1 (amended): an exported function that answers with a status and is
    called on a handle that is not live answers -1 and changes nothing: no
    resource map, no user pointer, no call to the host or to the client, and
    the caller's buffer stays as it was.  [rtcIsOpen] and [rtcIsClosed] answer
    false and change nothing; [rtcGetUserPointer] answers what the
    user-pointer map holds for the handle, null by default.
    [rtcSetUserPointer] does not look the handle up: it writes the
    user-pointer map whether the handle is live or not. *)
Theorem not_live_handle (P : Platform) (c : AbiCall) (h : Z) (w : World) :
  handle_of c = Some h →
  ¬ live h w →
  abi P c w
  = (not_live_answer c w,
     match c with
     | Call_rtcSetUserPointer i ptr => set_userPointerMap (<[i := ptr]> (userPointerMap w)) w
     | _ => w
     end).
Proof.
  intros Hh Hl. apply not_live_lookups in Hl as (Hp & Hd & Hs).
  destruct c; simpl in Hh; simplify_eq; simpl; unfold ret_with; unfold_abi;
    unfold getPeerConnection, getDataChannel, getWebSocket, getChannel; mexec;
    rewrite ?Hp, ?Hd, ?Hs; reflexivity.
Qed.

Lemma not_live_handle_witness :
  abi demo_platform (Call_rtcSendMessage 7 (Some [x01]) 1) initial
  = (RetInt RTC_ERR_INVALID, initial).
Proof.
  apply (not_live_handle demo_platform (Call_rtcSendMessage 7 (Some [x01]) 1) 7 initial).
  - reflexivity.
  - unfold live. intros [[x Hx] | [[x Hx] | [x Hx]]]; vm_compute in Hx; discriminate.
Defined.

(** [rtcSetUserPointer] on a handle that was never handed out leaves an
    entry behind and answers nothing. *)
Lemma not_live_is_inert_counterexample :
  ¬ not_live_is_inert demo_platform (Call_rtcSetUserPointer 7 99) initial.
Proof.
  unfold not_live_is_inert. intros H.
  destruct (H 7) as [Hst _]; [reflexivity | | discriminate].
  unfold live. intros [[x Hx] | [[x Hx] | [x Hx]]]; vm_compute in Hx; discriminate.
Qed.

(** ** Handles *)

Ltac world_cbn :=
  cbn [fst snd peerConnectionMap dataChannelMap webSocketMap lastId userPointerMap
       hostLog clientLog
       set_peerConnectionMap set_dataChannelMap set_webSocketMap set_userPointerMap
       set_lastId set_hostLog set_clientLog].

Ltac announce_nil :=
  exists []; rewrite app_nil_r; split; [reflexivity | left; reflexivity].

Ltac announce_some :=
  eexists; split; [reflexivity |];
  rewrite ?announced_app;
  repeat match goal with H : announced _ = [] |- _ => rewrite H; clear H end;
  cbn [announced omap app];
  first [ left; reflexivity | right; split; reflexivity ].

Ltac announce_done :=
  world_cbn; rewrite <- ?app_assoc; first [ announce_nil | announce_some ].

Lemma deliver_announces P e w :
  ∃ cl, clientLog (deliver P e w).2 = clientLog w ++ cl
        ∧ (announced cl = []
           ∨ (announced cl = [to_int (lastId w + 1)]
              ∧ lastId (deliver P e w).2 = to_int (lastId w + 1))).
Proof.
  destruct e; simpl.
  all: unfold_deliver; sym; announce_done.
Qed.

Lemma create_spec P c w :
  is_create c = true →
  ∃ r, (abi P c w).1 = RetInt r
       ∧ ((r = to_int (lastId w + 1) ∧ lastId (abi P c w).2 = to_int (lastId w + 1))
          ∨ ((r = RTC_ERR_INVALID ∨ r = RTC_ERR_FAILURE)
             ∧ same_registry w (abi P c w).2)).
Proof.
  destruct c; try discriminate; intros _; simpl; unfold ret_with; unfold_abi; sym;
    world_cbn; (eexists; split; [reflexivity |]);
    first [ left; by rewrite to_int_idemp
          | right; split; [by left | done]
          | right; split; [by right | done] ].
Qed.

Lemma handed_spec P s w :
  handed P s w = []
  ∨ (handed P s w = [to_int (lastId w + 1)]
     ∧ lastId (step P s w) = to_int (lastId w + 1)).
Proof.
  destruct s as [c | e]; simpl.
  - destruct (is_create c) eqn:Ec.
    + destruct (create_spec P c w Ec) as (r & Er & Hr). rewrite Er. simpl.
      destruct (0 <=? r) eqn:E0; [| by left].
      destruct Hr as [[-> Hl] | [[-> | ->] _]]; [by right | done | done].
    + left. by destruct ((abi P c w).1).
  - destruct (deliver_announces P e w) as (cl & Ecl & Hcl).
    rewrite Ecl, drop_app_length. tauto.
Qed.

Lemma is_Some_emplace {V} (k h : Z) (v : V) (m : gmap Z V) :
  is_Some (emplace k v m !! h) → h = k ∨ is_Some (m !! h).
Proof.
  unfold emplace. destruct (m !! k) eqn:Ek; [auto |].
  destruct (decide (k = h)) as [-> | Hne]; [auto |].
  rewrite lookup_insert_ne by done. auto.
Qed.

Lemma is_Some_insert_known {V} (k h : Z) (v x : V) (m : gmap Z V) :
  m !! k = Some x → is_Some (<[k := v]> m !! h) → is_Some (m !! h).
Proof.
  intros Hk. destruct (decide (k = h)) as [-> | Hne]; [by rewrite Hk |].
  by rewrite lookup_insert_ne.
Qed.

Lemma is_Some_delete {V} (k h : Z) (m : gmap Z V) :
  is_Some (delete k m !! h) → is_Some (m !! h).
Proof.
  destruct (decide (k = h)) as [-> | Hne].
  - rewrite lookup_delete_eq. by intros [? ?].
  - by rewrite lookup_delete_ne.
Qed.

(** What a step does to the keys: it adds none and keeps the counter, or it
    advances the counter by one and adds at most that key to one map. *)
Lemma reg_step_keys (w w' : World) :
  reg_step w w' →
  (lastId w' = lastId w
   ∧ (∀ h, is_Some (peerConnectionMap w' !! h) → is_Some (peerConnectionMap w !! h))
   ∧ (∀ h, is_Some (dataChannelMap w' !! h) → is_Some (dataChannelMap w !! h))
   ∧ (∀ h, is_Some (webSocketMap w' !! h) → is_Some (webSocketMap w !! h)))
  ∨ (lastId w' = to_int (lastId w + 1)
     ∧ ((∀ h, is_Some (peerConnectionMap w' !! h) →
              h = lastId w' ∨ is_Some (peerConnectionMap w !! h))
        ∧ dataChannelMap w' = dataChannelMap w ∧ webSocketMap w' = webSocketMap w
        ∨ (∀ h, is_Some (dataChannelMap w' !! h) →
                h = lastId w' ∨ is_Some (dataChannelMap w !! h))
          ∧ peerConnectionMap w' = peerConnectionMap w
          ∧ webSocketMap w' = webSocketMap w
        ∨ (∀ h, is_Some (webSocketMap w' !! h) →
                h = lastId w' ∨ is_Some (webSocketMap w !! h))
          ∧ peerConnectionMap w' = peerConnectionMap w
          ∧ dataChannelMap w' = dataChannelMap w)).
Proof.
  intros [Ep Ed Es El | h d d' Hd _ Ed Ep Es El | h s s' Hs _ Es Ep Ed El
         | h p p' Hp Ep Ed Es El | h Ed Ep Es El | h Es Ep Ed El | h Ep Ed Es El
         | d El Ed Ep Es | s El Es Ep Ed | p El Ep Ed Es | Ep Ed Es El].
  all: try (left; rewrite ?Ep, ?Ed, ?Es; split_and!; try done;
            eauto using is_Some_insert_known, is_Some_delete;
            intros h0; rewrite lookup_empty; by intros [? ?]).
  - right. split; [done |]. right. left. rewrite Ed, Ep, Es. split_and!; try done.
    intros h. apply is_Some_emplace.
  - right. split; [done |]. right. right. rewrite Ed, Ep, Es. split_and!; try done.
    intros h. apply is_Some_emplace.
  - right. split; [done |]. left. rewrite Ed, Ep, Es. split_and!; try done.
    intros h. apply is_Some_emplace.
Qed.

Lemma well_formed_initial : well_formed initial.
Proof.
  unfold well_formed, live, initial; simpl. split_and!; [done | | | |];
    intros h; rewrite ?lookup_empty; intros H;
    repeat match goal with
           | H : _ ∨ _ |- _ => destruct H
           | H : _ ∧ _ |- _ => destruct H
           | H : is_Some None |- _ => by destruct H
           end.
Qed.

Lemma well_formed_step (w w' : World) :
  reg_step w w' → well_formed w → lastId w < INT_MAX →
  well_formed w' ∧ lastId w <= lastId w' <= lastId w + 1.
Proof.
  intros Hs (H0 & Hl & Hpd & Hps & Hds) Hmax. unfold INT_MAX in Hmax.
  assert (En : to_int (lastId w + 1) = lastId w + 1) by (apply to_int_small; lia).
  unfold well_formed, live in *.
  destruct (reg_step_keys w w' Hs) as [(El & Kp & Kd & Ks) | (El & K)].
  - rewrite El. split; [| lia]. split_and!; [done | | | |]; intros h.
    + intros [H | [H | H]]; apply Hl; eauto.
    + intros [H1 H2]. apply (Hpd h). eauto.
    + intros [H1 H2]. apply (Hps h). eauto.
    + intros [H1 H2]. apply (Hds h). eauto.
  - rewrite El, En in *. split; [| lia].
    assert (Hfresh : ∀ h, is_Some (peerConnectionMap w !! h)
                          ∨ is_Some (dataChannelMap w !! h)
                          ∨ is_Some (webSocketMap w !! h) → h ≠ lastId w + 1).
    { intros h H. apply Hl in H. lia. }
    destruct K as [(K & Ed & Es) | [(K & Ep & Es) | (K & Ep & Ed)]];
      rewrite ?Ep, ?Ed, ?Es; (split_and!; [lia | | | |]); intros h.
    + intros [H | [H | H]]; [apply K in H as [-> | H]; [lia |] | |];
        (assert (0 < h <= lastId w) by (apply Hl; eauto)); lia.
    + intros [H1 H2]. apply K in H1 as [-> | H1]; [| by apply (Hpd h)].
      apply (Hfresh (lastId w + 1)); eauto.
    + intros [H1 H2]. apply K in H1 as [-> | H1]; [| by apply (Hps h)].
      apply (Hfresh (lastId w + 1)); eauto.
    + apply Hds.
    + intros [H | [H | H]]; [| apply K in H as [-> | H]; [lia |] |];
        (assert (0 < h <= lastId w) by (apply Hl; eauto)); lia.
    + intros [H1 H2]. apply K in H2 as [-> | H2]; [| by apply (Hpd h)].
      apply (Hfresh (lastId w + 1)); eauto.
    + apply Hps.
    + intros [H1 H2]. apply K in H1 as [-> | H1]; [| by apply (Hds h)].
      apply (Hfresh (lastId w + 1)); eauto.
    + intros [H | [H | H]]; [| | apply K in H as [-> | H]; [lia |]];
        (assert (0 < h <= lastId w) by (apply Hl; eauto)); lia.
    + apply Hpd.
    + intros [H1 H2]. apply K in H2 as [-> | H2]; [| by apply (Hps h)].
      apply (Hfresh (lastId w + 1)); eauto.
    + intros [H1 H2]. apply K in H2 as [-> | H2]; [| by apply (Hds h)].
      apply (Hfresh (lastId w + 1)); eauto.
Qed.

Lemma run_handles (P : Platform) (steps : list Step) (w : World) :
  well_formed w →
  lastId w + Z.of_nat (length steps) <= INT_MAX →
  well_formed (run P steps w)
  ∧ lastId w <= lastId (run P steps w) <= lastId w + Z.of_nat (length steps)
  ∧ StronglySorted Z.lt (handles P steps w)
  ∧ Forall (λ h, lastId w < h <= lastId (run P steps w)) (handles P steps w).
Proof.
  revert w. induction steps as [| s steps IH]; intros w Hwf Hmax.
  - simpl. split_and!; [done | lia | lia | constructor | constructor].
  - cbn [length] in Hmax. rewrite Nat2Z.inj_succ in Hmax.
    destruct (well_formed_step w (step P s w) (reg_step_step P s w) Hwf ltac:(lia))
      as (Hwf' & Hl').
    destruct (IH (step P s w) Hwf' ltac:(lia)) as (Hwf'' & Hl'' & Hsorted & Hall).
    change (run P (s :: steps) w) with (run P steps (step P s w)).
    cbn [handles length]. rewrite Nat2Z.inj_succ.
    split_and!; [done | lia | lia | |].
    + destruct (handed_spec P s w) as [-> | [-> El]]; [done |].
      simpl. constructor; [done |].
      eapply Forall_impl; [exact Hall |]. simpl. intros h Hh.
      rewrite El in Hh. lia.
    + apply Forall_app. split.
      * destruct (handed_spec P s w) as [-> | [-> El]]; [constructor |].
        constructor; [| constructor]. rewrite <- El.
        destruct Hwf as (H0 & _). unfold INT_MAX in Hmax.
        rewrite El, to_int_small in * by lia. lia.
      * eapply Forall_impl; [exact Hall |]. simpl. intros h Hh. lia.
Qed.

(** C8: one counter numbers the resources of all kinds.  In a run of fewer
    than [INT_MAX] steps from the empty registry, the handles handed to the
    client, by the creates that succeed and through the data-channel
    callback, are positive and strictly increasing; at every point the live
    handles are positive and at most the counter, and no two kinds of resource
    share a handle.  A create then either answers the next counter value,
    which becomes the counter, or answers an error status, and in that case
    the registry with its counter is as before. *)
Theorem handles_strictly_increase (P : Platform) (steps : list Step) :
  Z.of_nat (length steps) < INT_MAX →
  StronglySorted Z.lt (handles P steps initial)
  ∧ Forall (λ h, 0 < h) (handles P steps initial)
  ∧ well_formed (run P steps initial)
  ∧ (∀ c, is_create c = true →
          ∃ r, (abi P c (run P steps initial)).1 = RetInt r
               ∧ (r = lastId (run P steps initial) + 1
                  ∧ 0 < r
                  ∧ Forall (λ h, h < r) (handles P steps initial)
                  ∧ lastId (abi P c (run P steps initial)).2 = r
                  ∨ r < 0
                    ∧ same_registry (run P steps initial)
                        (abi P c (run P steps initial)).2)).
Proof.
  intros Hlen.
  destruct (run_handles P steps initial well_formed_initial ltac:(simpl; lia))
    as (Hwf & Hl & Hsorted & Hall).
  simpl in Hl, Hall. split_and!; [done | | done |].
  - eapply Forall_impl; [exact Hall |]. simpl. lia.
  - intros c Hc. destruct (create_spec P c (run P steps initial) Hc)
      as (r & Er & Hr).
    exists r. split; [done |].
    unfold INT_MAX in Hlen.
    destruct Hr as [[Hr El] | [[-> | ->] Hsame]]; [left | by right | by right].
    rewrite to_int_small in Hr, El by lia. split_and!; [done | lia | | lia].
    eapply Forall_impl; [exact Hall |]. simpl. lia.
Qed.

Lemma handles_strictly_increase_witness :
  StronglySorted Z.lt
    (handles demo_platform
       [Call (Call_rtcCreateWebSocket (str "ws://h"));
        Call (Call_rtcCreatePeerConnection []);
        Call (Call_rtcDelete 1);
        Call (Call_rtcSetPeerConnectionCallback DataChannelSlot 2 77);
        Event (PeerConnection_DataChannel 2 5);
        Call (Call_rtcCreateWebSocket (str "ws://g"))] initial).
Proof.
  apply (handles_strictly_increase demo_platform
           [Call (Call_rtcCreateWebSocket (str "ws://h"));
            Call (Call_rtcCreatePeerConnection []);
            Call (Call_rtcDelete 1);
            Call (Call_rtcSetPeerConnectionCallback DataChannelSlot 2 77);
            Event (PeerConnection_DataChannel 2 5);
            Call (Call_rtcCreateWebSocket (str "ws://g"))]).
  vm_compute. reflexivity.
Defined.

Example handles_of_a_run :
  handles demo_platform
    [Call (Call_rtcCreateWebSocket (str "ws://h"));
     Call (Call_rtcCreatePeerConnection []);
     Call (Call_rtcDelete 1);
     Call (Call_rtcSetPeerConnectionCallback DataChannelSlot 2 77);
     Event (PeerConnection_DataChannel 2 5);
     Call (Call_rtcCreateWebSocket (str "ws://g"))] initial
  = [1; 2; 3; 4].
Proof. vm_compute. reflexivity. Qed.

(** ** Closed channels along a run *)

Lemma reg_step_absent (w w' : World) (h : Z) :
  reg_step w w' → well_formed w → lastId w < INT_MAX → h <= lastId w →
  (dataChannelMap w !! h = None → dataChannelMap w' !! h = None)
  ∧ (webSocketMap w !! h = None → webSocketMap w' !! h = None).
Proof.
  intros Hs (H0 & _) Hmax Hh. unfold INT_MAX in Hmax.
  assert (En : to_int (lastId w + 1) = lastId w + 1) by (apply to_int_small; lia).
  destruct (reg_step_keys w w' Hs) as [(El & Kp & Kd & Ks) | (El & K)].
  - split; intros Hn; apply eq_None_not_Some; intros H;
      [apply Kd in H | apply Ks in H]; rewrite Hn in H; by destruct H.
  - rewrite El, En in K.
    destruct K as [(K & Ed & Es) | [(K & Ep & Es) | (K & Ep & Ed)]];
      rewrite ?Ed, ?Es; split; try done;
      intros Hn; apply eq_None_not_Some; intros H;
      apply K in H as [-> | H]; try lia; rewrite Hn in H; by destruct H.
Qed.

Lemma run_closed_from (P : Platform) (steps : list Step) (h : Z) (w : World) :
  well_formed w →
  lastId w + Z.of_nat (length steps) <= INT_MAX →
  h <= lastId w →
  (∀ d, dataChannelMap w !! h = Some d → dc_mId d = 0) →
  (∀ s, webSocketMap w !! h = Some s → ws_mId s = 0) →
  (∀ d, dataChannelMap (run P steps w) !! h = Some d → dc_mId d = 0)
  ∧ (∀ s, webSocketMap (run P steps w) !! h = Some s → ws_mId s = 0).
Proof.
  revert w. induction steps as [| s steps IH]; intros w Hwf Hmax Hh Hd Hs.
  - done.
  - cbn [length] in Hmax. rewrite Nat2Z.inj_succ in Hmax.
    pose proof (reg_step_step P s w) as Hstep.
    destruct (well_formed_step w (step P s w) Hstep Hwf ltac:(lia)) as (Hwf' & Hl').
    destruct (reg_step_absent w (step P s w) h Hstep Hwf ltac:(lia) Hh) as (Ad & As).
    change (run P (s :: steps) w) with (run P steps (step P s w)).
    apply IH; [done | lia | lia | |].
    + intros d' Hd'. destruct (dataChannelMap w !! h) as [d |] eqn:E.
      * eapply reg_step_dataChannel_closed; eauto.
      * rewrite Ad in Hd' by done. done.
    + intros s' Hs'. destruct (webSocketMap w !! h) as [s0 |] eqn:E.
      * eapply reg_step_webSocket_closed; eauto.
      * rewrite As in Hs' by done. done.
Qed.

Lemma well_formed_live_bound (w : World) (Hwf : well_formed w) (h : Z) :
  (is_Some (dataChannelMap w !! h) → h <= lastId w)
  ∧ (is_Some (webSocketMap w !! h) → h <= lastId w).
Proof.
  destruct Hwf as (_ & Hl & _). unfold live in Hl.
  split; intros H; (assert (0 < h <= lastId w) by (apply Hl; eauto)); lia.
Qed.

Lemma run_app (P : Platform) (before after : list Step) (w : World) :
  run P (before ++ after) w = run P after (run P before w).
Proof. apply foldl_app. Qed.

Lemma run_closed (P : Platform) (h : Z) (before after : list Step) :
  Z.of_nat (length (before ++ after)) <= INT_MAX →
  (∀ d d', dataChannelMap (run P before initial) !! h = Some d →
           dataChannelMap (run P after (run P before initial)) !! h = Some d' →
           DataChannel_isClosed d = true → DataChannel_isClosed d' = true)
  ∧ (∀ s0 s', webSocketMap (run P before initial) !! h = Some s0 →
              webSocketMap (run P after (run P before initial)) !! h = Some s' →
              WebSocket_isClosed s0 = true → WebSocket_isClosed s' = true).
Proof.
  rewrite length_app, Nat2Z.inj_add. intros Hlen.
  destruct (run_handles P before initial well_formed_initial ltac:(simpl; lia))
    as (Hwf & Hl & _). simpl in Hl.
  unfold DataChannel_isClosed, WebSocket_isClosed.
  split.
  - intros d d' Hd Hd' Hc. apply bool_decide_eq_true. apply bool_decide_eq_true in Hc.
    assert (Hb : h <= lastId (run P before initial))
      by (apply (proj1 (well_formed_live_bound _ Hwf h)); by rewrite Hd).
    destruct (run_closed_from P after h (run P before initial) Hwf ltac:(lia) Hb)
      as [H _]; [intros; congruence | | by apply H].
    intros s Hs. destruct Hwf as (_ & _ & _ & _ & Hds). exfalso.
    apply (Hds h). by rewrite Hd, Hs.
  - intros s0 s' Hs Hs' Hc. apply bool_decide_eq_true. apply bool_decide_eq_true in Hc.
    assert (Hb : h <= lastId (run P before initial))
      by (apply (proj2 (well_formed_live_bound _ Hwf h)); by rewrite Hs).
    destruct (run_closed_from P after h (run P before initial) Hwf ltac:(lia) Hb)
      as [_ H]; [| intros; congruence | by apply H].
    intros d Hd. destruct Hwf as (_ & _ & _ & _ & Hds). exfalso.
    apply (Hds h). by rewrite Hd, Hs.
Qed.

(** C6 (amended): [close] leaves a channel not open and closed, and closed
    is absorbing for [isClosed]: a registered channel that has released its
    transport stays closed through every call of the C API and every event
    of the host, step by step and along every run from the empty registry
    (of at most [INT_MAX] steps), for as long as it is registered.  It is
    not absorbing for [isOpen]: the open confirmation sets the flag without
    looking at the state. *)
Theorem closed_stays_closed (P : Platform) (s : Step) (h : Z) (w : World) :
  (∀ c w0, ∃ w1, close P c w0 = (inr (closed c), w1)
                 ∧ isClosed (closed c) = true ∧ isOpen (closed c) = false)
  ∧ (∀ d d', dataChannelMap w !! h = Some d →
             dataChannelMap (step P s w) !! h = Some d' →
             DataChannel_isClosed d = true → DataChannel_isClosed d' = true)
  ∧ (∀ s0 s', webSocketMap w !! h = Some s0 →
              webSocketMap (step P s w) !! h = Some s' →
              WebSocket_isClosed s0 = true → WebSocket_isClosed s' = true)
  ∧ (∀ before after, Z.of_nat (length (before ++ after)) <= INT_MAX →
       (∀ d d', dataChannelMap (run P before initial) !! h = Some d →
                dataChannelMap (run P after (run P before initial)) !! h = Some d' →
                DataChannel_isClosed d = true → DataChannel_isClosed d' = true)
       ∧ (∀ s0 s', webSocketMap (run P before initial) !! h = Some s0 →
                   webSocketMap (run P after (run P before initial)) !! h = Some s' →
                   WebSocket_isClosed s0 = true → WebSocket_isClosed s' = true))
  ∧ (∀ c w0, ∃ c' w1, OpenCallback c w0 = (inr c', w1) ∧ isOpen c' = true
                      ∧ isClosed c' = isClosed c).
Proof.
  split_and!; [| | | apply run_closed |].
  - intros c w0. rewrite close_spec. eexists. split; [done |]. by destruct c; split.
  - intros d d' Hd Hd' Hc. unfold DataChannel_isClosed in *.
    apply bool_decide_eq_true. apply bool_decide_eq_true in Hc.
    exact (reg_step_dataChannel_closed w (step P s w) h d d' (reg_step_step P s w) Hd Hd' Hc).
  - intros s0 s' Hd Hd' Hc. unfold WebSocket_isClosed in *.
    apply bool_decide_eq_true. apply bool_decide_eq_true in Hc.
    exact (reg_step_webSocket_closed w (step P s w) h s0 s' (reg_step_step P s w) Hd Hd' Hc).
  - intros c w0. destruct c as [d | s0]; simpl;
      unfold DataChannel_OpenCallback, WebSocket_OpenCallback,
        DataChannel_triggerOpen, WebSocket_triggerOpen; mexec; simpl.
    + destruct (trigger_returns P OpenEvent (dc_channel d) w0) as (cl & E).
      simpl in E. rewrite E. by eexists _, _.
    + destruct (trigger_returns P OpenEvent (ws_channel s0) w0) as (cl & E).
      simpl in E. rewrite E. by eexists _, _.
Qed.

(** A web socket is created and closed; the open confirmation arrives late. *)
Lemma closed_is_absorbing_counterexample :
  ¬ closed_is_absorbing demo_platform (Event (WebSocket_Open 1)) 1
      (run demo_platform
         [Call (Call_rtcCreateWebSocket (str "ws://h")); Call (Call_rtcClose 1)] initial).
Proof.
  unfold closed_is_absorbing. intros H.
  specialize (H (AsWebSocket {| ws_channel := Channel_new; ws_mId := 0;
                                ws_mConnected := false |})
                (AsWebSocket {| ws_channel := Channel_new; ws_mId := 0;
                                ws_mConnected := true |})).
  destruct H as [_ H]; [vm_compute; reflexivity .. |].
  discriminate.
Qed.

Lemma closed_stays_closed_witness :
  WebSocket_isClosed {| ws_channel := Channel_new; ws_mId := 0; ws_mConnected := true |}
  = true.
Proof.
  destruct (closed_stays_closed demo_platform (Event (WebSocket_Open 1)) 1
              (run demo_platform
                 [Call (Call_rtcCreateWebSocket (str "ws://h")); Call (Call_rtcClose 1)]
                 initial)) as (_ & _ & H & _).
  apply (H {| ws_channel := Channel_new; ws_mId := 0; ws_mConnected := false |});
    vm_compute; reflexivity.
Defined.

(** ** The scenarios of the specification, run on the concrete host *)

(** A binary message of two bytes reaches the message callback once, with
    its bytes and size 2. *)
Example binary_message_delivered :
  clientLog
    (run demo_platform
       [Call (Call_rtcCreateWebSocket (str "ws://h"));
        Call (Call_rtcSetMessageCallback 1 77);
        Event (WebSocket_Message 1 (Some [x01; x02]) 2)] initial)
  = [call_rtcMessageCallbackFunc 77 1 (Some [x01; x02]) 2 nullptr].
Proof. vm_compute. reflexivity. Qed.

(** The closure signal closes an open channel and calls the Closed callback
    once; the message callback is not called. *)
Example closure_signal_delivered :
  let w := run demo_platform
             [Call (Call_rtcCreateWebSocket (str "ws://h"));
              Call (Call_rtcSetMessageCallback 1 77);
              Call (Call_rtcSetClosedCallback 1 78);
              Event (WebSocket_Open 1);
              Event (WebSocket_Message 1 None 5)] initial in
  clientLog w = [call_rtcClosedCallbackFunc 78 1 nullptr]
  ∧ (rtcIsClosed 1 w).1 = true
  ∧ (rtcIsOpen 1 w).1 = false.
Proof. vm_compute. done. Qed.

(** A peer connection without ICE servers gets handle 1; its local
    description is not available while the host has none. *)
Example peer_connection_without_description :
  let P := {| host_ret := host_ret demo_platform; host_buf := λ _, None;
              empty_vec_data := None; parseIceServer := parseIceServer demo_platform;
              ws_errormsg := ws_errormsg demo_platform;
              description_string := desc_sdp; description_typeString := desc_type;
              candidate_candidate := cand_candidate; candidate_mid := cand_mid;
              clear_order := clear_order demo_platform;
              clear_order_perm := clear_order_perm demo_platform |} in
  (rtcCreatePeerConnection P [] initial).1 = 1
  ∧ (rtcGetLocalDescription P 1 None 0 (rtcCreatePeerConnection P [] initial).2).1
    = (RTC_ERR_NOT_AVAIL, None).
Proof. vm_compute. done. Qed.

(** Created, not yet open: [rtcSendMessage] reaches the host. *)
Example send_before_open :
  hostLog
    (run demo_platform
       [Call (Call_rtcCreateWebSocket (str "ws://h"));
        Call (Call_rtcSendMessage 1 (Some [x01]) 1)] initial)
  = [emscripten_websocket_is_supported;
     emscripten_websocket_new (str "ws://h");
     emscripten_websocket_set_onopen_callback 2;
     emscripten_websocket_set_onerror_callback 2;
     emscripten_websocket_set_onmessage_callback 2;
     emscripten_websocket_send_binary 2 (Some [x01]) 1].
Proof. vm_compute. reflexivity. Qed.

(** After the closure signal [send] on the channel fails, though
    [rtcSendMessage] still answers [RTC_ERR_SUCCESS]: it does not look at the
    result. *)
Example send_after_closure :
  let w := run demo_platform
             [Call (Call_rtcCreateWebSocket (str "ws://h"));
              Event (WebSocket_Message 1 None 0)] initial in
  (send demo_platform (Binary [x01])
     (AsWebSocket {| ws_channel := Channel_new; ws_mId := 0; ws_mConnected := false |})
     w).1 = inr false
  ∧ webSocketMap w !! 1
    = Some {| ws_channel := Channel_new; ws_mId := 0; ws_mConnected := false |}
  ∧ (rtcSendMessage demo_platform 1 (Some [x01]) 1 w).1 = RTC_ERR_SUCCESS.
Proof. vm_compute. done. Qed.

(** The host delivers an empty binary message on a data channel: on this
    host the client is given a null pointer with size 0. *)
Example empty_binary_reaches_client :
  clientLog
    (run demo_platform
       [Call (Call_rtcCreatePeerConnection []);
        Call (Call_rtcCreateDataChannel 1 (str "chat"));
        Call (Call_rtcSetMessageCallback 2 77);
        Event (DataChannel_Message 2 (Some [x61]) 0)] initial)
  = [call_rtcMessageCallbackFunc 77 2 None 0 nullptr].
Proof. vm_compute. reflexivity. Qed.

(** A web socket delivers binaries only: its size is unsigned. *)
Example web_socket_message_is_binary :
  clientLog
    (run demo_platform
       [Call (Call_rtcCreateWebSocket (str "ws://h"));
        Call (Call_rtcSetMessageCallback 1 77);
        Event (WebSocket_Message 1 (Some [x68; x69; x00]) 3)] initial)
  = [call_rtcMessageCallbackFunc 77 1 (Some [x68; x69; x00]) 3 nullptr].
Proof. vm_compute. reflexivity. Qed.

(** A channel is deleted and the client writes a user pointer for the old
    handle: the open confirmation of the host reaches nothing. *)
Example event_after_delete :
  clientLog
    (run demo_platform
       [Call (Call_rtcCreateWebSocket (str "ws://h"));
        Call (Call_rtcSetOpenCallback 1 77);
        Call (Call_rtcDelete 1);
        Call (Call_rtcSetUserPointer 1 99);
        Event (WebSocket_Open 1)] initial)
  = [].
Proof. vm_compute. reflexivity. Qed.

(** On a closed channel [rtcSendMessage] with a null pointer and size 0
    answers [RTC_ERR_SUCCESS] and the host hears nothing. *)
Example null_data_on_closed_channel :
  let w := run demo_platform
             [Call (Call_rtcCreateWebSocket (str "ws://h")); Call (Call_rtcClose 1)]
             initial in
  rtcSendMessage demo_platform 1 None 0 w = (RTC_ERR_SUCCESS, w).
Proof. vm_compute. reflexivity. Qed.
(** * Further properties of the code *)


(** ** Closing through the C API *)

Lemma rtcClose_spec (P : Platform) (h : Z) (c : AnyChannel) (w : World) :
  getChannel h w = (inr c, w) →
  rtcClose P h w
  = (RTC_ERR_SUCCESS,
     (putChannel h (closed c)
        (if decide (transport c = 0) then w
         else set_hostLog (hostLog w ++ [release c]) w)).2).
Proof.
  intros E. unfold rtcClose. mexec. rewrite E, close_spec.
  by destruct c; simpl; unfold putDataChannel, putWebSocket; mexec.
Qed.

Lemma getChannel_put (h : Z) (c : AnyChannel) (w w0 : World) :
  getChannel h w = (inr c, w) →
  dataChannelMap w0 = dataChannelMap w →
  webSocketMap w0 = webSocketMap w →
  getChannel h (putChannel h (closed c) w0).2
  = (inr (closed c), (putChannel h (closed c) w0).2).
Proof.
  intros E Ed Es. apply getChannel_Some in E as [_ E].
  destruct c as [d | s]; simpl; unfold getChannel, putDataChannel, putWebSocket; mexec;
    world_cbn.
  - by rewrite lookup_insert_eq.
  - destruct E as [E1 E2]. rewrite Ed, E1. world_cbn. by rewrite lookup_insert_eq.
Qed.


(** X1: [rtcClose] on a registered channel answers [RTC_ERR_SUCCESS], leaves
    the channel registered and closed, releases the transport at the host
    exactly when it was held, and calls no client callback.  A second
    [rtcClose] changes nothing at all: the transport is released once. *)
Theorem rtcClose_idempotent (P : Platform) (h : Z) (c : AnyChannel) (w : World) :
  getChannel h w = (inr c, w) →
  (rtcClose P h w).1 = RTC_ERR_SUCCESS
  ∧ getChannel h (rtcClose P h w).2 = (inr (closed c), (rtcClose P h w).2)
  ∧ hostLog (rtcClose P h w).2
    = hostLog w ++ (if decide (transport c = 0) then [] else [release c])
  ∧ clientLog (rtcClose P h w).2 = clientLog w
  ∧ rtcClose P h (rtcClose P h w).2 = (RTC_ERR_SUCCESS, (rtcClose P h w).2).
Proof.
  intros E. rewrite (rtcClose_spec P h c w E). cbn [fst snd].
  set (w0 := if decide (transport c = 0) then w else _).
  assert (Ed : dataChannelMap w0 = dataChannelMap w) by (subst w0; by case_decide).
  assert (Es : webSocketMap w0 = webSocketMap w) by (subst w0; by case_decide).
  pose proof (getChannel_put h c w w0 E Ed Es) as E1.
  split_and!; [done | done | | |].
  - subst w0. destruct c; cbn [transport closed release putChannel];
      unfold putDataChannel, putWebSocket; mexec; world_cbn;
      repeat case_decide; world_cbn; by rewrite ?app_nil_r.
  - subst w0. destruct c; cbn [transport closed release putChannel];
      unfold putDataChannel, putWebSocket; mexec; world_cbn;
      by repeat case_decide.
  - rewrite (rtcClose_spec P h (closed c) _ E1). f_equal.
    assert (Et : transport (closed c) = 0) by (by destruct c).
    rewrite decide_True by done.
    destruct c as [d | s]; simpl; unfold putDataChannel, putWebSocket; mexec; simpl;
      by rewrite insert_insert_eq.
Qed.

Lemma rtcClose_idempotent_witness :
  rtcClose demo_platform 1
    (rtcClose demo_platform 1
       (rtcCreateWebSocket demo_platform (str "ws://h") initial).2).2
  = (RTC_ERR_SUCCESS,
     (rtcClose demo_platform 1
        (rtcCreateWebSocket demo_platform (str "ws://h") initial).2).2).
Proof.
  apply (rtcClose_idempotent demo_platform 1
           (AsWebSocket {| ws_channel := Channel_new; ws_mId := 2; ws_mConnected := false |})
           (rtcCreateWebSocket demo_platform (str "ws://h") initial).2).
  vm_compute. reflexivity.
Defined.


(** ** Sending and the buffered amount through the C API *)

Lemma to_int_to_size_t (z : Z) : to_int (to_size_t z) = to_int z.
Proof.
  unfold to_int, to_size_t. by rewrite Zplus_mod_idemp_l.
Qed.

(** X2: with arguments that pass its null check, [rtcSendMessage] on a
    registered channel answers [RTC_ERR_SUCCESS] whatever [send] answers: a
    negative size sends the bytes up to the first NUL as text, whatever the
    magnitude, and a size of at least 0 sends that many bytes as binary.  On a
    channel without transport nothing happens and the answer is still
    [RTC_ERR_SUCCESS]. *)
Theorem rtcSendMessage_ignores_send (P : Platform) (h : Z) (c : AnyChannel) (w : World)
    (data : char_ptr) (sz : Z) :
  getChannel h w = (inr c, w) →
  ¬ (data = None ∧ sz ≠ 0) →
  rtcSendMessage P h data sz w
  = (RTC_ERR_SUCCESS,
     (send P (if 0 <=? sz then Binary (binary_of (default [] data) sz)
              else Text (string_of (default [] data))) c w).2)
  ∧ (transport c = 0 → rtcSendMessage P h data sz w = (RTC_ERR_SUCCESS, w)).
Proof.
  intros E Hok.
  assert (Eb : bool_decide (data = None) && negb (sz =? 0) = false).
  { destruct data; [done |]. simpl. destruct (sz =? 0) eqn:E0; [done |].
    apply Z.eqb_neq in E0. tauto. }
  assert (Es : rtcSendMessage P h data sz w
               = (RTC_ERR_SUCCESS,
                  (send P (if 0 <=? sz then Binary (binary_of (default [] data) sz)
                           else Text (string_of (default [] data))) c w).2)).
  { unfold rtcSendMessage. mexec. rewrite E, Eb.
    destruct (0 <=? sz); rewrite send_spec; by case_decide. }
  split; [done |]. intros Ht. rewrite Es, send_spec. by rewrite decide_True.
Qed.

Lemma rtcSendMessage_ignores_send_witness :
  rtcSendMessage demo_platform 1 (Some [x01]) 1
    (rtcClose demo_platform 1
       (rtcCreateWebSocket demo_platform (str "ws://h") initial).2).2
  = (RTC_ERR_SUCCESS,
     (rtcClose demo_platform 1
        (rtcCreateWebSocket demo_platform (str "ws://h") initial).2).2).
Proof.
  destruct (rtcSendMessage_ignores_send demo_platform 1
              (AsWebSocket {| ws_channel := Channel_new; ws_mId := 0;
                              ws_mConnected := false |})
              (rtcClose demo_platform 1
                 (rtcCreateWebSocket demo_platform (str "ws://h") initial).2).2
              (Some [x01]) 1) as [_ H].
  - vm_compute. reflexivity.
  - intros [? _]. discriminate.
  - apply H. reflexivity.
Defined.

Lemma getDataChannel_getChannel (h : Z) (d : DataChannel) (w : World) :
  dataChannelMap w !! h = Some d → getChannel h w = (inr (AsDataChannel d), w).
Proof. intros E. unfold getChannel. mexec. by rewrite E. Qed.

(** X3: [rtcGetBufferedAmount] on a registered data channel: without
    transport it answers 0 and asks the host nothing; otherwise it asks the
    host once, answers 0 when the host's answer is negative and the host's
    answer itself when that is within [int]. *)
Theorem rtcGetBufferedAmount_data_channel (P : Platform) (h : Z) (d : DataChannel)
    (w : World) :
  dataChannelMap w !! h = Some d →
  (dc_mId d = 0 → rtcGetBufferedAmount P h w = (0, w))
  ∧ (dc_mId d ≠ 0 →
     (rtcGetBufferedAmount P h w).2
     = set_hostLog (hostLog w ++ [js_rtcGetBufferedAmount (dc_mId d)]) w
     ∧ (host_ret P (hostLog w ++ [js_rtcGetBufferedAmount (dc_mId d)]) < 0 →
        (rtcGetBufferedAmount P h w).1 = 0)
     ∧ (0 <= host_ret P (hostLog w ++ [js_rtcGetBufferedAmount (dc_mId d)]) <= INT_MAX →
        (rtcGetBufferedAmount P h w).1
        = host_ret P (hostLog w ++ [js_rtcGetBufferedAmount (dc_mId d)]))).
Proof.
  intros E. apply getDataChannel_getChannel in E.
  unfold rtcGetBufferedAmount. mexec. rewrite E. simpl.
  unfold DataChannel_bufferedAmount. mexec. split.
  - intros E0. by rewrite decide_True.
  - intros E0. rewrite decide_False by done.
    set (r := host_ret P _).
    destruct (r <? 0) eqn:Er; simpl.
    + apply Z.ltb_lt in Er. split_and!; [done | done | lia].
    + apply Z.ltb_ge in Er. split_and!; [done | lia |].
      intros [_ Hr]. unfold INT_MAX in Hr.
      rewrite to_int_idemp, to_int_to_size_t. apply to_int_small. lia.
Qed.

Lemma rtcGetBufferedAmount_data_channel_witness :
  rtcGetBufferedAmount demo_platform 3
    (set_dataChannelMap
       {[ 3 := {| dc_channel := Channel_new; dc_mId := 0; dc_mConnected := false;
                  mLabel := [] |} ]} initial)
  = (0, set_dataChannelMap
          {[ 3 := {| dc_channel := Channel_new; dc_mId := 0; dc_mConnected := false;
                     mLabel := [] |} ]} initial).
Proof.
  destruct (rtcGetBufferedAmount_data_channel demo_platform 3
              {| dc_channel := Channel_new; dc_mId := 0; dc_mConnected := false;
                 mLabel := [] |}
              (set_dataChannelMap
                 {[ 3 := {| dc_channel := Channel_new; dc_mId := 0;
                            dc_mConnected := false; mLabel := [] |} ]} initial))
    as [H _]; [reflexivity |].
  apply H. reflexivity.
Defined.

(** X4: [rtcSetBufferedAmountLowThreshold] on a registered data channel
    answers [RTC_ERR_SUCCESS]; the threshold reaches the host as it was given,
    also when it is negative (the conversion to [size_t] and back is the
    identity on [int]), and a channel without transport asks the host
    nothing. *)
Theorem rtcSetBufferedAmountLowThreshold_data_channel (P : Platform) (h : Z)
    (d : DataChannel) (amount : Z) (w : World) :
  dataChannelMap w !! h = Some d →
  - 2 ^ 31 <= amount <= INT_MAX →
  rtcSetBufferedAmountLowThreshold P h amount w
  = (RTC_ERR_SUCCESS,
     if decide (dc_mId d = 0) then w
     else set_hostLog
            (hostLog w ++ [js_rtcSetBufferedAmountLowThreshold (dc_mId d) amount]) w).
Proof.
  intros E Ha. apply getDataChannel_getChannel in E. unfold INT_MAX in Ha.
  unfold rtcSetBufferedAmountLowThreshold. mexec. rewrite E. simpl.
  unfold DataChannel_setBufferedAmountLowThreshold. mexec.
  case_decide; [done |]. simpl.
  by rewrite to_int_to_size_t, (to_int_small amount) by lia.
Qed.

Lemma rtcSetBufferedAmountLowThreshold_data_channel_witness :
  rtcSetBufferedAmountLowThreshold demo_platform 3 (-5)
    (set_dataChannelMap
       {[ 3 := {| dc_channel := Channel_new; dc_mId := 9; dc_mConnected := false;
                  mLabel := [] |} ]} initial)
  = (RTC_ERR_SUCCESS,
     set_hostLog [js_rtcSetBufferedAmountLowThreshold 9 (-5)]
       (set_dataChannelMap
          {[ 3 := {| dc_channel := Channel_new; dc_mId := 9; dc_mConnected := false;
                     mLabel := [] |} ]} initial)).
Proof.
  apply (rtcSetBufferedAmountLowThreshold_data_channel demo_platform 3
           {| dc_channel := Channel_new; dc_mId := 9; dc_mConnected := false;
              mLabel := [] |} (-5)).
  - reflexivity.
  - vm_compute. split; discriminate.
Defined.


(** ** Queries with an output buffer *)

Lemma to_int_copyAndReturn (s : std_string) (buffer : char_ptr) (sz : Z) :
  to_int (copyAndReturn s buffer sz).1 = (copyAndReturn s buffer sz).1.
Proof.
  unfold copyAndReturn. destruct buffer as [mem |]; simpl.
  - destruct (sz <? _); simpl; [done | apply to_int_idemp].
  - apply to_int_idemp.
Qed.

(** X5: the label of a registered data channel is read without asking the
    host (it was fetched when the channel was constructed) and follows the
    ask-and-fetch protocol: the null-buffer query answers the length plus
    one, a fetch with that capacity answers the same and stores the label
    with its terminator, and any smaller capacity answers
    [RTC_ERR_TOO_SMALL] and leaves the buffer alone.  (The label fits
    [int].) *)
Theorem rtcGetDataChannelLabel_ask_fetch (h : Z) (d : DataChannel) (mem : list byte)
    (w : World) :
  dataChannelMap w !! h = Some d →
  size (mLabel d) + 1 <= INT_MAX →
  rtcGetDataChannelLabel h None 0 w = ((size (mLabel d) + 1, None), w)
  ∧ rtcGetDataChannelLabel h (Some mem) (size (mLabel d) + 1) w
    = ((size (mLabel d) + 1,
        Some (mLabel d ++ x00 :: drop (S (length (mLabel d))) mem)), w)
  ∧ (∀ sz, sz < size (mLabel d) + 1 →
           rtcGetDataChannelLabel h (Some mem) sz w = ((RTC_ERR_TOO_SMALL, Some mem), w)).
Proof.
  intros E Hfit. pose proof (size_nonneg (mLabel d)). unfold INT_MAX in Hfit.
  assert (En : to_int (size (mLabel d) + 1) = size (mLabel d) + 1)
    by (apply to_int_small; lia).
  unfold rtcGetDataChannelLabel, getDataChannel, DataChannel_label, copyAndReturn.
  mexec. rewrite E. simpl. rewrite !En. split_and!.
  - done.
  - rewrite Z.ltb_irrefl. simpl. by rewrite ?En.
  - intros sz Hsz. apply Z.ltb_lt in Hsz. by rewrite Hsz.
Qed.

Lemma rtcGetDataChannelLabel_ask_fetch_witness :
  rtcGetDataChannelLabel 3 None 0
    (set_dataChannelMap
       {[ 3 := {| dc_channel := Channel_new; dc_mId := 9; dc_mConnected := false;
                  mLabel := str "chat" |} ]} initial)
  = ((5, None),
     set_dataChannelMap
       {[ 3 := {| dc_channel := Channel_new; dc_mId := 9; dc_mConnected := false;
                  mLabel := str "chat" |} ]} initial).
Proof.
  apply (rtcGetDataChannelLabel_ask_fetch 3
           {| dc_channel := Channel_new; dc_mId := 9; dc_mConnected := false;
              mLabel := str "chat" |} []).
  - reflexivity.
  - vm_compute. discriminate.
Defined.

(** X6: [rtcGetLocalDescription] and [rtcGetLocalDescriptionType] on a
    registered peer connection ask the host for the description and for its
    type, both every time.  When either is missing the answer is
    [RTC_ERR_NOT_AVAIL] and the buffer is untouched; otherwise the answer is
    that of [copyAndReturn] on the description, respectively its type. *)
Theorem rtcGetLocalDescription_available (P : Platform) (h : Z) (p : PeerConnection)
    (buffer : char_ptr) (sz : Z) (w : World) :
  peerConnectionMap w !! h = Some p →
  let l1 := hostLog w ++ [js_rtcGetLocalDescription (pc_mId p)] in
  let l2 := l1 ++ [js_rtcGetLocalDescriptionType (pc_mId p)] in
  (rtcGetLocalDescription P h buffer sz w).2 = set_hostLog l2 w
  ∧ (rtcGetLocalDescriptionType P h buffer sz w).2 = set_hostLog l2 w
  ∧ (host_buf P l1 = None ∨ host_buf P l2 = None →
     (rtcGetLocalDescription P h buffer sz w).1 = (RTC_ERR_NOT_AVAIL, buffer)
     ∧ (rtcGetLocalDescriptionType P h buffer sz w).1 = (RTC_ERR_NOT_AVAIL, buffer))
  ∧ (∀ s t, host_buf P l1 = Some s → host_buf P l2 = Some t →
            let desc := {| desc_sdp := string_of s; desc_type := string_of t |} in
            (rtcGetLocalDescription P h buffer sz w).1
            = copyAndReturn (description_string P desc) buffer sz
            ∧ (rtcGetLocalDescriptionType P h buffer sz w).1
              = copyAndReturn (description_typeString P desc) buffer sz).
Proof.
  intros E l1 l2.
  unfold rtcGetLocalDescription, rtcGetLocalDescriptionType, getPeerConnection,
    PeerConnection_localDescription. mexec. rewrite E. simpl. fold l1. fold l2.
  unfold description_of. split_and!.
  - destruct (host_buf P l1), (host_buf P l2); simpl; try done;
      by destruct (copyAndReturn _ _ _).
  - destruct (host_buf P l1), (host_buf P l2); simpl; try done;
      by destruct (copyAndReturn _ _ _).
  - intros [E1 | E2].
    + by rewrite E1.
    + rewrite E2. by destruct (host_buf P l1).
  - intros s t E1 E2. rewrite E1, E2. simpl. split.
    + pose proof (to_int_copyAndReturn
                    (description_string P
                       {| desc_sdp := string_of s; desc_type := string_of t |})
                    buffer sz) as Hr.
      destruct (copyAndReturn _ _ _) as [r o]. simpl in *. by rewrite Hr.
    + pose proof (to_int_copyAndReturn
                    (description_typeString P
                       {| desc_sdp := string_of s; desc_type := string_of t |})
                    buffer sz) as Hr.
      destruct (copyAndReturn _ _ _) as [r o]. simpl in *. by rewrite Hr.
Qed.

Lemma rtcGetLocalDescription_available_witness :
  (rtcGetLocalDescription demo_platform 1 None 0
     (rtcCreatePeerConnection demo_platform [] initial).2).1
  = copyAndReturn (str "chat") None 0.
Proof.
  destruct (rtcGetLocalDescription_available demo_platform 1
              {| pc_mId := 1; mState := 0; mIceState := 0; mGatheringState := 0;
                 mSignalingState := 0; mDataChannelCallback := None;
                 mLocalDescriptionCallback := None; mLocalCandidateCallback := None;
                 mStateChangeCallback := None; mIceStateChangeCallback := None;
                 mGatheringStateChangeCallback := None;
                 mSignalingStateChangeCallback := None |}
              None 0 (rtcCreatePeerConnection demo_platform [] initial).2)
    as (_ & _ & _ & H); [vm_compute; reflexivity |].
  destruct (H (c_str (str "chat")) (c_str (str "chat"))) as [H1 _];
    [vm_compute; reflexivity | vm_compute; reflexivity |].
  rewrite H1. vm_compute. reflexivity.
Defined.


(** ** Reliability and null arguments *)

(** X7: [rtcGetDataChannelReliability] on a registered data channel
    overwrites what is behind the pointer.  Without transport it reports a
    reliable, ordered channel and asks the host nothing.  Otherwise it asks
    the host three times (unordered, retransmits, lifetime); the channel is
    reported unreliable exactly when one of the two limits is not negative,
    and when the host reports both, the lifetime is reported and the
    retransmits are reported as 0. *)
Theorem rtcGetDataChannelReliability_report (P : Platform) (h : Z) (d : DataChannel)
    (out : rtcReliability) (w : World) :
  dataChannelMap w !! h = Some d →
  let l1 := hostLog w ++ [js_rtcGetDataChannelUnordered (dc_mId d)] in
  let l2 := l1 ++ [js_rtcGetDataChannelMaxRetransmits (dc_mId d)] in
  let l3 := l2 ++ [js_rtcGetDataChannelMaxPacketLifeTime (dc_mId d)] in
  (dc_mId d = 0 →
   rtcGetDataChannelReliability P h (Some out) w
   = ((RTC_ERR_SUCCESS,
       Some {| rel_unordered := false; rel_unreliable := false;
               rel_maxPacketLifeTime := 0; rel_maxRetransmits := 0 |}), w))
  ∧ (dc_mId d ≠ 0 →
     ∃ res, rtcGetDataChannelReliability P h (Some out) w
            = ((RTC_ERR_SUCCESS, Some res), set_hostLog l3 w)
            ∧ rel_unordered res = negb (host_ret P l1 =? 0)
            ∧ rel_unreliable res = (0 <=? host_ret P l3) || (0 <=? host_ret P l2)
            ∧ rel_maxPacketLifeTime res
              = (if 0 <=? host_ret P l3 then to_size_t (host_ret P l3) else 0)
            ∧ rel_maxRetransmits res
              = (if 0 <=? host_ret P l3 then 0
                 else if 0 <=? host_ret P l2 then to_size_t (host_ret P l2) else 0)).
Proof.
  intros E l1 l2 l3.
  unfold rtcGetDataChannelReliability, getDataChannel, DataChannel_reliability.
  mexec. rewrite E. simpl. split.
  - intros E0. by rewrite decide_True.
  - intros E0. rewrite decide_False by done. simpl. fold l1. fold l2. fold l3.
    eexists. split; [reflexivity |].
    by destruct (0 <=? host_ret P l3), (0 <=? host_ret P l2).
Qed.

Lemma rtcGetDataChannelReliability_report_witness :
  rtcGetDataChannelReliability demo_platform 3
    (Some {| rel_unordered := true; rel_unreliable := true;
             rel_maxPacketLifeTime := 7; rel_maxRetransmits := 7 |})
    (set_dataChannelMap
       {[ 3 := {| dc_channel := Channel_new; dc_mId := 0; dc_mConnected := false;
                  mLabel := [] |} ]} initial)
  = ((RTC_ERR_SUCCESS,
      Some {| rel_unordered := false; rel_unreliable := false;
              rel_maxPacketLifeTime := 0; rel_maxRetransmits := 0 |}),
     set_dataChannelMap
       {[ 3 := {| dc_channel := Channel_new; dc_mId := 0; dc_mConnected := false;
                  mLabel := [] |} ]} initial).
Proof.
  destruct (rtcGetDataChannelReliability_report demo_platform 3
              {| dc_channel := Channel_new; dc_mId := 0; dc_mConnected := false;
                 mLabel := [] |}
              {| rel_unordered := true; rel_unreliable := true;
                 rel_maxPacketLifeTime := 7; rel_maxRetransmits := 7 |}
              (set_dataChannelMap
                 {[ 3 := {| dc_channel := Channel_new; dc_mId := 0;
                            dc_mConnected := false; mLabel := [] |} ]} initial))
    as [H _]; [reflexivity |].
  apply H. reflexivity.
Defined.

(** X8: the null-pointer checks come after the lookup and before anything
    else: on a registered resource a null description, a null candidate, a
    null reliability pointer, and null data with a size other than 0 are
    answered with -1 and nothing is changed, not even the host is called.  A
    null type or a null mid is accepted and passed on as the empty string. *)
Theorem null_arguments (P : Platform) (h : Z) (w : World) :
  (∀ p type mid, peerConnectionMap w !! h = Some p →
     rtcSetRemoteDescription P h None type w = (RTC_ERR_INVALID, w)
     ∧ rtcAddRemoteCandidate P h None mid w = (RTC_ERR_INVALID, w))
  ∧ (∀ p s c, peerConnectionMap w !! h = Some p →
       rtcSetRemoteDescription P h (Some s) None w
       = (RTC_ERR_SUCCESS,
          set_hostLog
            (hostLog w ++
               [js_rtcSetRemoteDescription (pc_mId p)
                  (c_str (description_string P
                            {| desc_sdp := string_of s; desc_type := [] |}))
                  (c_str (description_typeString P
                            {| desc_sdp := string_of s; desc_type := [] |}))]) w)
       ∧ rtcAddRemoteCandidate P h (Some c) None w
         = (RTC_ERR_SUCCESS,
            set_hostLog
              (hostLog w ++
                 [js_rtcAddRemoteCandidate (pc_mId p)
                    (c_str (candidate_candidate P
                              {| cand_candidate := string_of c; cand_mid := [] |}))
                    (c_str (candidate_mid P
                              {| cand_candidate := string_of c; cand_mid := [] |}))]) w))
  ∧ (∀ d, dataChannelMap w !! h = Some d →
          rtcGetDataChannelReliability P h None w = ((RTC_ERR_INVALID, None), w))
  ∧ (∀ c sz, getChannel h w = (inr c, w) → sz ≠ 0 →
             rtcSendMessage P h None sz w = (RTC_ERR_INVALID, w)).
Proof.
  split_and!.
  - intros p type mid E.
    unfold rtcSetRemoteDescription, rtcAddRemoteCandidate, getPeerConnection. mexec.
    by rewrite E.
  - intros p s c E.
    unfold rtcSetRemoteDescription, rtcAddRemoteCandidate, getPeerConnection,
      PeerConnection_setRemoteDescription, PeerConnection_addRemoteCandidate. mexec.
    by rewrite E.
  - intros d E. unfold rtcGetDataChannelReliability, getDataChannel. mexec.
    by rewrite E.
  - intros c sz E Hsz. unfold rtcSendMessage. mexec. rewrite E.
    apply Z.eqb_neq in Hsz. by rewrite Hsz.
Qed.

Lemma null_arguments_witness :
  rtcSetRemoteDescription demo_platform 1 None None
    (rtcCreatePeerConnection demo_platform [] initial).2
  = (RTC_ERR_INVALID, (rtcCreatePeerConnection demo_platform [] initial).2).
Proof.
  destruct (null_arguments demo_platform 1
              (rtcCreatePeerConnection demo_platform [] initial).2) as (H & _).
  destruct (H {| pc_mId := 1; mState := 0; mIceState := 0; mGatheringState := 0;
                 mSignalingState := 0; mDataChannelCallback := None;
                 mLocalDescriptionCallback := None; mLocalCandidateCallback := None;
                 mStateChangeCallback := None; mIceStateChangeCallback := None;
                 mGatheringStateChangeCallback := None;
                 mSignalingStateChangeCallback := None |} None None) as [H1 _];
    [vm_compute; reflexivity |].
  exact H1.
Defined.

(** X9: [PeerConnection::createDataChannel] refuses a reliability with both
    limits set before it asks the host anything; otherwise its first call to
    the host is [js_rtcCreateDataChannel], with -1 for a limit that is not
    set, and the channel it constructs has the host's answer as transport,
    is not open and has no callback. *)
Theorem createDataChannel_limits (P : Platform) (label : std_string) (r : Reliability)
    (p : PeerConnection) (w : World) :
  (is_Some (maxPacketLifeTime r) → is_Some (maxRetransmits r) →
   PeerConnection_createDataChannel P label r p w = (inl invalid_argument, w))
  ∧ (maxPacketLifeTime r = None ∨ maxRetransmits r = None →
     let create := js_rtcCreateDataChannel (pc_mId p) (c_str label) (unordered r)
                     (from_option to_int (-1) (maxRetransmits r))
                     (from_option to_int (-1) (maxPacketLifeTime r)) in
     ∃ d w', PeerConnection_createDataChannel P label r p w = (inr d, w')
             ∧ dc_mId d = host_ret P (hostLog w ++ [create])
             ∧ dc_mConnected d = false
             ∧ dc_channel d = Channel_new
             ∧ take (S (length (hostLog w))) (hostLog w') = hostLog w ++ [create]
             ∧ same_registry w w' ∧ clientLog w' = clientLog w).
Proof.
  unfold PeerConnection_createDataChannel. split.
  - intros [l El] [n En]. by rewrite El, En.
  - intros Hnone. simpl.
    assert (E : PeerConnection_createDataChannel P label r p w
                = DataChannel_new P
                    (host_ret P (hostLog w ++
                       [js_rtcCreateDataChannel (pc_mId p) (c_str label) (unordered r)
                          (from_option to_int (-1) (maxRetransmits r))
                          (from_option to_int (-1) (maxPacketLifeTime r))]))
                    (set_hostLog
                       (hostLog w ++
                          [js_rtcCreateDataChannel (pc_mId p) (c_str label) (unordered r)
                             (from_option to_int (-1) (maxRetransmits r))
                             (from_option to_int (-1) (maxPacketLifeTime r))]) w)).
    { unfold PeerConnection_createDataChannel.
      destruct (maxPacketLifeTime r), (maxRetransmits r), Hnone; try done. }
    unfold PeerConnection_createDataChannel in E. rewrite E.
    unfold DataChannel_new. mexec. simpl.
    eexists _, _. split; [reflexivity |]. simpl. split_and!; try done.
    rewrite <- !app_assoc. rewrite (app_assoc (hostLog w)).
    apply take_app_length'. rewrite length_app. simpl. lia.
Qed.

Lemma createDataChannel_limits_witness :
  PeerConnection_createDataChannel demo_platform (str "x")
    {| unordered := false; maxPacketLifeTime := Some 10; maxRetransmits := Some 3 |}
    {| pc_mId := 1; mState := 0; mIceState := 0; mGatheringState := 0;
       mSignalingState := 0; mDataChannelCallback := None;
       mLocalDescriptionCallback := None; mLocalCandidateCallback := None;
       mStateChangeCallback := None; mIceStateChangeCallback := None;
       mGatheringStateChangeCallback := None; mSignalingStateChangeCallback := None |}
    initial
  = (inl invalid_argument, initial).
Proof.
  apply (createDataChannel_limits demo_platform (str "x")
           {| unordered := false; maxPacketLifeTime := Some 10;
              maxRetransmits := Some 3 |}); by eexists.
Defined.


(** ** Handles of another kind, and deleting *)

(** X10: every exported function looks the handle up in the maps of its own
    kind only, so a handle of another kind is as good as none: a channel
    function on the handle of a peer connection, a peer-connection function
    on the handle of a channel, [rtcDeleteDataChannel] on a web socket and
    [rtcDeleteWebSocket] on a data channel answer -1 (the two queries false)
    and change nothing. *)
Theorem foreign_handle (P : Platform) (c : AbiCall) (h : Z) (w : World) :
  handle_of c = Some h →
  lookup_fails c h w →
  abi P c w
  = (not_live_answer c w,
     match c with
     | Call_rtcSetUserPointer i ptr => set_userPointerMap (<[i := ptr]> (userPointerMap w)) w
     | _ => w
     end).
Proof.
  intros Hh Hl.
  destruct c; simpl in Hh, Hl; simplify_eq;
    repeat match goal with H : _ ∧ _ |- _ => destruct H end;
    simpl; unfold ret_with; unfold_abi;
    unfold getPeerConnection, getDataChannel, getWebSocket, getChannel; mexec;
    repeat match goal with H : _ !! _ = None |- _ => rewrite H; clear H end;
    reflexivity.
Qed.

Lemma foreign_handle_witness :
  abi demo_platform (Call_rtcDeleteDataChannel 1)
    (rtcCreateWebSocket demo_platform (str "ws://h") initial).2
  = (RetInt RTC_ERR_INVALID, (rtcCreateWebSocket demo_platform (str "ws://h") initial).2).
Proof.
  apply (foreign_handle demo_platform (Call_rtcDeleteDataChannel 1) 1); reflexivity.
Defined.

(** X11: [rtcDelete] on a registered channel answers [RTC_ERR_SUCCESS].  It
    releases the transport at the host exactly when it was held, calls no
    client callback, removes the channel and the user pointer of the handle
    and nothing else: the counter, the peer connections and every other
    entry stay.  In a registry where no two kinds share a handle the handle
    is then not live, and deleting it again answers -1 and changes
    nothing. *)
Theorem rtcDelete_erases (P : Platform) (h : Z) (c : AnyChannel) (w : World) :
  getChannel h w = (inr c, w) →
  (rtcDelete P h w).1 = RTC_ERR_SUCCESS
  ∧ hostLog (rtcDelete P h w).2
    = hostLog w ++ (if decide (transport c = 0) then [] else [release c])
  ∧ clientLog (rtcDelete P h w).2 = clientLog w
  ∧ lastId (rtcDelete P h w).2 = lastId w
  ∧ peerConnectionMap (rtcDelete P h w).2 = peerConnectionMap w
  ∧ userPointerMap (rtcDelete P h w).2 = delete h (userPointerMap w)
  ∧ match c with
    | AsDataChannel _ =>
        dataChannelMap (rtcDelete P h w).2 = delete h (dataChannelMap w)
        ∧ webSocketMap (rtcDelete P h w).2 = webSocketMap w
    | AsWebSocket _ =>
        webSocketMap (rtcDelete P h w).2 = delete h (webSocketMap w)
        ∧ dataChannelMap (rtcDelete P h w).2 = dataChannelMap w
    end
  ∧ (well_formed w →
     ¬ live h (rtcDelete P h w).2
     ∧ rtcDelete P h (rtcDelete P h w).2 = (RTC_ERR_INVALID, (rtcDelete P h w).2)).
Proof.
  intros E. pose proof (getChannel_Some h w w c E) as [_ Hc].
  assert (Es : ∃ w', rtcDelete P h w = (RTC_ERR_SUCCESS, w')
                     ∧ hostLog w' = hostLog w
                                    ++ (if decide (transport c = 0) then []
                                        else [release c])
                     ∧ clientLog w' = clientLog w ∧ lastId w' = lastId w
                     ∧ peerConnectionMap w' = peerConnectionMap w
                     ∧ userPointerMap w' = delete h (userPointerMap w)
                     ∧ match c with
                       | AsDataChannel _ =>
                           dataChannelMap w' = delete h (dataChannelMap w)
                           ∧ webSocketMap w' = webSocketMap w
                       | AsWebSocket _ =>
                           webSocketMap w' = delete h (webSocketMap w)
                           ∧ dataChannelMap w' = dataChannelMap w
                       end).
  { unfold rtcDelete. mexec. rewrite E, close_spec.
    destruct c as [d | s]; cbn [putChannel closed transport release];
      unfold putDataChannel, putWebSocket, eraseChannel; mexec; world_cbn.
    - rewrite lookup_insert_eq. mexec. eexists. split; [reflexivity |].
      case_decide; world_cbn; rewrite ?app_nil_r, delete_insert_eq; done.
    - destruct Hc as [Hd Hs].
      destruct (decide (ws_mId s = 0)); world_cbn; rewrite Hd; world_cbn;
        rewrite lookup_insert_eq; mexec; eexists; (split; [reflexivity |]);
        world_cbn; rewrite ?app_nil_r, delete_insert_eq; done. }
  destruct Es as (w' & Ew & Hh & Hcl & Hl & Hp & Hu & Hm). rewrite Ew. cbn [fst snd].
  split_and!; try done.
  intros (_ & _ & Hpd & Hps & Hds).
  assert (Hp' : peerConnectionMap w' !! h = None).
  { rewrite Hp. apply eq_None_not_Some. intros Hx.
    destruct c; [apply (Hpd h) | apply (Hps h) ; destruct Hc as [_ Hc]];
      (split; [done | by rewrite Hc]). }
  assert (Hd' : dataChannelMap w' !! h = None).
  { destruct c; destruct Hm as [Hm1 Hm2].
    - rewrite Hm1. apply lookup_delete_eq.
    - rewrite Hm2. by destruct Hc. }
  assert (Hs' : webSocketMap w' !! h = None).
  { destruct c; destruct Hm as [Hm1 Hm2].
    - rewrite Hm2. apply eq_None_not_Some. intros Hx. apply (Hds h).
      split; [by rewrite Hc | done].
    - rewrite Hm1. apply lookup_delete_eq. }
  split.
  - unfold live. rewrite Hp', Hd', Hs'. intros [[? ?] | [[? ?] | [? ?]]]; done.
  - unfold rtcDelete. mexec. by rewrite (getChannel_None h w' Hd' Hs').
Qed.

Lemma rtcDelete_erases_witness :
  rtcDelete demo_platform 1
    (rtcDelete demo_platform 1
       (rtcCreateWebSocket demo_platform (str "ws://h") initial).2).2
  = (RTC_ERR_INVALID,
     (rtcDelete demo_platform 1
        (rtcCreateWebSocket demo_platform (str "ws://h") initial).2).2).
Proof.
  destruct (rtcDelete_erases demo_platform 1
              (AsWebSocket {| ws_channel := Channel_new; ws_mId := 2;
                              ws_mConnected := false |})
              (rtcCreateWebSocket demo_platform (str "ws://h") initial).2)
    as (_ & _ & _ & _ & _ & _ & _ & H); [vm_compute; reflexivity |].
  apply H.
  refine (proj1 (run_handles demo_platform
                   [Call (Call_rtcCreateWebSocket (str "ws://h"))] initial
                   well_formed_initial _)).
  vm_compute. discriminate.
Defined.

(** X12: [rtcClosePeerConnection] on a registered peer connection answers
    [RTC_ERR_SUCCESS] and does nothing at all (the close of a peer connection
    has an empty body).  [rtcDeletePeerConnection] removes the peer
    connection and its user pointer, deletes it at the host with one call,
    and leaves the data channels registered: deleting is not cascaded. *)
Theorem peer_connection_close_delete (P : Platform) (h : Z) (p : PeerConnection)
    (w : World) :
  peerConnectionMap w !! h = Some p →
  rtcClosePeerConnection h w = (RTC_ERR_SUCCESS, w)
  ∧ rtcDeletePeerConnection P h w
    = (RTC_ERR_SUCCESS,
       {| peerConnectionMap := delete h (peerConnectionMap w);
          dataChannelMap := dataChannelMap w;
          webSocketMap := webSocketMap w;
          userPointerMap := delete h (userPointerMap w);
          lastId := lastId w;
          hostLog := hostLog w ++ [js_rtcDeletePeerConnection (pc_mId p)];
          clientLog := clientLog w |}).
Proof.
  intros E.
  unfold rtcClosePeerConnection, rtcDeletePeerConnection, getPeerConnection,
    PeerConnection_close, erasePeerConnection, PeerConnection_delete.
  mexec. rewrite E. world_cbn. rewrite E. world_cbn. done.
Qed.

Lemma peer_connection_close_delete_witness :
  rtcClosePeerConnection 1 (rtcCreatePeerConnection demo_platform [] initial).2
  = (RTC_ERR_SUCCESS, (rtcCreatePeerConnection demo_platform [] initial).2).
Proof.
  apply (peer_connection_close_delete demo_platform 1
           {| pc_mId := 1; mState := 0; mIceState := 0; mGatheringState := 0;
              mSignalingState := 0; mDataChannelCallback := None;
              mLocalDescriptionCallback := None; mLocalCandidateCallback := None;
              mStateChangeCallback := None; mIceStateChangeCallback := None;
              mGatheringStateChangeCallback := None;
              mSignalingStateChangeCallback := None |}).
  vm_compute. reflexivity.
Defined.

(** ** Computations that only talk to the host *)

Lemma quiet_ret {A} (a : A) : quiet (mret a).
Proof. intros w. exists (inr a), (hostLog w). mexec. by rewrite set_hostLog_id. Qed.

Lemma quiet_throw {A} (e : exn) : quiet (throw (A := A) e).
Proof. intros w. exists (inl e), (hostLog w). mexec. by rewrite set_hostLog_id. Qed.

Lemma quiet_gets {A} (f : World → A) : quiet (gets f).
Proof. intros w. exists (inr (f w)), (hostLog w). mexec. by rewrite set_hostLog_id. Qed.

Lemma quiet_call (P : Platform) (c : HostCall) : quiet (call P c).
Proof. intros w. eexists _, _. mexec. reflexivity. Qed.

Lemma quiet_call_buf (P : Platform) (c : HostCall) : quiet (call_buf P c).
Proof. intros w. eexists _, _. mexec. reflexivity. Qed.

Lemma quiet_bind {A B} (m : M A) (k : A → M B) :
  quiet m → (∀ a, quiet (k a)) → quiet (m ≫= k).
Proof.
  intros Hm Hk w. destruct (Hm w) as (r & hl & E). mexec. rewrite E.
  destruct r as [e | a].
  - by exists (inl e), hl.
  - destruct (Hk a (set_hostLog hl w)) as (r' & hl' & E').
    exists r', hl'. rewrite E'. by destruct w.
Qed.

Ltac quiet :=
  repeat first
    [ apply quiet_ret | apply quiet_throw | apply quiet_gets
    | apply quiet_call | apply quiet_call_buf
    | apply quiet_bind; [| intros ?]
    | match goal with
      | |- quiet (match ?x with _ => _ end) => destruct x
      | |- quiet (if ?x then _ else _) => destruct x
      end
    | assumption ].

Lemma quiet_DataChannel_close (P : Platform) (d : DataChannel) :
  quiet (DataChannel_close P d).
Proof. unfold DataChannel_close. quiet. Qed.

Lemma quiet_WebSocket_close (P : Platform) (s : WebSocket) : quiet (WebSocket_close P s).
Proof. unfold WebSocket_close. quiet. Qed.

Lemma quiet_send (P : Platform) (m : message_variant) (c : AnyChannel) :
  quiet (send P m c).
Proof. destruct c; simpl; unfold DataChannel_send, WebSocket_send; quiet. Qed.

Lemma quiet_bufferedAmount (P : Platform) (c : AnyChannel) : quiet (bufferedAmount P c).
Proof. destruct c; simpl; unfold DataChannel_bufferedAmount; quiet. Qed.

Lemma quiet_setBufferedAmountLowThreshold (P : Platform) (n : Z) (c : AnyChannel) :
  quiet (setBufferedAmountLowThreshold P n c).
Proof. destruct c; simpl; unfold DataChannel_setBufferedAmountLowThreshold; quiet. Qed.

Lemma quiet_DataChannel_reliability (P : Platform) (d : DataChannel) :
  quiet (DataChannel_reliability P d).
Proof. unfold DataChannel_reliability. quiet. Qed.

Lemma quiet_DataChannel_new (P : Platform) (id : Z) : quiet (DataChannel_new P id).
Proof. unfold DataChannel_new. quiet. Qed.

Lemma quiet_WebSocket_open (P : Platform) (url : std_string) (s : WebSocket) :
  quiet (WebSocket_open P url s).
Proof. unfold WebSocket_open. quiet. apply quiet_WebSocket_close. Qed.

Lemma quiet_PeerConnection_new (P : Platform) (config : list IceServer) :
  quiet (PeerConnection_new P config).
Proof. unfold PeerConnection_new. quiet. Qed.

Lemma quiet_PeerConnection_createDataChannel (P : Platform) (label : std_string)
    (r : Reliability) (p : PeerConnection) :
  quiet (PeerConnection_createDataChannel P label r p).
Proof.
  unfold PeerConnection_createDataChannel. quiet; apply quiet_DataChannel_new.
Qed.

Lemma quiet_PeerConnection_localDescription (P : Platform) (p : PeerConnection) :
  quiet (PeerConnection_localDescription P p).
Proof. unfold PeerConnection_localDescription. quiet. Qed.

Lemma quiet_PeerConnection_remoteDescription (P : Platform) (p : PeerConnection) :
  quiet (PeerConnection_remoteDescription P p).
Proof. unfold PeerConnection_remoteDescription. quiet. Qed.

Lemma quiet_parse_config (P : Platform) (l : list std_string) : quiet (parse_config P l).
Proof. unfold parse_config. quiet. Qed.

(** Runs a computation that only talks to the host in the goal. *)
Ltac run_q H :=
  let r := fresh "r" in let hl := fresh "hl" in let E := fresh "E" in
  destruct H as (r & hl & E); rewrite E; clear E; cbn [fst snd].

Ltac run_quiet :=
  match goal with
  | |- context [send ?P ?m ?c ?w] => run_q (quiet_send P m c w)
  | |- context [close ?P ?c ?w] => rewrite (close_spec P c w)
  | |- context [DataChannel_close ?P ?c ?w] => rewrite (DataChannel_close_spec P c w)
  | |- context [WebSocket_close ?P ?c ?w] => rewrite (WebSocket_close_spec P c w)
  | |- context [bufferedAmount ?P ?c ?w] => run_q (quiet_bufferedAmount P c w)
  | |- context [setBufferedAmountLowThreshold ?P ?n ?c ?w] =>
      run_q (quiet_setBufferedAmountLowThreshold P n c w)
  | |- context [DataChannel_reliability ?P ?d ?w] =>
      run_q (quiet_DataChannel_reliability P d w)
  | |- context [DataChannel_delete ?P ?d ?w] => run_ho (host_only_DataChannel_delete P d w)
  | |- context [WebSocket_delete ?P ?d ?w] => run_ho (host_only_WebSocket_delete P d w)
  | |- context [PeerConnection_delete ?P ?d ?w] =>
      run_ho (host_only_PeerConnection_delete P d w)
  | |- context [WebSocket_open ?P ?u ?s ?w] => run_q (quiet_WebSocket_open P u s w)
  | |- context [PeerConnection_new ?P ?c ?w] => run_q (quiet_PeerConnection_new P c w)
  | |- context [PeerConnection_createDataChannel ?P ?l ?r ?p ?w] =>
      run_q (quiet_PeerConnection_createDataChannel P l r p w)
  | |- context [PeerConnection_localDescription ?P ?p ?w] =>
      run_q (quiet_PeerConnection_localDescription P p w)
  | |- context [PeerConnection_remoteDescription ?P ?p ?w] =>
      run_q (quiet_PeerConnection_remoteDescription P p w)
  | |- context [PeerConnection_setRemoteDescription ?P ?d ?p ?w] =>
      unfold PeerConnection_setRemoteDescription
  | |- context [PeerConnection_addRemoteCandidate ?P ?d ?p ?w] =>
      unfold PeerConnection_addRemoteCandidate
  | |- context [parse_config ?P ?l ?w] => run_q (quiet_parse_config P l w)
  | |- context [DataChannel_new ?P ?i ?w] => run_q (quiet_DataChannel_new P i w)
  end.

Ltac sym_quiet :=
  repeat first
    [ progress mexec
    | progress cbn [with_channel closed transport release channel_of isOpen isClosed
                    putChannel dc_channel ws_channel dc_mId ws_mId]
    | progress unfold putChannel, putDataChannel, putWebSocket, putPeerConnection,
        eraseChannel, eraseDataChannel, erasePeerConnection, eraseWebSocket,
        emplaceDataChannel, emplacePeerConnection, emplaceWebSocket,
        getPeerConnection, getDataChannel, getWebSocket, getChannel,
        setUserPointer, getUserPointer, PeerConnection_close,
        PeerConnection_setLocalDescription, ret_with
    | run_quiet
    | match goal with
      | |- context [match ?x with _ => _ end] =>
          lazymatch x with
          | context [match _ with _ => _ end] => fail
          | _ => first [ is_var x; destruct x | destruct x eqn:? ]
          end
      end ].

Lemma abi_clientLog (P : Platform) (c : AbiCall) (w : World) :
  clientLog (abi P c w).2 = clientLog w.
Proof.
  destruct c; simpl; unfold ret_with; cbn [fst snd].
  all: try (unfold_abi; sym_quiet; world_cbn; done).
  unfold rtcCleanup. cbn [snd]. by destruct (eraseAll_spec P w) as (n & log & ->).
Qed.

(** X13: no exported function calls a client callback: whatever the call
    and the state, the client has been called after it exactly as before.
    Not even [rtcClose] and the deletes, which close a channel, tell the
    Closed callback.  Callbacks run from the events the host delivers only. *)
Theorem api_calls_no_callback (P : Platform) (c : AbiCall) (w : World) :
  clientLog (abi P c w).2 = clientLog w.
Proof. apply abi_clientLog. Qed.

Lemma to_int_SUCCESS : to_int RTC_ERR_SUCCESS = 0.
Proof. reflexivity. Qed.

(** X14: an exported function that answers a negative status has left the
    registry as it was: the three resource maps, the user-pointer map and the
    counter are unchanged, and no client callback was called.  (The host may
    have been asked.)  The counter has headroom, so that a handle is not
    taken for an error. *)
Theorem failed_call_changes_nothing (P : Platform) (c : AbiCall) (w : World) (z : Z) :
  0 <= lastId w < INT_MAX →
  status (abi P c w).1 = Some z →
  z < 0 →
  same_registry w (abi P c w).2 ∧ clientLog (abi P c w).2 = clientLog w.
Proof.
  intros Hl Hz Hneg. split; [| apply abi_clientLog].
  unfold INT_MAX in Hl.
  assert (En : to_int (lastId w + 1) = lastId w + 1) by (apply to_int_small; lia).
  revert Hz. unfold same_registry.
  destruct c; simpl; unfold ret_with; cbn [fst snd status];
    try discriminate;
    unfold_abi; sym_quiet; world_cbn; intros Hz.
  all: try (split_and!; reflexivity).
  all: injection Hz as <-; exfalso; revert Hneg;
    rewrite ?to_int_SUCCESS, ?to_int_idemp, ?En; first [lia | intros _; absurd_lookup].
Qed.

Lemma failed_call_changes_nothing_witness :
  same_registry initial (abi demo_platform (Call_rtcClose 7) initial).2.
Proof.
  apply (failed_call_changes_nothing demo_platform (Call_rtcClose 7) initial (-1));
    vm_compute; try done; split; discriminate.
Defined.

Lemma emplace_fresh {V} (k : Z) (v : V) (m : gmap Z V) :
  m !! k = None → emplace k v m = <[k := v]> m.
Proof. intros E. unfold emplace. by rewrite E. Qed.

Lemma world_eq (w w' : World) :
  peerConnectionMap w = peerConnectionMap w' →
  dataChannelMap w = dataChannelMap w' →
  webSocketMap w = webSocketMap w' →
  userPointerMap w = userPointerMap w' →
  lastId w = lastId w' →
  hostLog w = hostLog w' →
  clientLog w = clientLog w' →
  w = w'.
Proof. destruct w, w'. simpl. by intros -> -> -> -> -> -> ->. Qed.

Lemma emplace_default (k : Z) (m : gmap Z void_ptr) :
  emplace k nullptr m = <[k := default nullptr (m !! k)]> m.
Proof.
  unfold emplace, void_ptr in *. case_match; simpl; [symmetry; by apply insert_id | done].
Qed.

(** X15: [rtcCreateWebSocket].  When the host has no web sockets the answer
    is [RTC_ERR_FAILURE] after one host call, nothing is registered and no
    counter value is used up.  Otherwise the host is asked for a socket and
    the three callbacks are subscribed, and the socket is registered under
    the next counter value with whatever transport the host answered (the
    answer is not checked), not open, without callbacks; the user pointer of
    the handle is null unless the client had written one beforehand, which is
    kept. *)
Theorem rtcCreateWebSocket_outcomes (P : Platform) (url : std_string) (w : World) :
  let l1 := hostLog w ++ [emscripten_websocket_is_supported] in
  let l2 := l1 ++ [emscripten_websocket_new url] in
  let ws := host_ret P l2 in
  (host_ret P l1 = 0 → rtcCreateWebSocket P url w = (RTC_ERR_FAILURE, set_hostLog l1 w))
  ∧ (host_ret P l1 ≠ 0 → 0 <= lastId w < INT_MAX →
     webSocketMap w !! (lastId w + 1) = None →
     rtcCreateWebSocket P url w
     = (lastId w + 1,
        {| peerConnectionMap := peerConnectionMap w;
           dataChannelMap := dataChannelMap w;
           webSocketMap :=
             <[lastId w + 1 := {| ws_channel := Channel_new; ws_mId := ws;
                                  ws_mConnected := false |}]> (webSocketMap w);
           userPointerMap :=
             <[lastId w + 1 := default nullptr (userPointerMap w !! (lastId w + 1))]>
               (userPointerMap w);
           lastId := lastId w + 1;
           hostLog := l2 ++ [emscripten_websocket_set_onopen_callback ws;
                             emscripten_websocket_set_onerror_callback ws;
                             emscripten_websocket_set_onmessage_callback ws];
           clientLog := clientLog w |})).
Proof.
  intros l1 l2 ws. subst l1 l2 ws. split.
  - intros E. unfold rtcCreateWebSocket, WebSocket_open, WebSocket_close, WebSocket_new.
    mexec. cbn [ws_mId]. rewrite decide_True by done. mexec. world_cbn.
    rewrite E. by rewrite decide_True by done.
  - intros E Hl Hf. unfold INT_MAX in Hl.
    assert (En : to_int (lastId w + 1) = lastId w + 1) by (apply to_int_small; lia).
    unfold rtcCreateWebSocket, WebSocket_open, WebSocket_close, WebSocket_new,
      emplaceWebSocket, emplaced.
    mexec. cbn [ws_mId]. rewrite decide_True by done. mexec. world_cbn.
    rewrite decide_False by done. mexec. world_cbn.
    rewrite !En. rewrite bool_decide_true by done. mexec. world_cbn. rewrite ?to_int_idemp, ?En.
    rewrite (emplace_fresh _ _ _ Hf).
    f_equal. apply world_eq; world_cbn; try done.
    + apply emplace_default.
    + by rewrite <- !app_assoc.
Qed.

Lemma rtcCreateWebSocket_outcomes_witness :
  (rtcCreateWebSocket demo_platform (str "ws://h") initial).1 = 1.
Proof.
  destruct (rtcCreateWebSocket_outcomes demo_platform (str "ws://h") initial)
    as [_ H].
  rewrite H; [reflexivity | vm_compute; discriminate | unfold INT_MAX; simpl; lia
             | reflexivity].
Defined.

(** X16: [rtcCreatePeerConnection] with a configuration whose servers all
    parse.  The constructor asks the host for a peer connection first, with
    one URL, one user name and one password for each server.  When the host
    answers 0 the function answers [RTC_ERR_FAILURE]: nothing else was asked,
    nothing is registered and no counter value is used up.  Otherwise the
    seven callbacks are subscribed at the host and the peer connection is
    registered under the next counter value, without client callbacks; the
    user pointer of the handle is null unless the client had written one
    beforehand, which is kept. *)
Theorem rtcCreatePeerConnection_outcomes (P : Platform) (iceServers : list std_string)
    (config : list IceServer) (w : World) :
  mapM (parseIceServer P) iceServers = Some config →
  let create := js_rtcCreatePeerConnection (c_str ∘ ice_url <$> config)
                  (c_str ∘ username <$> config) (c_str ∘ password <$> config)
                  (to_int (Z.of_nat (length config))) in
  let mId := host_ret P (hostLog w ++ [create]) in
  (mId = 0 →
   rtcCreatePeerConnection P iceServers w
   = (RTC_ERR_FAILURE, set_hostLog (hostLog w ++ [create]) w))
  ∧ (mId ≠ 0 → 0 <= lastId w < INT_MAX →
     peerConnectionMap w !! (lastId w + 1) = None →
     (rtcCreatePeerConnection P iceServers w).1 = lastId w + 1
     ∧ let w' := (rtcCreatePeerConnection P iceServers w).2 in
       (∃ p, peerConnectionMap w' = <[lastId w + 1 := p]> (peerConnectionMap w)
             ∧ pc_mId p = mId
             ∧ ∀ slot, pc_on slot None p = p)
       ∧ dataChannelMap w' = dataChannelMap w
       ∧ webSocketMap w' = webSocketMap w
       ∧ userPointerMap w'
         = <[lastId w + 1 := default nullptr (userPointerMap w !! (lastId w + 1))]>
             (userPointerMap w)
       ∧ lastId w' = lastId w + 1
       ∧ hostLog w'
         = hostLog w ++ [create; js_rtcSetUserPointer mId;
                         js_rtcSetDataChannelCallback mId;
                         js_rtcSetLocalDescriptionCallback mId;
                         js_rtcSetLocalCandidateCallback mId;
                         js_rtcSetStateChangeCallback mId;
                         js_rtcSetIceStateChangeCallback mId;
                         js_rtcSetGatheringStateChangeCallback mId;
                         js_rtcSetSignalingStateChangeCallback mId]
       ∧ clientLog w' = clientLog w).
Proof.
  intros Ec create mId. subst mId create.
  unfold rtcCreatePeerConnection, parse_config, PeerConnection_new. rewrite Ec. split.
  - intros E. mexec. world_cbn. rewrite E. by rewrite decide_True by done.
  - intros E Hl Hf. unfold INT_MAX in Hl.
    assert (En : to_int (lastId w + 1) = lastId w + 1) by (apply to_int_small; lia).
    unfold emplacePeerConnection, emplaced.
    mexec. world_cbn. rewrite decide_False by done. mexec. world_cbn.
    rewrite !En. rewrite bool_decide_true by done. mexec. world_cbn.
    rewrite ?to_int_idemp, ?En. rewrite (emplace_fresh _ _ _ Hf).
    split_and!; try done.
    + eexists. split_and!; [reflexivity | reflexivity |]. by intros [].
    + apply emplace_default.
    + by rewrite <- !app_assoc.
Qed.

Lemma rtcCreatePeerConnection_outcomes_witness :
  (rtcCreatePeerConnection demo_platform [] initial).1 = 1.
Proof.
  destruct (rtcCreatePeerConnection_outcomes demo_platform [] [] initial eq_refl)
    as [_ H].
  apply H; [vm_compute; discriminate | unfold INT_MAX; simpl; lia | reflexivity].
Defined.



Lemma lookup_emplace_ne {V} (k h : Z) (x : V) (m : gmap Z V) :
  h ≠ k → emplace k x m !! h = m !! h.
Proof. intros Hne. unfold emplace. destruct (m !! k); [done | by rewrite lookup_insert_ne]. Qed.



(** X18: from [rtcSetOpenCallback] to the open confirmation.  On a
    registered channel the function answers [RTC_ERR_SUCCESS] and replaces the
    Open callback; a null function pointer clears it.  The host's open
    confirmation that follows marks the channel open, whether or not a
    callback is set and whatever the transport, asks the host nothing, and
    calls the client once, with the handle and its user pointer, exactly when
    the function pointer was not null and the handle has a user pointer.  (The
    trigger of the [Channel] base class is the modelled one.) *)
Theorem open_callback_then_event (P : Platform) (h : Z) (cb : fn_ptr) (c : AnyChannel)
    (w : World) :
  getChannel h w = (inr c, w) →
  let w1 := (rtcSetOpenCallback h cb w).2 in
  let w2 := (deliver P (open_event c h) w1).2 in
  (rtcSetOpenCallback h cb w).1 = RTC_ERR_SUCCESS
  ∧ (∃ c', getChannel h w2 = (inr c', w2) ∧ isOpen c' = true
           ∧ transport c' = transport c)
  ∧ hostLog w2 = hostLog w
  ∧ clientLog w2
    = clientLog w ++ (if decide (cb = 0) then []
                      else match userPointerMap w !! h with
                           | Some ptr => [call_rtcOpenCallbackFunc cb h ptr]
                           | None => []
                           end).
Proof.
  intros E w1 w2. subst w2 w1. apply getChannel_Some in E as Hc. destruct Hc as [_ Hc].
  unfold rtcSetOpenCallback. mexec. rewrite E.
  destruct c as [d | s]; [| destruct Hc as [Hd Hs]];
    cbn [putChannel with_channel open_event deliver];
    destruct (decide (cb = 0)); destruct (userPointerMap w !! h) eqn:Eu;
    repeat first
      [ progress mexec
      | progress unfold putDataChannel, putWebSocket, on_dataChannel, on_webSocket,
          DataChannel_OpenCallback, WebSocket_OpenCallback, DataChannel_triggerOpen,
          WebSocket_triggerOpen, Channel_triggerOpen, onOpen, closure, open_lambda,
          getUserPointer, getChannel
      | progress world_cbn
      | progress cbn [dc_channel ws_channel mOpenCallback cl_id cl_cb dc_mId ws_mId
                      dc_mConnected ws_mConnected isOpen transport]
      | rewrite lookup_insert_eq
      | rewrite Hd
      | rewrite Eu
      | rewrite decide_True by done
      | rewrite decide_False by done
      | rewrite app_nil_r ];
    split_and!; try done; eexists; split_and!; reflexivity.
Qed.

Lemma open_callback_then_event_witness :
  clientLog
    (deliver demo_platform (WebSocket_Open 1)
       (rtcSetOpenCallback 1 5 (rtcCreateWebSocket demo_platform (str "ws://h") initial).2).2).2
  = [call_rtcOpenCallbackFunc 5 1 0].
Proof.
  destruct (open_callback_then_event demo_platform 1 5
              (AsWebSocket {| ws_channel := Channel_new; ws_mId := 2;
                              ws_mConnected := false |})
              (rtcCreateWebSocket demo_platform (str "ws://h") initial).2)
    as (_ & _ & _ & H); [vm_compute; reflexivity |].
  exact H.
Defined.

(** X19: from a state callback setter to the state event.  Each of
    [rtcSetStateChangeCallback], [rtcSetIceStateChangeCallback],
    [rtcSetGatheringStateChangeCallback] and
    [rtcSetSignalingStateChangeCallback] answers [RTC_ERR_SUCCESS] on a
    registered peer connection.  The state event of the host that follows
    stores the new state in the member of its kind and leaves the other three
    alone, asks the host nothing, and calls the client once, with the handle,
    the new state and the user pointer, exactly when the function pointer was
    not null and the handle has a user pointer. *)
Theorem state_callback_then_event (P : Platform) (h : Z) (slot : PcSlot) (cb : fn_ptr)
    (state : Z) (p : PeerConnection) (w : World) :
  peerConnectionMap w !! h = Some p →
  is_state_slot slot = true →
  let w1 := (rtcSetPeerConnectionCallback slot h cb w).2 in
  let w2 := (deliver P (PeerConnection_State h slot state) w1).2 in
  (rtcSetPeerConnectionCallback slot h cb w).1 = RTC_ERR_SUCCESS
  ∧ (∃ p', peerConnectionMap w2 !! h = Some p'
           ∧ pc_mId p' = pc_mId p
           ∧ pc_state slot p' = state
           ∧ ∀ other, other ≠ slot → is_state_slot other = true →
                      pc_state other p' = pc_state other p)
  ∧ hostLog w2 = hostLog w
  ∧ clientLog w2
    = clientLog w ++ (if decide (cb = 0) then []
                      else match userPointerMap w !! h with
                           | Some ptr => [state_call slot cb h state ptr]
                           | None => []
                           end).
Proof.
  intros E Hs w1 w2. subst w2 w1.
  unfold rtcSetPeerConnectionCallback, getPeerConnection, putPeerConnection.
  mexec. rewrite E. mexec. world_cbn. cbn [deliver].
  unfold on_peerConnection, PeerConnection_triggerState, putPeerConnection, state_lambda,
    getUserPointer, closure.
  destruct slot; try discriminate; clear Hs;
    destruct (decide (cb = 0)); destruct (userPointerMap w !! h) eqn:Eu;
    repeat first
      [ progress mexec
      | progress world_cbn
      | progress cbn [pc_state_callback pc_set_state pc_on mStateChangeCallback
                      mIceStateChangeCallback mGatheringStateChangeCallback
                      mSignalingStateChangeCallback cl_id cl_cb state_call]
      | rewrite lookup_insert_eq
      | rewrite Eu
      | rewrite app_nil_r ];
    (split_and!; try done; eexists; split_and!;
     [reflexivity | reflexivity | reflexivity |]; by intros []).
Qed.

Lemma state_callback_then_event_witness :
  clientLog
    (deliver demo_platform (PeerConnection_State 1 IceStateChangeSlot 3)
       (rtcSetPeerConnectionCallback IceStateChangeSlot 1 5
          (rtcCreatePeerConnection demo_platform [] initial).2).2).2
  = [call_rtcIceStateChangeCallbackFunc 5 1 3 0].
Proof.
  destruct (state_callback_then_event demo_platform 1 IceStateChangeSlot 5 3
              {| pc_mId := 1; mState := 0; mIceState := 0; mGatheringState := 0;
                 mSignalingState := 0; mDataChannelCallback := None;
                 mLocalDescriptionCallback := None; mLocalCandidateCallback := None;
                 mStateChangeCallback := None; mIceStateChangeCallback := None;
                 mGatheringStateChangeCallback := None;
                 mSignalingStateChangeCallback := None |}
              (rtcCreatePeerConnection demo_platform [] initial).2)
    as (_ & _ & _ & H); [reflexivity | reflexivity |].
  exact H.
Defined.

(** X20: from [rtcSetErrorCallback] to an error of a data channel.  The error
    reported by the host reaches the client callback as a C string, and a null
    error message is reported as the text unknown.  The channel itself is left
    as it was: an error neither closes it nor releases its transport, and the
    host is asked nothing.  (The trigger of the [Channel] base class is the
    modelled one.) *)
Theorem error_callback_then_event (P : Platform) (h : Z) (cb : fn_ptr) (ptr : void_ptr)
    (error : char_ptr) (d : DataChannel) (w : World) :
  dataChannelMap w !! h = Some d →
  userPointerMap w !! h = Some ptr →
  cb ≠ 0 →
  let w1 := (rtcSetErrorCallback h cb w).2 in
  let w2 := (deliver P (DataChannel_Error h error) w1).2 in
  clientLog w2
  = clientLog w ++ [call_rtcErrorCallbackFunc cb h
                      (c_str (match error with
                              | Some e => string_of e
                              | None => str "unknown"
                              end)) ptr]
  ∧ dataChannelMap w2 = dataChannelMap w1
  ∧ hostLog w2 = hostLog w
  ∧ ∃ d', dataChannelMap w2 !! h = Some d' ∧ dc_mId d' = dc_mId d
          ∧ dc_mConnected d' = dc_mConnected d.
Proof.
  intros E Eu Hcb w1 w2. subst w2 w1.
  unfold rtcSetErrorCallback, getChannel, putChannel. mexec. rewrite E. mexec.
  cbn [with_channel deliver].
  repeat first
    [ progress mexec
    | progress unfold putDataChannel, on_dataChannel, DataChannel_ErrorCallback,
        Channel_triggerError, onError, closure, error_lambda, getUserPointer
    | progress world_cbn
    | progress cbn [dc_channel mErrorCallback cl_id cl_cb dc_mId dc_mConnected]
    | rewrite lookup_insert_eq
    | rewrite Eu
    | rewrite decide_False by done
    | rewrite insert_insert_eq ].
  split_and!; try done. eexists. split_and!; reflexivity.
Qed.

Lemma error_callback_then_event_witness :
  clientLog
    (deliver demo_platform (DataChannel_Error 2 None)
       (rtcSetErrorCallback 2 5
          (rtcCreateDataChannel demo_platform 1 (str "chat")
             (rtcCreatePeerConnection demo_platform [] initial).2).2).2).2
  = [call_rtcErrorCallbackFunc 5 2 (c_str (str "unknown")) 0].
Proof.
  destruct (error_callback_then_event demo_platform 2 5 0 None
              {| dc_channel := Channel_new; dc_mId := 10; dc_mConnected := false;
                 mLabel := str "chat" |}
              (rtcCreateDataChannel demo_platform 1 (str "chat")
                 (rtcCreatePeerConnection demo_platform [] initial).2).2)
    as (H & _); [vm_compute; reflexivity | reflexivity | discriminate |].
  exact H.
Defined.

Lemma set_hostLog_twice (l k : list HostCall) (w : World) :
  set_hostLog l (set_hostLog k w) = set_hostLog l w.
Proof. by destruct w. Qed.

Lemma mapM_release {A} (f : A → M unit) (rel : A → list HostCall) (l : list A) :
  (∀ a w, f a w = (inr (), set_hostLog (hostLog w ++ rel a) w)) →
  ∀ w, mapM f l w
       = (inr (replicate (length l) ()), set_hostLog (hostLog w ++ (l ≫= rel)) w).
Proof.
  intros Hf. induction l as [| a l IH]; intros w; simpl.
  - mexec. by rewrite app_nil_r, set_hostLog_id.
  - unfold mbind at 1. unfold M_bind at 1. rewrite Hf.
    unfold mbind at 1. unfold M_bind at 1. rewrite IH. mexec. world_cbn.
    by rewrite set_hostLog_twice, app_assoc.
Qed.

Lemma DataChannel_delete_spec (P : Platform) (d : DataChannel) (w : World) :
  DataChannel_delete P d w = (inr (), set_hostLog (hostLog w ++ dataChannel_release d) w).
Proof.
  unfold DataChannel_delete, dataChannel_release. mexec. rewrite DataChannel_close_spec.
  case_decide; [by rewrite app_nil_r, set_hostLog_id | done].
Qed.

Lemma WebSocket_delete_spec (P : Platform) (s : WebSocket) (w : World) :
  WebSocket_delete P s w = (inr (), set_hostLog (hostLog w ++ webSocket_release s) w).
Proof.
  unfold WebSocket_delete, webSocket_release. mexec. rewrite WebSocket_close_spec.
  case_decide; [by rewrite app_nil_r, set_hostLog_id | done].
Qed.

Lemma omap_lookup_fst {V} (m : gmap Z V) (l : list (Z * V)) :
  (∀ k v, (k, v) ∈ l → m !! k = Some v) →
  omap (λ k, (k,.) <$> m !! k) l.*1 = l.
Proof.
  induction l as [| [k v] l IH]; intros H; simpl; [done |].
  rewrite (H k v) by left. simpl. f_equal. apply IH. intros k' v' Hin. apply H. by right.
Qed.

Lemma in_clear_order_perm {V} (P : Platform) (w : World) (m : gmap Z V) :
  in_clear_order P w m ≡ₚ map_to_list m.
Proof.
  unfold in_clear_order. rewrite (clear_order_perm P w).
  rewrite omap_lookup_fst; [done |].
  intros k v Hin. by apply elem_of_map_to_list.
Qed.

(** X21: [rtcCleanup] empties the three resource maps and the user-pointer
    map, pointers written for handles that were never registered included.
    It calls no client callback, and it does not reset the counter, so the
    handles given out afterwards continue after the last one.  The host hears
    of every object once: a data channel and a web socket that still hold a
    transport are released, those already closed are not mentioned, and every
    peer connection is deleted.  The data channels go first, then the peer
    connections, then the web sockets; the order within one map is the
    library's. *)
Theorem rtcCleanup_releases_everything (P : Platform) (w : World) :
  ∃ dcs pcs wss,
    dcs ≡ₚ map_to_list (dataChannelMap w)
    ∧ pcs ≡ₚ map_to_list (peerConnectionMap w)
    ∧ wss ≡ₚ map_to_list (webSocketMap w)
    ∧ (rtcCleanup P w).2
      = {| peerConnectionMap := ∅; dataChannelMap := ∅; webSocketMap := ∅;
           userPointerMap := ∅; lastId := lastId w;
           hostLog := hostLog w
                      ++ (dcs ≫= λ kv, dataChannel_release kv.2)
                      ++ ((λ kv, js_rtcDeletePeerConnection (pc_mId kv.2)) <$> pcs)
                      ++ (wss ≫= λ kv, webSocket_release kv.2);
           clientLog := clientLog w |}.
Proof.
  exists (in_clear_order P w (dataChannelMap w)), (in_clear_order P w (peerConnectionMap w)),
    (in_clear_order P w (webSocketMap w)).
  split_and!; try apply in_clear_order_perm.
  unfold rtcCleanup, eraseAll. cbn [snd].
  pose proof (mapM_release (λ kv : Z * DataChannel, DataChannel_delete P kv.2)
                (λ kv, dataChannel_release kv.2) (in_clear_order P w (dataChannelMap w))
                (λ kv, DataChannel_delete_spec P kv.2)) as H1.
  pose proof (mapM_release (λ kv : Z * PeerConnection, PeerConnection_delete P kv.2)
                (λ kv, [js_rtcDeletePeerConnection (pc_mId kv.2)])
                (in_clear_order P w (peerConnectionMap w))
                (λ kv w, eq_refl)) as H2.
  pose proof (mapM_release (λ kv : Z * WebSocket, WebSocket_delete P kv.2)
                (λ kv, webSocket_release kv.2) (in_clear_order P w (webSocketMap w))
                (λ kv, WebSocket_delete_spec P kv.2)) as H3.
  unfold mbind at 1 2 3. unfold M_bind at 1 2 3. unfold gets. simpl.
  revert H1 H2 H3.
  generalize (mapM (λ kv : Z * DataChannel, DataChannel_delete P kv.2)
                (in_clear_order P w (dataChannelMap w))).
  generalize (mapM (λ kv : Z * PeerConnection, PeerConnection_delete P kv.2)
                (in_clear_order P w (peerConnectionMap w))).
  generalize (mapM (λ kv : Z * WebSocket, WebSocket_delete P kv.2)
                (in_clear_order P w (webSocketMap w))).
  intros f3 f2 f1 H1 H2 H3. mexec. rewrite H1. mexec. rewrite H2. mexec. rewrite H3.
  mexec. apply world_eq; world_cbn; try done.
  rewrite <- !app_assoc. do 2 f_equal.
Qed.

Lemma step_user_pointer (P : Platform) (s : Step) (h : Z) (w : World) :
  ¬ touches s h →
  h ≠ to_int (lastId w + 1) →
  userPointerMap (step P s w) !! h = userPointerMap w !! h.
Proof.
  intros Ht Hn. destruct s as [c | e]; cbn [step].
  - destruct c; cbn [abi touches] in *; unfold ret_with; cbn [fst snd].
    all: try (unfold_abi; sym; world_cbn;
              rewrite ?lookup_insert_ne, ?lookup_delete_ne, ?lookup_emplace_ne
                by congruence;
              first [ reflexivity | absurd_lookup ]).
    done.
  - destruct e; cbn [deliver].
    all: unfold_deliver; sym; world_cbn;
      rewrite ?lookup_insert_ne, ?lookup_delete_ne, ?lookup_emplace_ne by congruence;
      first [ reflexivity | absurd_lookup ].
Qed.

(** X22: the user pointer of a handle is written by [rtcSetUserPointer] on
    it, removed by a delete of it and by [rtcCleanup], and set when the handle
    is the next counter value and a resource is registered under it.  Every
    other exported function and every event of the host leaves it as it
    is. *)
Theorem user_pointer_frame (P : Platform) (s : Step) (h : Z) (w : World) :
  ¬ touches s h →
  h ≠ to_int (lastId w + 1) →
  userPointerMap (step P s w) !! h = userPointerMap w !! h.
Proof. apply step_user_pointer. Qed.

Lemma user_pointer_frame_witness :
  userPointerMap
    (step demo_platform (Call (Call_rtcDelete 1))
       (rtcSetUserPointer 5 9
          (rtcCreateWebSocket demo_platform (str "ws://h") initial).2).2) !! 5
  = Some 9.
Proof.
  rewrite (user_pointer_frame demo_platform (Call (Call_rtcDelete 1)) 5);
    [reflexivity | simpl; discriminate | vm_compute; discriminate].
Defined.

(** ** The user pointers of the live handles *)

Lemma touches_dec (s : Step) (h : Z) : touches s h ∨ ¬ touches s h.
Proof.
  destruct s as [c | e]; [destruct c |]; simpl; try (by right; intros []);
    try (by left);
    match goal with |- ?i = h ∨ _ => destruct (decide (i = h)); auto end.
Qed.

Lemma is_Some_emplace_same {V} (k : Z) (v : V) (m : gmap Z V) :
  is_Some (emplace k v m !! k).
Proof.
  unfold emplace. destruct (m !! k) eqn:E; [by rewrite E | by rewrite lookup_insert_eq].
Qed.

Lemma new_handle_has_user_pointer (P : Platform) (s : Step) (w : World) :
  lastId (step P s w) ≠ lastId w →
  is_Some (userPointerMap (step P s w) !! lastId (step P s w)).
Proof.
  destruct s as [c | e]; cbn [step].
  - destruct c; cbn [abi]; unfold ret_with; cbn [fst snd].
    all: try (unfold_abi; sym; world_cbn; intros Hl;
              first [ done | apply is_Some_emplace_same | absurd_lookup ]).
    unfold rtcCleanup. cbn [snd]. by destruct (eraseAll_spec P w) as (n & log & ->).
  - destruct e; cbn [deliver].
    all: unfold_deliver; sym; world_cbn; intros Hl;
      first [ done | apply is_Some_emplace_same
            | by rewrite lookup_insert_eq | absurd_lookup ].
Qed.

Lemma live_step_old (w w' : World) (h : Z) :
  reg_step w w' → live h w' → h = to_int (lastId w + 1) ∨ live h w.
Proof.
  intros Hs Hl. unfold live in *.
  destruct (reg_step_keys w w' Hs) as [(El & Kp & Kd & Ks) | (El & K)].
  - right. destruct Hl as [H | [H | H]]; auto.
  - rewrite El in K.
    destruct K as [(K & Ed & Es) | [(K & Ep & Es) | (K & Ep & Ed)]];
      rewrite ?Ep, ?Ed, ?Es in Hl; destruct Hl as [H | [H | H]]; auto;
      apply K in H as [-> | H]; auto.
Qed.

Lemma touched_covered (P : Platform) (s : Step) (h : Z) (w : World) :
  touches s h → well_formed w → covered w → live h (step P s w) →
  is_Some (userPointerMap (step P s w) !! h).
Proof.
  intros Ht (_ & _ & Hpd & Hps & Hds) Hc.
  destruct s as [c | e]; [| done].
  destruct c; cbn [touches] in Ht; try done; subst; cbn [step abi]; unfold ret_with;
    cbn [fst snd].
  1-5: unfold_abi; sym; unfold live; world_cbn;
    rewrite ?lookup_insert_eq, ?lookup_delete_eq, ?delete_insert_eq; intros Hl;
    first
      [ by eauto
      | by apply Hc
      | absurd_lookup
      | exfalso; destruct Hl as [[? Hl] | [[? Hl] | [? Hl]]];
        first [ discriminate
              | by (apply (Hpd h); split; eauto)
              | by (apply (Hps h); split; eauto)
              | by (apply (Hds h); split; eauto) ] ].
  unfold rtcCleanup. cbn [snd]. destruct (eraseAll_spec P w) as (n & log & ->).
  unfold live. world_cbn. rewrite !lookup_empty. intros [[? H] | [[? H] | [? H]]]; done.
Qed.

Lemma covered_step (P : Platform) (s : Step) (w : World) :
  well_formed w → lastId w < INT_MAX → covered w → covered (step P s w).
Proof.
  intros Hwf Hmax Hc h Hlive.
  pose proof (reg_step_step P s w) as Hs.
  destruct (touches_dec s h) as [Ht | Ht]; [by apply touched_covered |].
  destruct (live_step_old w (step P s w) h Hs Hlive) as [-> | Hold].
  - destruct (well_formed_step w (step P s w) Hs Hwf Hmax) as ((_ & Hb & _) & Hl).
    destruct Hwf as (H0 & Hw & _). unfold INT_MAX in Hmax.
    assert (En : to_int (lastId w + 1) = lastId w + 1) by (apply to_int_small; lia).
    rewrite En in *. apply Hb in Hlive.
    assert (El : lastId (step P s w) = lastId w + 1) by lia.
    rewrite <- El. apply new_handle_has_user_pointer. lia.
  - destruct (decide (h = to_int (lastId w + 1))) as [-> | Hne].
    + destruct Hwf as (H0 & Hw & _). apply Hw in Hold. unfold INT_MAX in Hmax.
      rewrite to_int_small in Hold by lia. lia.
    + rewrite step_user_pointer by done. by apply Hc.
Qed.

Lemma covered_initial : covered initial.
Proof.
  intros h [H | [H | H]]; revert H; unfold initial; simpl; rewrite lookup_empty;
    by intros [? ?].
Qed.

Lemma run_covered (P : Platform) (steps : list Step) (w : World) :
  well_formed w → covered w →
  lastId w + Z.of_nat (length steps) <= INT_MAX →
  covered (run P steps w).
Proof.
  revert w. induction steps as [| s steps IH]; intros w Hwf Hc Hmax; [done |].
  cbn [length] in Hmax. rewrite Nat2Z.inj_succ in Hmax.
  pose proof (reg_step_step P s w) as Hstep.
  destruct (well_formed_step w (step P s w) Hstep Hwf ltac:(lia)) as (Hwf' & Hl').
  change (run P (s :: steps) w) with (run P steps (step P s w)).
  apply IH; [done | apply covered_step; [done | lia | done] | lia].
Qed.

(** X23: along every run from the empty registry (exported functions and
    host events in any order, while the counter has headroom) every live
    handle has an entry in the user-pointer map.  So the user-pointer test of
    the callback lambdas never fails for a live handle: an event dispatched
    for a live handle always reaches the client callback, with the pointer
    stored for the handle. *)
Theorem live_handles_have_user_pointer (P : Platform) (steps : list Step) (h : Z) :
  Z.of_nat (length steps) <= INT_MAX →
  live h (run P steps initial) →
  ∃ ptr, userPointerMap (run P steps initial) !! h = Some ptr
         ∧ ∀ e cl, cl_id cl = h →
                   dispatch P e cl (run P steps initial)
                   = (inr (), set_clientLog (clientLog (run P steps initial)
                                             ++ [client_call P e cl ptr])
                                (run P steps initial)).
Proof.
  intros Hmax Hl.
  destruct (run_covered P steps initial well_formed_initial covered_initial Hmax h Hl)
    as [ptr E].
  exists ptr. split; [done |]. intros e cl <-. rewrite dispatch_spec. by rewrite E.
Qed.

Lemma live_handles_have_user_pointer_witness :
  ∃ ptr, userPointerMap
           (run demo_platform [Call (Call_rtcCreateWebSocket (str "ws://h"))] initial) !! 1
         = Some ptr.
Proof.
  destruct (live_handles_have_user_pointer demo_platform
              [Call (Call_rtcCreateWebSocket (str "ws://h"))] 1) as (ptr & E & _).
  - vm_compute. discriminate.
  - right. right. vm_compute. eauto.
  - by exists ptr.
Defined.

Lemma reg_step_not_live (w w' : World) (h : Z) :
  reg_step w w' → well_formed w → lastId w < INT_MAX → h <= lastId w →
  ¬ live h w → ¬ live h w'.
Proof.
  intros Hs (H0 & _) Hmax Hh Hn Hl. unfold INT_MAX in Hmax.
  destruct (live_step_old w w' h Hs Hl) as [-> | Hold]; [| done].
  rewrite to_int_small in Hh by lia. lia.
Qed.

Lemma run_not_live (P : Platform) (steps : list Step) (h : Z) (w : World) :
  well_formed w →
  lastId w + Z.of_nat (length steps) <= INT_MAX →
  h <= lastId w → ¬ live h w → ¬ live h (run P steps w).
Proof.
  revert w. induction steps as [| s steps IH]; intros w Hwf Hmax Hh Hn; [done |].
  cbn [length] in Hmax. rewrite Nat2Z.inj_succ in Hmax.
  pose proof (reg_step_step P s w) as Hstep.
  destruct (well_formed_step w (step P s w) Hstep Hwf ltac:(lia)) as (Hwf' & Hl').
  change (run P (s :: steps) w) with (run P steps (step P s w)).
  apply IH; [done | lia | lia |].
  apply (reg_step_not_live w); [done | done | lia | done | done].
Qed.

(** X24: a handle is never used twice.  Along every run from the empty
    registry (while the counter has headroom), a handle at or below the
    counter that is not live, because it was deleted or because its create
    failed, is not live at any later point either: no later create, event or
    cleanup registers anything under it, and every later call on it that
    looks it up is answered as for a handle that never existed. *)
Theorem handles_never_reused (P : Platform) (before after : list Step) (h : Z) :
  Z.of_nat (length (before ++ after)) <= INT_MAX →
  h <= lastId (run P before initial) →
  ¬ live h (run P before initial) →
  ¬ live h (run P (before ++ after) initial).
Proof.
  intros Hmax Hh Hn. rewrite length_app, Nat2Z.inj_add in Hmax.
  destruct (run_handles P before initial well_formed_initial) as (Hwf & Hl & _);
    [cbn [lastId initial]; lia |].
  cbn [lastId initial] in Hl.
  rewrite run_app. apply run_not_live; [done | lia | done | done].
Qed.

Lemma handles_never_reused_witness :
  ¬ live 1 (run demo_platform
              ([Call (Call_rtcCreateWebSocket (str "ws://h")); Call (Call_rtcDelete 1)]
               ++ [Call (Call_rtcCreateWebSocket (str "ws://h"))]) initial).
Proof.
  apply (handles_never_reused demo_platform
           [Call (Call_rtcCreateWebSocket (str "ws://h")); Call (Call_rtcDelete 1)]
           [Call (Call_rtcCreateWebSocket (str "ws://h"))] 1).
  - vm_compute. discriminate.
  - vm_compute. discriminate.
  - intros [[? H] | [[? H] | [? H]]]; vm_compute in H; discriminate.
Defined.



(** X26: the overload of [copyAndReturn] for a vector of any element type
    follows the ask-and-fetch protocol as well, without a terminator: with a
    null buffer it answers the number of elements; a fetch with that capacity
    answers the same, stores the elements at the front of the buffer and
    leaves the rest of the buffer, and its length when it had the capacity, as
    they were; any smaller capacity answers [RTC_ERR_TOO_SMALL] and leaves the
    buffer alone.  (The length fits [int].) *)
Theorem copyAndReturn_vector_ask_fetch {T} (b mem : list T) :
  Z.of_nat (length b) <= INT_MAX →
  let n := (copyAndReturn_vector b None 0).1 in
  n = Z.of_nat (length b)
  ∧ (∃ mem', copyAndReturn_vector b (Some mem) n = (n, Some mem')
             ∧ take (length b) mem' = b
             ∧ drop (length b) mem' = drop (length b) mem
             ∧ (length b ≤ length mem → length mem' = length mem)%nat)
  ∧ ∀ sz, sz < n → copyAndReturn_vector b (Some mem) sz = (RTC_ERR_TOO_SMALL, Some mem).
Proof.
  intros Hb n. subst n. unfold INT_MAX in Hb.
  assert (En : to_int (Z.of_nat (length b)) = Z.of_nat (length b))
    by (apply to_int_small; lia).
  unfold copyAndReturn_vector. cbn [fst]. rewrite En. split_and!; [done | |].
  - assert (Hlt : (Z.of_nat (length b) <? Z.of_nat (length b)) = false)
      by (apply Z.ltb_ge; lia).
    rewrite Hlt. eexists. split_and!; [reflexivity | | |].
    + by rewrite take_app_length.
    + by rewrite drop_app_length.
    + intros Hm. rewrite length_app, length_drop. lia.
  - intros sz Hsz. apply Z.ltb_lt in Hsz. by rewrite Hsz.
Qed.

Lemma copyAndReturn_vector_ask_fetch_witness :
  copyAndReturn_vector [1; 2] (Some [7; 8; 9]) 2 = (2, Some [1; 2; 9]).
Proof.
  destruct (copyAndReturn_vector_ask_fetch [1; 2] [7; 8; 9])
    as (_ & (mem' & E & _) & _); [vm_compute; discriminate |].
  reflexivity.
Defined.

(** X27: the typed deletes agree with [rtcDelete]: on the handle of a data
    channel [rtcDeleteDataChannel] answers and does exactly what [rtcDelete]
    does, and so does [rtcDeleteWebSocket] on a handle that is a web socket
    and not a data channel. *)
Theorem typed_delete_agrees (P : Platform) (h : Z) (c : AnyChannel) (w : World) :
  getChannel h w = (inr c, w) →
  match c with
  | AsDataChannel _ => rtcDeleteDataChannel P h w = rtcDelete P h w
  | AsWebSocket _ => rtcDeleteWebSocket P h w = rtcDelete P h w
  end.
Proof.
  intros E. apply getChannel_Some in E as Hc. destruct Hc as [_ Hc].
  unfold rtcDelete. mexec. rewrite E, close_spec.
  destruct c as [d | s]; cbn [putChannel closed transport release].
  - unfold rtcDeleteDataChannel, getDataChannel, putDataChannel, eraseDataChannel,
      eraseChannel.
    mexec. rewrite Hc. mexec. rewrite DataChannel_close_spec.
    destruct (decide (dc_mId d = 0)); mexec; world_cbn; by rewrite lookup_insert_eq.
  - destruct Hc as [Hd Hs].
    unfold rtcDeleteWebSocket, getWebSocket, putWebSocket, eraseWebSocket, eraseChannel.
    mexec. rewrite Hs. mexec. rewrite WebSocket_close_spec.
    destruct (decide (ws_mId s = 0)); mexec; world_cbn; rewrite Hd; mexec; world_cbn;
      by rewrite lookup_insert_eq.
Qed.

Lemma typed_delete_agrees_witness :
  rtcDeleteWebSocket demo_platform 1
    (rtcCreateWebSocket demo_platform (str "ws://h") initial).2
  = rtcDelete demo_platform 1 (rtcCreateWebSocket demo_platform (str "ws://h") initial).2.
Proof.
  apply (typed_delete_agrees demo_platform 1
           (AsWebSocket {| ws_channel := Channel_new; ws_mId := 2;
                           ws_mConnected := false |})).
  vm_compute. reflexivity.
Defined.
(** * Callbacks and registered handles *)

(** ** The lambdas and the objects that hold them *)


















(** ** The callbacks a step invokes *)











